(** * Tray hold-time aggregation of [sbarro_report.py]

    A shallow embedding of [fetch_sensor_readings], [aggregate_metrics], the
    loop of [main] and [generate_pdf], with the Python library calls they
    rest on ([datetime.strptime], [datetime] comparison and subtraction,
    [timedelta] arithmetic, [strftime], [sorted], [dict]).

    Conventions.
    - A Python [str] is a [string] holding its UTF-8 bytes; comparing UTF-8
      bytes lexicographically is comparing code points lexicographically,
      which is how Python orders [str].
    - A Python [int] is a [Z].
    - A [dict] whose order is observable (the day and store tables) is an
      association list in insertion order; a reading, a JSON object that is
      only looked up, is a [gmap string string].
    - A call that can raise returns a [result]; [print] appends to a list of
      printed lines.
    - The shape of the input is a type: every record of [data] has its list
      of readings, the values of a reading are strings, a group has all its
      fields.  The exceptions Python would raise on other shapes are outside
      the model. *)

From Stdlib Require Import ZArith Lia List Ascii String Sorting.Sorted Permutation.
From Stdlib Require PrimFloat Uint63 OrderedTypeEx.
From stdpp Require Import base option strings gmap list.

Local Open Scope string_scope.
Local Open Scope Z_scope.

(** ** Exceptions *)

Inductive exn : Set :=
| KeyError
| ValueError
| OverflowError
| ZeroDivisionError
| TypeError.

Inductive result (A : Type) : Type :=
| Ok (a : A)
| Raise (e : exn).

Arguments Ok {A} a.
Arguments Raise {A} e.

#[global] Instance result_ret : MRet result := fun _ a => Ok a.
#[global] Instance result_bind : MBind result := fun _ _ f m =>
  match m with
  | Ok a => f a
  | Raise e => Raise e
  end.

#[global] Instance result_fmap : FMap result := fun _ _ f m =>
  match m with
  | Ok a => Ok (f a)
  | Raise e => Raise e
  end.

(** ** Decimal digits *)

Definition digit_value (c : ascii) : option Z :=
  let n := Z.of_N (N_of_ascii c) in
  if (48 <=? n) && (n <=? 57) then Some (n - 48) else None.

Definition digit_char (d : Z) : ascii := ascii_of_N (Z.to_N (48 + d mod 10)).

(** [str(n).zfill(2)] and [zfill(4)] for the fields [strftime] prints. *)
Definition pad2 (n : Z) : string :=
  String (digit_char (n / 10)) (String (digit_char n) "").

Definition pad4 (n : Z) : string :=
  String (digit_char (n / 1000)) (String (digit_char (n / 100)) (pad2 n)).

(** ** [datetime]

    Naive datetimes; neither format of the program has [%f], so the
    microsecond field is always 0 and is left out. *)

Record datetime : Set := mk_datetime {
  year : Z;
  month : Z;
  day : Z;
  hour : Z;
  minute : Z;
  second : Z
}.

Definition is_leap (y : Z) : bool :=
  (y mod 4 =? 0) && (negb (y mod 100 =? 0) || (y mod 400 =? 0)).

Definition days_in_month (y m : Z) : Z :=
  if m =? 2 then (if is_leap y then 29 else 28)
  else if (m =? 4) || (m =? 6) || (m =? 9) || (m =? 11) then 30
  else 31.

(** [_days_before_year], [_days_before_month], [_ymd2ord] of datetime.py. *)
Definition days_before_year (y : Z) : Z :=
  let y := y - 1 in y * 365 + y / 4 - y / 100 + y / 400.

Definition days_before_month (y m : Z) : Z :=
  let cumul := nth (Z.to_nat (m - 1))
                 [0; 31; 59; 90; 120; 151; 181; 212; 243; 273; 304; 334] 0 in
  cumul + (if (2 <? m) && is_leap y then 1 else 0).

Definition ymd2ord (y m d : Z) : Z :=
  days_before_year y + days_before_month y m + d.

(** The constructor's range checks; every failure is a [ValueError]. *)
Definition datetime_new (y mo d h mi s : Z) : result datetime :=
  if (1 <=? y) && (y <=? 9999)
     && (1 <=? mo) && (mo <=? 12)
     && (1 <=? d) && (d <=? days_in_month y mo)
     && (0 <=? h) && (h <=? 23)
     && (0 <=? mi) && (mi <=? 59)
     && (0 <=? s) && (s <=? 59)
  then Ok (mk_datetime y mo d h mi s)
  else Raise ValueError.

(** Comparison is [_cmp] on the tuples of fields. *)
Definition timetuple (d : datetime) : list Z :=
  [year d; month d; day d; hour d; minute d; second d].

Fixpoint tuple_compare (a b : list Z) : comparison :=
  match a, b with
  | [], [] => Eq
  | [], _ :: _ => Lt
  | _ :: _, [] => Gt
  | x :: a', y :: b' =>
      match x ?= y with
      | Eq => tuple_compare a' b'
      | c => c
      end
  end.

Definition datetime_compare (a b : datetime) : comparison :=
  tuple_compare (timetuple a) (timetuple b).

(** [a < b] and [a > b]. *)
Definition datetime_ltb (a b : datetime) : bool :=
  match datetime_compare a b with Lt => true | _ => false end.

Definition datetime_gtb (a b : datetime) : bool :=
  match datetime_compare a b with Gt => true | _ => false end.

(** [min(a, b)]: the first argument unless the second is smaller. *)
Definition datetime_min (a b : datetime) : datetime :=
  if datetime_ltb b a then b else a.

(** [a <= b] as a proposition. *)
Definition datetime_le (a b : datetime) : Prop :=
  datetime_compare a b <> Gt.

(** ** [timedelta]

    A timedelta is its total number of microseconds.  Python keeps
    [-999999999 <= days <= 999999999] and raises [OverflowError] when a
    result leaves that range. *)

Definition timedelta : Set := Z.

Definition us_per_second : Z := 1000000.
Definition us_per_day : Z := 86400 * us_per_second.

Definition timedelta_min : timedelta := -999999999 * us_per_day.
Definition timedelta_max : timedelta := 999999999 * us_per_day + (us_per_day - 1).

Definition timedelta_in_range (t : Z) : bool :=
  (timedelta_min <=? t) && (t <=? timedelta_max).

Definition timedelta_hours (h : Z) : timedelta := h * 3600 * us_per_second.

(** [a + b]. *)
Definition timedelta_add (a b : timedelta) : result timedelta :=
  if timedelta_in_range (a + b) then Ok (a + b) else Raise OverflowError.

(** [current - initial] of two naive datetimes: the difference of the
    ordinals in days and of the times of day in seconds.  Between two
    datetimes of years 1..9999 it is always in range. *)
Definition seconds_of_day (d : datetime) : Z :=
  hour d * 3600 + minute d * 60 + second d.

Definition datetime_sub (a b : datetime) : timedelta :=
  ((ymd2ord (year a) (month a) (day a) - ymd2ord (year b) (month b) (day b)) * 86400
   + (seconds_of_day a - seconds_of_day b)) * us_per_second.

(** [_divide_and_round]: the quotient rounded to nearest, ties to even;
    [timedelta / int] divides the microseconds with it. *)
Definition divide_and_round (a b : Z) : Z :=
  let q := a / b in
  let r := 2 * (a mod b) in
  let greater_than_half := if 0 <? b then b <? r else r <? b in
  if greater_than_half || ((r =? b) && (q mod 2 =? 1)) then q + 1 else q.

Definition timedelta_truediv (t : timedelta) (n : Z) : timedelta :=
  divide_and_round t n.

(** ** [datetime.strptime]

    [_strptime] turns the format into a regular expression, matches it at
    the start of the data with [re.match], refuses data left over, and
    builds the datetime from the groups.  A backtracking matcher returns
    the first match in priority order; the functions below list all the
    matches of an expression in that order (leftmost alternative first,
    greedy repetition longest first), so the head of the list is the match
    [re.match] returns.  Every failure is a [ValueError].  The groups are
    those of CPython 3.11's [_strptime.py].

    Scope: [\d] is an ASCII digit and [\s] an ASCII white-space character
    (Python accepts other Unicode digits and spaces as well); the
    directives are the six the program uses. *)

Inductive directive : Set := DY | Dm | Dd | DH | DM | DS.

Inductive item : Set :=
| Lit (c : ascii)
| Spaces
| Dir (d : directive).

(** One digit between [lo] and [hi]: the classes [\d], [[0-1]], [[1-9]]... *)
Definition one_digit (lo hi : Z) (s : string) : list (Z * string) :=
  match s with
  | String c rest =>
      match digit_value c with
      | Some v => if (lo <=? v) && (v <=? hi) then [(v, rest)] else []
      | None => []
      end
  | EmptyString => []
  end.

Definition two_digits (lo1 hi1 lo2 hi2 : Z) (s : string) : list (Z * string) :=
  '(a, s1) ← one_digit lo1 hi1 s;
  '(b, s2) ← one_digit lo2 hi2 s1;
  [(10 * a + b, s2)].

Definition literal (c : ascii) (s : string) : list string :=
  match s with
  | String c' rest => if Ascii.eqb c c' then [rest] else []
  | EmptyString => []
  end.

(** The groups of [TimeRE], alternatives in the order they are written. *)
Definition directive_regex (d : directive) (s : string) : list (Z * string) :=
  match d with
  | DY => (* \d\d\d\d *)
      '(a, s1) ← two_digits 0 9 0 9 s;
      '(b, s2) ← two_digits 0 9 0 9 s1;
      [(100 * a + b, s2)]
  | Dm => (* 1[0-2]|0[1-9]|[1-9] *)
      two_digits 1 1 0 2 s ++ two_digits 0 0 1 9 s ++ one_digit 1 9 s
  | Dd => (* 3[0-1]|[1-2]\d|0[1-9]|[1-9]| [1-9] *)
      two_digits 3 3 0 1 s ++ two_digits 1 2 0 9 s ++ two_digits 0 0 1 9 s
      ++ one_digit 1 9 s ++ (s1 ← literal " " s; one_digit 1 9 s1)
  | DH => (* 2[0-3]|[0-1]\d|\d *)
      two_digits 2 2 0 3 s ++ two_digits 0 1 0 9 s ++ one_digit 0 9 s
  | DM => (* [0-5]\d|\d *)
      two_digits 0 5 0 9 s ++ one_digit 0 9 s
  | DS => (* 6[0-1]|[0-5]\d|\d *)
      two_digits 6 6 0 1 s ++ two_digits 0 5 0 9 s ++ one_digit 0 9 s
  end.

Definition is_space (c : ascii) : bool :=
  let n := Z.of_N (N_of_ascii c) in
  (n =? 32) || ((9 <=? n) && (n <=? 13)) || ((28 <=? n) && (n <=? 31)).

(** [\s+]: what is left after one or more spaces, longest run first. *)
Fixpoint spaces_plus (s : string) : list string :=
  match s with
  | String c rest => if is_space c then spaces_plus rest ++ [rest] else []
  | EmptyString => []
  end.

(** [TimeRE.pattern]: a run of white space in the format becomes [\s+], a
    directive its group, any other character itself. *)
Definition directive_of (c : ascii) : option directive :=
  if Ascii.eqb c "Y" then Some DY
  else if Ascii.eqb c "m" then Some Dm
  else if Ascii.eqb c "d" then Some Dd
  else if Ascii.eqb c "H" then Some DH
  else if Ascii.eqb c "M" then Some DM
  else if Ascii.eqb c "S" then Some DS
  else None.

Fixpoint pattern (format : string) (after_space : bool) : option (list item) :=
  match format with
  | EmptyString => Some []
  | String c rest =>
      if Ascii.eqb c "%" then
        match rest with
        | String d rest' =>
            match directive_of d with
            | Some dir => items ← pattern rest' false; Some (Dir dir :: items)
            | None => None
            end
        | EmptyString => None
        end
      else if is_space c then
        items ← pattern rest true;
        Some (if after_space then items else Spaces :: items)
      else
        items ← pattern rest false; Some (Lit c :: items)
  end.

(** The fields found so far, from the defaults of [_strptime]. *)
Definition default_fields : datetime := mk_datetime 1900 1 1 0 0 0.

Definition set_field (d : directive) (v : Z) (f : datetime) : datetime :=
  match d with
  | DY => mk_datetime v (month f) (day f) (hour f) (minute f) (second f)
  | Dm => mk_datetime (year f) v (day f) (hour f) (minute f) (second f)
  | Dd => mk_datetime (year f) (month f) v (hour f) (minute f) (second f)
  | DH => mk_datetime (year f) (month f) (day f) v (minute f) (second f)
  | DM => mk_datetime (year f) (month f) (day f) (hour f) v (second f)
  | DS => mk_datetime (year f) (month f) (day f) (hour f) (minute f) v
  end.

Fixpoint match_items (items : list item) (f : datetime) (s : string)
  : list (datetime * string) :=
  match items with
  | [] => [(f, s)]
  | Lit c :: items' => rest ← literal c s; match_items items' f rest
  | Spaces :: items' => rest ← spaces_plus s; match_items items' f rest
  | Dir d :: items' =>
      '(v, rest) ← directive_regex d s; match_items items' (set_field d v f) rest
  end.

Definition strptime (data_string format : string) : result datetime :=
  match pattern format false with
  | None => Raise ValueError
  | Some items =>
      match match_items items default_fields data_string with
      | [] => Raise ValueError
      | (f, rest) :: _ =>
          match rest with
          | EmptyString =>
              datetime_new (year f) (month f) (day f) (hour f) (minute f) (second f)
          | String _ _ => Raise ValueError
          end
      end
  end.

(** [initial_timestamp.strftime("%Y-%m-%d")].  The year is printed on four
    digits (for years below 1000 some C libraries print fewer; no result
    below depends on it). *)
Definition strftime_Ymd (d : datetime) : string :=
  pad4 (year d) ++ "-" ++ pad2 (month d) ++ "-" ++ pad2 (day d).

(** ** Insertion-ordered dictionaries

    [daily_metrics] and its per-day tables are iterated and sorted, so their
    order is part of the model: a dict is the list of its items in insertion
    order.  [d[k] = v] replaces the value of an existing key in place and
    appends a new key at the end. *)

Definition dict (V : Type) : Type := list (string * V).

Fixpoint dict_get {V} (k : string) (d : dict V) : option V :=
  match d with
  | [] => None
  | (k', v) :: d' => if String.eqb k k' then Some v else dict_get k d'
  end.

Fixpoint dict_set {V} (k : string) (v : V) (d : dict V) : dict V :=
  match d with
  | [] => [(k, v)]
  | (k', v') :: d' =>
      if String.eqb k k' then (k, v) :: d' else (k', v') :: dict_set k v d'
  end.

(** [k in d]. *)
Definition dict_mem {V} (k : string) (d : dict V) : bool :=
  match dict_get k d with Some _ => true | None => false end.

Definition keys {V} (d : dict V) : list string := map fst d.

(** [sorted(d.items())]: tuples compare by their first component, and the
    keys of a dict are distinct, so the values are never compared.  [sorted]
    is stable; so is this insertion sort. *)
Definition str_le (a b : string) : Prop := String.leb a b = true.

Fixpoint insert_item {V} (x : string * V) (l : dict V) : dict V :=
  match l with
  | [] => [x]
  | y :: l' => if String.leb (fst x) (fst y) then x :: l else y :: insert_item x l'
  end.

Definition sorted_items {V} (d : dict V) : dict V :=
  foldr insert_item [] d.

(** ** The data model *)

(** [percentage_trays_over_hold] holds the int [0] until it is recomputed;
    then it holds the float [(exceeding / total) * 100], which is recorded
    by the two integers it was computed from ([pct_value] evaluates it). *)
Inductive percentage : Set :=
| PctInt (n : Z)
| PctRatio (exceeding total : Z).

(** [average_hold_time]: a timedelta, or the int [0] of the fallback. *)
Inductive average : Set :=
| AvgTimedelta (t : timedelta)
| AvgInt (n : Z).

Record Metrics : Set := mk_metrics {
  first_tray_time : datetime;
  last_tray_count : Z;
  last_tray_time : datetime;
  percentage_trays_over_hold : percentage;
  total_trays : Z;
  trays_exceeding_hold_time : Z;
  total_hold_time : timedelta;
  (** absent until the final loop of [aggregate_metrics] sets it *)
  average_hold_time : option average
}.

Definition set_first_tray_time (v : datetime) (m : Metrics) : Metrics :=
  mk_metrics v (last_tray_count m) (last_tray_time m) (percentage_trays_over_hold m)
    (total_trays m) (trays_exceeding_hold_time m) (total_hold_time m) (average_hold_time m).

Definition set_last_tray (t : datetime) (n : Z) (m : Metrics) : Metrics :=
  mk_metrics (first_tray_time m) n t (percentage_trays_over_hold m)
    (total_trays m) (trays_exceeding_hold_time m) (total_hold_time m) (average_hold_time m).

Definition set_percentage_trays_over_hold (v : percentage) (m : Metrics) : Metrics :=
  mk_metrics (first_tray_time m) (last_tray_count m) (last_tray_time m) v
    (total_trays m) (trays_exceeding_hold_time m) (total_hold_time m) (average_hold_time m).

Definition set_total_trays (v : Z) (m : Metrics) : Metrics :=
  mk_metrics (first_tray_time m) (last_tray_count m) (last_tray_time m)
    (percentage_trays_over_hold m) v (trays_exceeding_hold_time m) (total_hold_time m)
    (average_hold_time m).

Definition set_trays_exceeding_hold_time (v : Z) (m : Metrics) : Metrics :=
  mk_metrics (first_tray_time m) (last_tray_count m) (last_tray_time m)
    (percentage_trays_over_hold m) (total_trays m) v (total_hold_time m)
    (average_hold_time m).

Definition set_total_hold_time (v : timedelta) (m : Metrics) : Metrics :=
  mk_metrics (first_tray_time m) (last_tray_count m) (last_tray_time m)
    (percentage_trays_over_hold m) (total_trays m) (trays_exceeding_hold_time m) v
    (average_hold_time m).

Definition set_average_hold_time (v : average) (m : Metrics) : Metrics :=
  mk_metrics (first_tray_time m) (last_tray_count m) (last_tray_time m)
    (percentage_trays_over_hold m) (total_trays m) (trays_exceeding_hold_time m)
    (total_hold_time m) (Some v).

(** A reading is a JSON object whose values are strings (the format of the
    two timestamps); a record of [data] carries the list found at
    [records["data"]["readings"]["readings"]]. *)
Definition Reading : Type := gmap string string.

Record Records : Type := mk_records { readings : list Reading }.

(** day -> location name -> metrics *)
Definition DailyMetrics : Type := dict (dict Metrics).

(** [daily_metrics[day][location_name]], when both keys are present. *)
Definition group (daily_metrics : DailyMetrics) (day location_name : string)
  : option Metrics :=
  stores ← dict_get day daily_metrics; dict_get location_name stores.

(** What the program prints. *)
Inductive line : Type :=
| PrintKeyError (reading : Reading)
| PrintNoData (loc_id : string)
| PrintFetchError.

(** ** Integer true division and the percentage

    [a / b] on ints raises [ZeroDivisionError] for [b = 0] and
    [OverflowError] when the correctly rounded quotient is not a finite
    double, that is when [|a / b| >= 2^1024 - 2^970]. *)
Definition float_overflows (a b : Z) : bool :=
  (2 ^ 1024 - 2 ^ 970) * Z.abs b <=? Z.abs a.

Definition percentage_of (exceeding total : Z) : result percentage :=
  if total =? 0 then Raise ZeroDivisionError
  else if float_overflows exceeding total then Raise OverflowError
  else Ok (PctRatio exceeding total).

(** The double a [percentage] stands for, given for operands in
    [0 .. 2^53 - 1]: there the conversions to double are exact and [a / b]
    is the rounded quotient of the two doubles. *)
Definition float_of_Z (n : Z) : PrimFloat.float :=
  PrimFloat.of_uint63 (Uint63.of_Z n).

Definition exact_double (n : Z) : bool := (0 <=? n) && (n <? 2 ^ 53).

Definition pct_value (p : percentage) : option PrimFloat.float :=
  match p with
  | PctInt n => if exact_double n then Some (float_of_Z n) else None
  | PctRatio a b =>
      if exact_double a && exact_double b
      then Some (PrimFloat.mul (PrimFloat.div (float_of_Z a) (float_of_Z b))
                   (float_of_Z 100))
      else None
  end.

(** ** [aggregate_metrics]

    [batch_trays] is the local [total_trays = len(readings)] of the source,
    renamed apart from the field [total_trays] of a group. *)

Definition hold_limit : timedelta := timedelta_hours 4.

(** [reading[key]]. *)
Definition getitem (reading : Reading) (key : string) : result string :=
  match reading !! key with
  | Some v => Ok v
  | None => Raise KeyError
  end.

(** The dict literal of a new group (lines 83-91). *)
Definition new_metrics (batch_trays : Z) (initial_timestamp : datetime)
    (hold_time : timedelta) : Metrics :=
  {| first_tray_time := initial_timestamp;
     last_tray_count := batch_trays;
     last_tray_time := initial_timestamp;
     percentage_trays_over_hold := PctInt 0;
     total_trays := batch_trays;
     trays_exceeding_hold_time := if hold_limit <? hold_time then 1 else 0;
     total_hold_time := hold_time;
     average_hold_time := None |}.

(** The [else] branch (lines 93-111), statement by statement. *)
Definition update_metrics (batch_trays : Z) (initial_timestamp : datetime)
    (hold_time : timedelta) (store_metrics : Metrics) : result Metrics :=
  let m := set_first_tray_time
             (datetime_min (first_tray_time store_metrics) initial_timestamp)
             store_metrics in
  let m := if (last_tray_count m <? batch_trays)
              || ((batch_trays =? last_tray_count m)
                  && datetime_gtb initial_timestamp (last_tray_time m))
           then set_last_tray initial_timestamp batch_trays m
           else m in
  let m := set_total_trays (Z.max batch_trays (total_trays m)) m in
  t ← timedelta_add (total_hold_time m) hold_time;
  let m := set_total_hold_time t m in
  if hold_limit <? hold_time then
    let m := set_trays_exceeding_hold_time (trays_exceeding_hold_time m + 1) m in
    p ← percentage_of (trays_exceeding_hold_time m) (total_trays m);
    Ok (set_percentage_trays_over_hold p m)
  else Ok m.

(** The body of the [try] (lines 75-111).  The two lookups and the two
    parses come before any assignment, so a [KeyError] or a [ValueError]
    leaves [daily_metrics] as it was. *)
Definition try_body (location_name : string) (batch_trays : Z) (reading : Reading)
    (daily_metrics : DailyMetrics) : result DailyMetrics :=
  s ← getitem reading "initial_timestamp";
  initial_timestamp ← strptime s "%Y%m%d_%H%M%S";
  s ← getitem reading "current_timestamp";
  current_timestamp ← strptime s "%Y-%m-%d %H:%M:%S";
  let hold_time := datetime_sub current_timestamp initial_timestamp in
  let day := strftime_Ymd initial_timestamp in
  let daily_metrics :=
    if dict_mem day daily_metrics then daily_metrics
    else dict_set day [] daily_metrics in
  let stores := default [] (dict_get day daily_metrics) in
  match dict_get location_name stores with
  | None =>
      let m := new_metrics batch_trays initial_timestamp hold_time in
      Ok (dict_set day (dict_set location_name m stores) daily_metrics)
  | Some store_metrics =>
      m ← update_metrics batch_trays initial_timestamp hold_time store_metrics;
      Ok (dict_set day (dict_set location_name m stores) daily_metrics)
  end.

(** The state threaded through the loops: the table and what was printed. *)
Definition state : Type := DailyMetrics * list line.

(** One iteration of the inner loop: the [try] with its [except KeyError]. *)
Definition process_reading (location_name : string) (batch_trays : Z)
    (reading : Reading) (st : state) : result state :=
  match try_body location_name batch_trays reading (fst st) with
  | Ok daily_metrics => Ok (daily_metrics, snd st)
  | Raise KeyError => Ok (fst st, (snd st ++ [PrintKeyError reading])%list)
  | Raise e => Raise e
  end.

(** [for reading in readings]. *)
Fixpoint for_readings (location_name : string) (batch_trays : Z)
    (rs : list Reading) (st : state) : result state :=
  match rs with
  | [] => Ok st
  | reading :: rs' =>
      st' ← process_reading location_name batch_trays reading st;
      for_readings location_name batch_trays rs' st'
  end.

(** One iteration of the outer loop (lines 71-114). *)
Definition process_records (location_name : string) (records : Records)
    (st : state) : result state :=
  let batch_trays := Z.of_nat (length (readings records)) in
  for_readings location_name batch_trays (readings records) st.

(** [for records in data]. *)
Fixpoint for_records (location_name : string) (data : list Records) (st : state)
  : result state :=
  match data with
  | [] => Ok st
  | records :: data' =>
      st' ← process_records location_name records st;
      for_records location_name data' st'
  end.

(** Lines 117-121: the average of every group. *)
Definition with_average (metrics : Metrics) : Metrics :=
  set_average_hold_time
    (if 0 <? total_trays metrics
     then AvgTimedelta (timedelta_truediv (total_hold_time metrics) (total_trays metrics))
     else AvgInt 0)
    metrics.

Definition average_pass (daily_metrics : DailyMetrics) : DailyMetrics :=
  map (fun '(day, locations) =>
         (day, map (fun '(name, metrics) => (name, with_average metrics)) locations))
      daily_metrics.

(** Line 123: a new table of new per-day tables, both sorted by key. *)
Definition sort_pass (daily_metrics : DailyMetrics) : DailyMetrics :=
  map (fun '(day, stores) => (day, sorted_items stores)) (sorted_items daily_metrics).

Definition finalize (daily_metrics : DailyMetrics) : DailyMetrics :=
  sort_pass (average_pass daily_metrics).

(** [data] is what [fetch_sensor_readings] returned: a list, or [None].
    Iterating over [None] raises [TypeError]. *)
Definition aggregate_metrics (data : option (list Records))
    (daily_metrics : DailyMetrics) (location_name : string) : result state :=
  match data with
  | None => Raise TypeError
  | Some data =>
      '(daily_metrics, out) ← for_records location_name data (daily_metrics, []);
      Ok (finalize daily_metrics, out)
  end.

(** ** [fetch_sensor_readings] and the loop of [main]

    The query is external: its outcome is an input.  On a response the
    function returns [response if response else print(...)], and [print]
    returns [None]; on an exception it prints and returns [[]]. *)
Inductive query_outcome : Type :=
| Response (response : list Records)
| QueryRaises.

Definition fetch_sensor_readings (loc_id : string) (o : query_outcome)
  : option (list Records) * list line :=
  match o with
  | Response [] => (None, [PrintNoData loc_id])
  | Response response => (Some response, [])
  | QueryRaises => (Some [], [PrintFetchError])
  end.

(** A configured location: its id, the outcome of its query and the name
    [get_location_name] resolves for it. *)
Record location : Type := mk_location {
  loc_id : string;
  outcome : query_outcome;
  name : string
}.

(** Lines 245-249: [daily_metrics = {}], then one call per location. *)
Fixpoint main_loop (locs : list location) (st : state) : result state :=
  match locs with
  | [] => Ok st
  | l :: locs' =>
      let '(data, printed) := fetch_sensor_readings (loc_id l) (outcome l) in
      '(daily_metrics, out) ← aggregate_metrics data (fst st) (name l);
      main_loop locs' (daily_metrics, (snd st ++ printed ++ out)%list)
  end.

Definition main (locs : list location) : result state := main_loop locs ([], []).

(** ** [generate_pdf]

    The report is built by calls on an [AnalyticsPDF] object.  The model
    computes what [generate_pdf] itself computes, the reporting week and
    the row of every group, and lists the calls it makes on the object, in
    order, with their arguments.  What the object does with a call (the
    layout in FPDF, its page breaks with the [header] and [footer]
    callbacks, the file that [output] writes) is outside the model, and so
    are the exceptions that may arise there. *)

(** The exceptions of this stage: [AttributeError] besides those of
    [exn]. *)
Inductive report_exn : Set :=
| AttributeError
| Builtin (e : exn).

Inductive report_result (A : Type) : Type :=
| Built (a : A)
| Fails (e : report_exn).

Arguments Built {A} a.
Arguments Fails {A} e.

#[global] Instance report_result_ret : MRet report_result := fun _ a => Built a.
#[global] Instance report_result_bind : MBind report_result := fun _ _ f m =>
  match m with
  | Built a => f a
  | Fails e => Fails e
  end.

(** [date.fromordinal]: [_ord2ymd] of datetime.py. *)
Definition ord2ymd (n : Z) : Z * Z * Z :=
  let n := n - 1 in
  let n400 := n / 146097 in
  let n := n mod 146097 in
  let year := n400 * 400 + 1 in
  let n100 := n / 36524 in
  let n := n mod 36524 in
  let n4 := n / 1461 in
  let n := n mod 1461 in
  let n1 := n / 365 in
  let n := n mod 365 in
  let year := year + n100 * 100 + n4 * 4 + n1 in
  if (n1 =? 4) || (n100 =? 4) then (year - 1, 12, 31)
  else
    let leapyear := (n1 =? 3) && (negb (n4 =? 24) || (n100 =? 3)) in
    let month := Z.shiftr (n + 50) 5 in
    let preceding :=
      nth (Z.to_nat (month - 1))
        [0; 31; 59; 90; 120; 151; 181; 212; 243; 273; 304; 334] 0
      + (if (2 <? month) && leapyear then 1 else 0) in
    let '(month, preceding) :=
      if n <? preceding
      then (month - 1,
            preceding
            - (nth (Z.to_nat (month - 2))
                 [31; 28; 31; 30; 31; 30; 31; 31; 30; 31; 30; 31] 0
               + (if (month - 1 =? 2) && leapyear then 1 else 0)))
      else (month, preceding) in
    (year, month, n - preceding + 1).

(** [d - timedelta(days=n)]: the date moves by whole days and the time of
    day stays; an ordinal outside [1 .. 3652059] is an [OverflowError]. *)
Definition max_ordinal : Z := 3652059.

Definition datetime_sub_days (d : datetime) (n : Z) : result datetime :=
  let ordinal := ymd2ord (year d) (month d) (day d) - n in
  if (0 <? ordinal) && (ordinal <=? max_ordinal)
  then let '(y, m, dd) := ord2ymd ordinal in
       Ok (mk_datetime y m dd (hour d) (minute d) (second d))
  else Raise OverflowError.

(** [t.seconds]: the seconds within the day of a normalised timedelta,
    [0 <= seconds < 86400] also for a negative one. *)
Definition timedelta_seconds (t : timedelta) : Z :=
  (t mod us_per_day) / us_per_second.

(** [d.strftime("%H:%M:%S")]. *)
Definition strftime_HMS (d : datetime) : string :=
  pad2 (hour d) ++ ":" ++ pad2 (minute d) ++ ":" ++ pad2 (second d).

(** The values of a table row: strings, ints, and the string
    [f"{p:.2f}%"] of a percentage, kept as the percentage it prints. *)
Inductive value : Type :=
| VStr (s : string)
| VInt (n : Z)
| VPercent (p : percentage).

(** [f"{p:.2f}%"]: an int is converted to a float first, which raises
    [OverflowError] when it has no finite double; a float, also an
    infinite one, is always printed. *)
Definition format_percent (p : percentage) : report_result value :=
  match p with
  | PctInt n =>
      if float_overflows n 1 then Fails (Builtin OverflowError)
      else Built (VPercent p)
  | PctRatio _ _ => Built (VPercent p)
  end.

(** [metrics["average_hold_time"].seconds // 60]: an int has no attribute
    [seconds]. *)
Definition average_minutes (metrics : Metrics) : report_result Z :=
  match average_hold_time metrics with
  | None => Fails (Builtin KeyError)
  | Some (AvgInt _) => Fails AttributeError
  | Some (AvgTimedelta t) => Built (timedelta_seconds t / 60)
  end.

(** Lines 203-210; the elements of the list are evaluated in order. *)
Definition table_row (metrics : Metrics) : report_result (list value) :=
  percent ← format_percent (percentage_trays_over_hold metrics);
  minutes ← average_minutes metrics;
  Built [VStr (strftime_HMS (first_tray_time metrics));
         VStr (strftime_HMS (last_tray_time metrics));
         VInt (total_trays metrics);
         VInt (trays_exceeding_hold_time metrics);
         percent;
         VInt minutes].

(** What [generate_pdf] does with the [AnalyticsPDF] object and, last, what
    it prints.  [Cell] is [pdf.cell(w, h, text, new_x=XPos.LMARGIN,
    new_y=YPos.NEXT, align=align)]. *)
Inductive call : Type :=
| AddPage
| SetFirstPage (b : bool)
| SetFont (family style : string) (size : Z)
| Cell (w h : Z) (text align : string)
| Ln (h : Z)
| AddDayTitle (title : string)
| AddStoreTitle (title : string)
| AddTableHeaders (values : list value)
| AddTableRow (values : list value)
| Output (name : string)
| PrintGenerated (name : string).

Definition PDF_OUTPUT_FILENAME : string := "sbarro_weekly_report.pdf".

Definition headers : list value :=
  [VStr "First Tray Time"; VStr "Last Tray Time"; VStr "Total Trays";
   VStr "Trays Over Hold"; VStr "% Over Hold"; VStr "Avg Hold Time (s)"].

(** Lines 190-213, the body of the inner loop. *)
Definition store_calls (location_name : string) (metrics : Metrics)
  : report_result (list call) :=
  row ← table_row metrics;
  Built [AddStoreTitle ("Store: " ++ location_name);
         SetFont "helvetica" "B" 10;
         AddTableHeaders headers;
         AddTableRow row;
         Ln 10].

Fixpoint for_stores (stores : dict Metrics) : report_result (list call) :=
  match stores with
  | [] => Built []
  | (location_name, metrics) :: stores' =>
      calls ← store_calls location_name metrics;
      calls' ← for_stores stores';
      Built (calls ++ calls')%list
  end.

(** Lines 186-213. *)
Fixpoint for_days (daily_metrics : DailyMetrics) : report_result (list call) :=
  match daily_metrics with
  | [] => Built []
  | (day, stores) :: daily_metrics' =>
      calls ← for_stores stores;
      calls' ← for_days daily_metrics';
      Built (AddDayTitle ("Day: " ++ day) :: calls ++ calls')%list
  end.

(** [datetime.now()] is read twice in line 178: [now] is the reading a
    week is subtracted from, [now'] the one after it; their microseconds
    are not printed.  An exception leaves
    the function before [pdf.output]: then no file is written, and the calls
    made so far are of no consequence. *)
Definition generate_pdf (now now' : datetime) (daily_metrics : DailyMetrics)
  : report_result (list call) :=
  match datetime_sub_days now 7 with
  | Raise e => Fails (Builtin e)
  | Ok week_start =>
      let reporting_week :=
        strftime_Ymd week_start ++ " to " ++ strftime_Ymd now' in
      calls ← for_days daily_metrics;
      Built ([AddPage;
              SetFirstPage false;
              SetFont "helvetica" "" 12;
              Cell 0 10 ("Reporting Week: " ++ reporting_week) "C";
              Ln 10]
             ++ (match daily_metrics with
                 | [] => [AddDayTitle "No data found for this week."]
                 | _ :: _ => []
                 end)
             ++ calls
             ++ [Output PDF_OUTPUT_FILENAME; PrintGenerated PDF_OUTPUT_FILENAME])%list
  end.


(** ** Vocabulary of the statements *)

(** The two timestamps of a reading, as the [try] body obtains them. *)
Definition parse_reading (reading : Reading) : result (datetime * datetime) :=
  s ← getitem reading "initial_timestamp";
  initial_timestamp ← strptime s "%Y%m%d_%H%M%S";
  s ← getitem reading "current_timestamp";
  current_timestamp ← strptime s "%Y-%m-%d %H:%M:%S";
  Ok (initial_timestamp, current_timestamp).

(** [daily_metrics[day][location_name] = m], creating the day if need be. *)
Definition put_group (daily_metrics : DailyMetrics) (day location_name : string)
    (m : Metrics) : DailyMetrics :=
  let daily_metrics :=
    if dict_mem day daily_metrics then daily_metrics
    else dict_set day [] daily_metrics in
  dict_set day (dict_set location_name m (default [] (dict_get day daily_metrics)))
    daily_metrics.

(** A reading with both timestamps, for examples. *)
Definition reading_of (initial current : string) : Reading :=
  <["initial_timestamp" := initial]> (<["current_timestamp" := current]> ∅).

(** A group seen later in the run: the tray total and the exceedance count
    have not shrunk, the first tray time has not moved later. *)
Definition grows (g g' : Metrics) : Prop :=
  total_trays g <= total_trays g'
  /\ trays_exceeding_hold_time g <= trays_exceeding_hold_time g'
  /\ datetime_le (first_tray_time g') (first_tray_time g).

(** Every group of the first table is a group of the second, grown. *)
Definition table_grows (dm dm' : DailyMetrics) : Prop :=
  forall day location_name g,
    group dm day location_name = Some g ->
    exists g', group dm' day location_name = Some g' /\ grows g g'.

(** All the groups of a table, as [(day, location name, metrics)]. *)
Definition groups (dm : DailyMetrics) : list (string * string * Metrics) :=
  flat_map (fun '(day, stores) =>
              map (fun '(location_name, m) => (day, location_name, m)) stores) dm.

(** A property of every group of a table. *)
Definition all_groups (P : Metrics -> Prop) (dm : DailyMetrics) : Prop :=
  forall day location_name g, In (day, location_name, g) (groups dm) -> P g.

(** A table in key order: the days ascend and, within each day, the
    location names ascend. *)
Definition table_sorted (dm : DailyMetrics) : Prop :=
  StronglySorted str_le (keys dm)
  /\ forall day stores, In (day, stores) dm -> StronglySorted str_le (keys stores).

(** The readings the [except KeyError] handler sees: [initial_timestamp] is
    absent, or it parses and [current_timestamp] is absent. *)
Definition skipped (reading : Reading) : Prop :=
  reading !! "initial_timestamp" = None
  \/ exists s i,
       reading !! "initial_timestamp" = Some s
       /\ strptime s "%Y%m%d_%H%M%S" = Ok i
       /\ reading !! "current_timestamp" = None.

(** The readings on which a parse fails: [initial_timestamp] is present and
    does not parse, or it parses and [current_timestamp] is present and does
    not parse. *)
Definition unparseable (reading : Reading) : Prop :=
  (exists s,
     reading !! "initial_timestamp" = Some s
     /\ strptime s "%Y%m%d_%H%M%S" = Raise ValueError)
  \/ exists s i s',
       reading !! "initial_timestamp" = Some s
       /\ strptime s "%Y%m%d_%H%M%S" = Ok i
       /\ reading !! "current_timestamp" = Some s'
       /\ strptime s' "%Y-%m-%d %H:%M:%S" = Raise ValueError.

(** The batch's replacement of the last tray (lines 98-101). *)
Definition replaces_last_tray (batch_trays : Z) (initial_timestamp : datetime)
    (g : Metrics) : Prop :=
  last_tray_count g < batch_trays
  \/ (batch_trays = last_tray_count g
      /\ datetime_compare initial_timestamp (last_tray_time g) = Gt).

(** What the final loop stores in [average_hold_time]. *)
Definition average_of (g : Metrics) : average :=
  AvgTimedelta (timedelta_truediv (total_hold_time g) (total_trays g)).

(** Two tables with the same groups, inserted in a different order: the
    per-day tables are rearranged, then the days. *)
Definition same_groups (dm1 dm2 : DailyMetrics) : Prop :=
  exists dm,
    Forall2 (fun x y => fst x = fst y /\ Permutation (snd x) (snd y)) dm1 dm
    /\ Permutation dm dm2.

(** The keys of a table and of its per-day tables are distinct, as the keys
    of a [dict] are. *)
Definition distinct_keys (dm : DailyMetrics) : Prop :=
  List.NoDup (keys dm)
  /\ forall day stores, In (day, stores) dm -> List.NoDup (keys stores).

(** A per-day table of the result: its averages set, its stores sorted. *)
Definition final_day (x : string * dict Metrics) : string * dict Metrics :=
  (fst x, sorted_items (map (fun '(l, m) => (l, with_average m)) (snd x))).

(** ** Sample data *)

Definition batch_of (k : nat) (initial current : string) : Records :=
  mk_records (replicate k (reading_of initial current)).

(** Hold times of 2, 5 and 6 hours, and of minus one hour. *)
Definition reading_2h : Reading := reading_of "20240101_080000" "2024-01-01 10:00:00".
Definition reading_5h : Reading := reading_of "20240101_080000" "2024-01-01 13:00:00".
Definition reading_6h : Reading := reading_of "20240101_080000" "2024-01-01 14:00:00".
Definition reading_back_in_time : Reading :=
  reading_of "20240101_100000" "2024-01-01 09:00:00".

(** No [current_timestamp]; the second has an [initial_timestamp] that does
    not parse. *)
Definition reading_no_current : Reading :=
  <["initial_timestamp" := "20240101_080000"]> ∅.
Definition reading_no_current_bad_initial : Reading :=
  <["initial_timestamp" := "garbage"]> ∅.

Definition reading_bad_initial : Reading := reading_of "garbage" "2024-01-01 13:00:00".

(** Batches A, B, C of the last-tray example. *)
Definition last_tray_batches : list Records :=
  [batch_of 5 "20240101_090000" "2024-01-01 10:00:00";
   batch_of 5 "20240101_090500" "2024-01-01 10:00:00";
   batch_of 6 "20240101_085000" "2024-01-01 10:00:00"].

(** Batches of 3, 5, 2 and 7 trays. *)
Definition tray_count_batches : list Records :=
  map (fun k => batch_of k "20240101_090000" "2024-01-01 10:00:00") [3; 5; 2; 7]%nat.

(** The group of the sample runs, when the run returns one. *)
Definition sample_group (r : result state) : option Metrics :=
  match r with
  | Ok (dm, _) => group dm "2024-01-01" "Store A"
  | Raise _ => None
  end.

(** The table for readings of January 2nd and 1st ingested, in that order,
    into a table that holds January 3rd. *)
Definition three_days_table : DailyMetrics :=
  [("2024-01-01",
    [("Store A",
      with_average (new_metrics 2 (mk_datetime 2024 1 1 8 0 0) (timedelta_hours 1)))]);
   ("2024-01-02",
    [("Store A",
      with_average (new_metrics 2 (mk_datetime 2024 1 2 8 0 0) (timedelta_hours 1)))]);
   ("2024-01-03",
    [("Store B", with_average (new_metrics 1 (mk_datetime 2024 1 3 8 0 0) 0))])].

(** ** Vocabulary of the further properties *)

Definition Zsum (l : list Z) : Z := foldr Z.add 0 l.

(** What a reading brings to the group of [day]: nothing when it is
    skipped or belongs to another day, else its [initial_timestamp] and
    its hold time. *)
Definition day_reading (day : string) (reading : Reading)
  : option (datetime * timedelta) :=
  match parse_reading reading with
  | Ok (i, c) =>
      if String.eqb (strftime_Ymd i) day then Some (i, datetime_sub c i) else None
  | Raise _ => None
  end.

(** The readings of [data] that go to the group of [day], in the order
    they are processed. *)
Definition day_readings (day : string) (data : list Records)
  : list (datetime * timedelta) :=
  omap (day_reading day) (flat_map readings data).

(** A field of the group of [(day, location_name)], 0 without the group. *)
Definition group_field (f : Metrics -> Z) (dm : DailyMetrics)
    (day location_name : string) : Z :=
  from_option f 0 (group dm day location_name).

(** The readings the handler prints. *)
Definition is_skipped (reading : Reading) : bool :=
  match parse_reading reading with
  | Raise KeyError => true
  | _ => false
  end.

(** The percentage a table built by the program holds in a group: the
    initial [0] while at most one reading exceeded, or the quotient of the
    current count by a total the group had. *)
Definition percentage_is_current (g : Metrics) : Prop :=
  0 <= trays_exceeding_hold_time g
  /\ ((percentage_trays_over_hold g = PctInt 0 /\ trays_exceeding_hold_time g <= 1)
      \/ exists t,
           percentage_trays_over_hold g = PctRatio (trays_exceeding_hold_time g) t
           /\ 1 <= t <= total_trays g).

(** No day of the table is without a store. *)
Definition no_empty_day (dm : DailyMetrics) : Prop :=
  forall day stores, In (day, stores) dm -> stores <> [].

(** The fields of a datetime are those of a date and a time of day. *)
Definition valid_datetime (d : datetime) : Prop :=
  1 <= year d <= 9999 /\ 1 <= month d <= 12
  /\ 1 <= day d <= days_in_month (year d) (month d)
  /\ 0 <= hour d <= 23 /\ 0 <= minute d <= 59 /\ 0 <= second d <= 59.

(** Where the value of a field of a group comes from: the group as it was
    before the call, or a reading of the call that went to the group. *)
Definition from_before_or_reading (A : Type) (field : Metrics -> A)
    (of_reading : Records -> datetime -> A) (dm : DailyMetrics)
    (data : list Records) (day location_name : string) (g' : Metrics) : Prop :=
  (exists g, group dm day location_name = Some g /\ field g' = field g)
  \/ exists records r i h,
       In records data /\ In r (readings records)
       /\ day_reading day r = Some (i, h)
       /\ field g' = of_reading records i.

(** The calendar date of a datetime, [d.date()], as the tuple that dates
    compare by. *)
Definition date_tuple (d : datetime) : list Z := [year d; month d; day d].

Definition date_compare (a b : datetime) : comparison :=
  tuple_compare (date_tuple a) (date_tuple b).


(** [d.toordinal()]. *)
Definition toordinal (d : datetime) : Z := ymd2ord (year d) (month d) (day d).

(** A group whose row can be built: its percentage, if an int, has a
    finite double, and its average is a timedelta. *)
Definition printable (g : Metrics) : Prop :=
  (forall n, percentage_trays_over_hold g = PctInt n -> float_overflows n 1 = false)
  /\ exists t, average_hold_time g = Some (AvgTimedelta t).

(** The titles and the rows of a report, in the order of the calls. *)
Definition day_titles (calls : list call) : list string :=
  flat_map (fun c => match c with AddDayTitle title => [title] | _ => [] end) calls.

Definition store_titles (calls : list call) : list string :=
  flat_map (fun c => match c with AddStoreTitle title => [title] | _ => [] end) calls.

Definition table_rows (calls : list call) : list (list value) :=
  flat_map (fun c => match c with AddTableRow values => [values] | _ => [] end) calls.


(** * Properties *)

(** ** The library model on concrete data *)

Example strptime_initial_ok :
  strptime "20240105_091011" "%Y%m%d_%H%M%S" = Ok (mk_datetime 2024 1 5 9 10 11).
Proof. reflexivity. Qed.

Example strptime_current_ok :
  strptime "2024-01-05 13:10:11" "%Y-%m-%d %H:%M:%S" = Ok (mk_datetime 2024 1 5 13 10 11).
Proof. reflexivity. Qed.

Example strptime_backtracks :
  strptime "2024115_9:1:7" "%Y%m%d_%H:%M:%S" = Ok (mk_datetime 2024 11 5 9 1 7).
Proof. reflexivity. Qed.

Example strptime_rejects :
  strptime "20240230_091011" "%Y%m%d_%H%M%S" = Raise ValueError
  /\ strptime "20240105_0910111" "%Y%m%d_%H%M%S" = Raise ValueError
  /\ strptime "2024-01-05T13:10:11" "%Y-%m-%d %H:%M:%S" = Raise ValueError
  /\ strptime "garbage" "%Y%m%d_%H%M%S" = Raise ValueError.
Proof. repeat split; reflexivity. Qed.

Example strptime_short_fields :
  strptime "20240105_09101" "%Y%m%d_%H%M%S" = Ok (mk_datetime 2024 1 5 9 10 1)
  /\ strptime "202401 5_091011" "%Y%m%d_%H%M%S" = Ok (mk_datetime 2024 1 5 9 10 11)
  /\ strptime "2024-1-5 3:1:1" "%Y-%m-%d %H:%M:%S" = Ok (mk_datetime 2024 1 5 3 1 1).
Proof. repeat split; reflexivity. Qed.

Example strptime_out_of_range :
  strptime "00000101_000000" "%Y%m%d_%H%M%S" = Raise ValueError
  /\ strptime "20230229_000000" "%Y%m%d_%H%M%S" = Raise ValueError
  /\ strptime "20240101_235960" "%Y%m%d_%H%M%S" = Raise ValueError
  /\ strptime "2024-01-05 13:10:11 " "%Y-%m-%d %H:%M:%S" = Raise ValueError.
Proof. repeat split; reflexivity. Qed.

Example divide_and_round_ties :
  divide_and_round 5 2 = 2 /\ divide_and_round 7 2 = 4
  /\ divide_and_round (-5) 2 = -2 /\ divide_and_round 10000000 3 = 3333333.
Proof. repeat split; reflexivity. Qed.

Example float_overflows_threshold :
  float_overflows (2 ^ 1024 - 2 ^ 970) 1 = true
  /\ float_overflows (2 ^ 1024 - 2 ^ 970 - 1) 1 = false
  /\ float_overflows (3 * (2 ^ 1024 - 2 ^ 970) - 1) 3 = false.
Proof. repeat split; vm_compute; reflexivity. Qed.

Example timedelta_add_range :
  timedelta_add timedelta_max 0 = Ok timedelta_max
  /\ timedelta_add timedelta_max 1 = Raise OverflowError
  /\ timedelta_add timedelta_min (-1) = Raise OverflowError.
Proof. repeat split; vm_compute; reflexivity. Qed.

Example strptime_spaces :
  strptime "2024-01-05   13:10:11" "%Y-%m-%d %H:%M:%S"
  = Ok (mk_datetime 2024 1 5 13 10 11).
Proof. reflexivity. Qed.

Example ymd2ord_ok : ymd2ord 1970 1 1 = 719163 /\ ymd2ord 2024 1 1 = 738886.
Proof. split; reflexivity. Qed.

Example datetime_sub_leap_day :
  datetime_sub (mk_datetime 2024 3 1 0 0 0) (mk_datetime 2024 2 28 23 0 0)
  = timedelta_hours 25.
Proof. reflexivity. Qed.

Example strftime_Ymd_ok :
  strftime_Ymd (mk_datetime 2024 1 5 9 10 11) = "2024-01-05".
Proof. reflexivity. Qed.

(** ** Rounded division *)

(** [timedelta / int] is the quotient rounded to the nearest microsecond:
    it is exact when the divisor divides the total, and within half a
    microsecond of the quotient otherwise. *)
Lemma divide_and_round_nearest (a b : Z) :
  0 < b -> 2 * Z.abs (divide_and_round a b * b - a) <= b.
Proof.
  intros Hb. unfold divide_and_round.
  pose proof (Z.div_mod a b ltac:(lia)) as Hdiv.
  pose proof (Z.mod_pos_bound a b Hb) as Hmod.
  destruct (Z.ltb_spec 0 b); [|lia].
  destruct (Z.ltb_spec b (2 * (a mod b))); simpl; [nia|].
  destruct (Z.eqb_spec (2 * (a mod b)) b); simpl; [|nia].
  destruct (a / b mod 2 =? 1); nia.
Qed.

Lemma divide_and_round_exact (k b : Z) : 0 < b -> divide_and_round (k * b) b = k.
Proof.
  intros Hb. unfold divide_and_round.
  rewrite Z.div_mul, Z.mod_mul by lia. change (2 * 0) with 0.
  replace (0 <? b) with true by (symmetry; apply Z.ltb_lt; lia).
  replace (b <? 0) with false by (symmetry; apply Z.ltb_ge; lia).
  replace (0 =? b) with false by (symmetry; apply Z.eqb_neq; lia).
  reflexivity.
Qed.

(** ** Orders *)

Lemma tuple_compare_refl (a : list Z) : tuple_compare a a = Eq.
Proof.
  induction a as [|x a IH]; simpl; [reflexivity|].
  rewrite Z.compare_refl. exact IH.
Qed.

Lemma tuple_compare_antisym (a b : list Z) :
  tuple_compare b a = CompOpp (tuple_compare a b).
Proof.
  revert b. induction a as [|x a IH]; intros [|y b]; simpl; try reflexivity.
  rewrite (Z.compare_antisym x y).
  destruct (x ?= y); simpl; auto.
Qed.

Lemma tuple_compare_le_trans (a b c : list Z) :
  tuple_compare a b <> Gt -> tuple_compare b c <> Gt -> tuple_compare a c <> Gt.
Proof.
  revert b c. induction a as [|x a IH]; intros [|y b] [|z c]; simpl;
    try congruence.
  destruct (Z.compare_spec x y), (Z.compare_spec y z), (Z.compare_spec x z);
    subst; try congruence; try lia; eauto.
Qed.

Lemma datetime_le_refl (a : datetime) : datetime_le a a.
Proof.
  unfold datetime_le, datetime_compare. rewrite tuple_compare_refl. discriminate.
Qed.

Lemma datetime_le_trans (a b c : datetime) :
  datetime_le a b -> datetime_le b c -> datetime_le a c.
Proof. unfold datetime_le, datetime_compare. apply tuple_compare_le_trans. Qed.

Lemma datetime_min_le_l (a b : datetime) : datetime_le (datetime_min a b) a.
Proof.
  unfold datetime_min, datetime_ltb, datetime_le.
  destruct (datetime_compare b a) eqn:E; try apply datetime_le_refl.
  unfold datetime_compare in *. rewrite E. discriminate.
Qed.

Lemma datetime_min_le_r (a b : datetime) : datetime_le (datetime_min a b) b.
Proof.
  unfold datetime_min, datetime_ltb, datetime_le, datetime_compare.
  destruct (tuple_compare (timetuple b) (timetuple a)) eqn:E;
    rewrite ?tuple_compare_refl; try discriminate;
    rewrite (tuple_compare_antisym (timetuple b) (timetuple a)), E; discriminate.
Qed.

Lemma str_le_total (a b : string) : str_le a b \/ str_le b a.
Proof. apply String.leb_total. Qed.

Lemma str_le_refl (a : string) : str_le a a.
Proof. destruct (str_le_total a a); assumption. Qed.

(** ** Dictionaries *)

Section Dict.
Context {V : Type}.
Implicit Types (d : dict V) (k : string) (v : V).

Lemma dict_get_set_eq k v d : dict_get k (dict_set k v d) = Some v.
Proof.
  induction d as [|[k' v'] d IH]; simpl.
  - rewrite String.eqb_refl. reflexivity.
  - destruct (String.eqb_spec k k') as [->|Hne]; simpl.
    + rewrite String.eqb_refl. reflexivity.
    + destruct (String.eqb_spec k k'); [contradiction|]. exact IH.
Qed.

Lemma dict_get_set_ne k k' v d :
  k <> k' -> dict_get k' (dict_set k v d) = dict_get k' d.
Proof.
  intros Hne. induction d as [|[k0 v0] d IH]; simpl.
  - destruct (String.eqb_spec k' k); [congruence|reflexivity].
  - destruct (String.eqb_spec k k0) as [->|Hk]; simpl.
    + destruct (String.eqb_spec k' k0); [congruence|reflexivity].
    + destruct (String.eqb_spec k' k0); [reflexivity|exact IH].
Qed.

Lemma dict_get_insert_item k x d :
  dict_get k (insert_item x d) = dict_get k (x :: d).
Proof.
  induction d as [|y d IH]; [reflexivity|].
  destruct x as [kx vx], y as [ky vy]. simpl in *.
  destruct (String.leb kx ky) eqn:Hle; simpl; [reflexivity|].
  rewrite IH.
  destruct (String.eqb_spec k ky) as [->|]; [|reflexivity].
  destruct (String.eqb_spec ky kx) as [->|]; [|reflexivity].
  pose proof (str_le_refl kx) as Hr. unfold str_le in Hr. congruence.
Qed.

Lemma dict_get_sorted_items k d : dict_get k (sorted_items d) = dict_get k d.
Proof.
  induction d as [|[k' v'] d IH]; [reflexivity|].
  unfold sorted_items in *. simpl. rewrite dict_get_insert_item. simpl.
  rewrite IH. reflexivity.
Qed.

Lemma insert_item_Permutation x d : Permutation (insert_item x d) (x :: d).
Proof.
  induction d as [|y d IH]; simpl; [reflexivity|].
  destruct (String.leb (fst x) (fst y)); [reflexivity|].
  rewrite IH. apply perm_swap.
Qed.

Lemma sorted_items_Permutation d : Permutation (sorted_items d) d.
Proof.
  induction d as [|x d IH]; [reflexivity|].
  unfold sorted_items in *. simpl. rewrite insert_item_Permutation.
  constructor. exact IH.
Qed.

Lemma insert_item_HdRel k x d :
  str_le k (fst x) -> HdRel str_le k (keys d) -> HdRel str_le k (keys (insert_item x d)).
Proof.
  intros Hx Hd. destruct d as [|y d]; simpl; [constructor; exact Hx|].
  destruct (String.leb (fst x) (fst y)); simpl; constructor; [exact Hx|].
  inversion Hd; assumption.
Qed.

Lemma insert_item_Sorted x d :
  Sorted str_le (keys d) -> Sorted str_le (keys (insert_item x d)).
Proof.
  induction d as [|y d IH]; simpl; intros Hs.
  - repeat constructor.
  - destruct (String.leb (fst x) (fst y)) eqn:Hle; simpl.
    + constructor; [exact Hs|]. constructor. exact Hle.
    + inversion Hs as [|? ? Hs' Hhd]; subst.
      constructor; [apply IH; exact Hs'|].
      apply insert_item_HdRel; [|exact Hhd].
      destruct (str_le_total (fst x) (fst y)) as [H|H]; [|exact H].
      unfold str_le in H. congruence.
Qed.

Lemma sorted_items_Sorted d : Sorted str_le (keys (sorted_items d)).
Proof.
  induction d as [|x d IH]; [constructor|].
  unfold sorted_items in *. simpl. apply insert_item_Sorted. exact IH.
Qed.
End Dict.

Lemma dict_get_map {V W : Type} (f : V -> W) (k : string) (d : dict V) :
  dict_get k (map (fun '(k', v) => (k', f v)) d) = f <$> dict_get k d.
Proof.
  induction d as [|[k' v'] d IH]; [reflexivity|]. simpl.
  destruct (String.eqb k k'); [reflexivity|exact IH].
Qed.

Lemma keys_map {V W : Type} (f : V -> W) (d : dict V) :
  keys (map (fun '(k', v) => (k', f v)) d) = keys d.
Proof.
  unfold keys. rewrite map_map. apply map_ext. intros [k v]. reflexivity.
Qed.

(** ** Groups *)

Lemma stores_lookup (daily_metrics : DailyMetrics) (day location_name : string) :
  dict_get location_name
    (default [] (dict_get day (if dict_mem day daily_metrics then daily_metrics
                               else dict_set day [] daily_metrics)))
  = group daily_metrics day location_name.
Proof.
  unfold group, dict_mem.
  destruct (dict_get day daily_metrics) as [stores|] eqn:E.
  - rewrite E. reflexivity.
  - rewrite dict_get_set_eq. reflexivity.
Qed.

Lemma group_put_group_eq (daily_metrics : DailyMetrics) (day location_name : string)
    (m : Metrics) :
  group (put_group daily_metrics day location_name m) day location_name = Some m.
Proof.
  unfold group, put_group. rewrite dict_get_set_eq. simpl.
  apply dict_get_set_eq.
Qed.

Lemma group_put_group_ne (daily_metrics : DailyMetrics) (day location_name : string)
    (m : Metrics) (day' location_name' : string) :
  (day, location_name) <> (day', location_name') ->
  group (put_group daily_metrics day location_name m) day' location_name'
  = group daily_metrics day' location_name'.
Proof.
  intros Hne. unfold put_group.
  set (dm := if dict_mem day daily_metrics then daily_metrics
             else dict_set day [] daily_metrics).
  assert (Hdm : forall l, group dm day' l = group daily_metrics day' l).
  { intros l. subst dm. unfold group, dict_mem.
    destruct (dict_get day daily_metrics) eqn:E; [reflexivity|].
    destruct (String.eqb_spec day day') as [->|Hd].
    - rewrite dict_get_set_eq, E. reflexivity.
    - rewrite dict_get_set_ne by exact Hd. reflexivity. }
  rewrite <- Hdm. unfold group at 1.
  destruct (String.eqb_spec day day') as [->|Hd].
  - rewrite dict_get_set_eq. simpl.
    rewrite dict_get_set_ne by congruence.
    unfold group. destruct (dict_get day' dm); reflexivity.
  - rewrite dict_get_set_ne by exact Hd. reflexivity.
Qed.

Lemma dict_get_average_pass (daily_metrics : DailyMetrics) (day : string) :
  dict_get day (average_pass daily_metrics)
  = map (fun '(name, metrics) => (name, with_average metrics)) <$> dict_get day daily_metrics.
Proof.
  induction daily_metrics as [|[day' stores] dm IH]; [reflexivity|]. simpl.
  destruct (String.eqb day day'); [reflexivity|exact IH].
Qed.

Lemma dict_get_sort_pass (daily_metrics : DailyMetrics) (day : string) :
  dict_get day (sort_pass daily_metrics) = sorted_items <$> dict_get day daily_metrics.
Proof.
  unfold sort_pass. rewrite <- (dict_get_sorted_items day daily_metrics).
  induction (sorted_items daily_metrics) as [|[day' stores] dm IH]; [reflexivity|].
  simpl. destruct (String.eqb day day'); [reflexivity|exact IH].
Qed.

Lemma group_finalize (daily_metrics : DailyMetrics) (day location_name : string) :
  group (finalize daily_metrics) day location_name
  = with_average <$> group daily_metrics day location_name.
Proof.
  unfold group, finalize.
  rewrite dict_get_sort_pass, dict_get_average_pass.
  destruct (dict_get day daily_metrics) as [stores|]; simpl; [|reflexivity].
  rewrite dict_get_sorted_items. apply (dict_get_map with_average).
Qed.

(** ** One reading *)

Lemma try_body_spec (location_name : string) (batch_trays : Z) (reading : Reading)
    (daily_metrics : DailyMetrics) :
  try_body location_name batch_trays reading daily_metrics =
    '(initial_timestamp, current_timestamp) ← parse_reading reading;
    let hold_time := datetime_sub current_timestamp initial_timestamp in
    let day := strftime_Ymd initial_timestamp in
    match group daily_metrics day location_name with
    | None =>
        Ok (put_group daily_metrics day location_name
              (new_metrics batch_trays initial_timestamp hold_time))
    | Some store_metrics =>
        m ← update_metrics batch_trays initial_timestamp hold_time store_metrics;
        Ok (put_group daily_metrics day location_name m)
    end.
Proof.
  unfold try_body, parse_reading.
  destruct (getitem reading "initial_timestamp") as [s1|e]; [simpl|reflexivity].
  destruct (strptime s1 "%Y%m%d_%H%M%S") as [i|e]; [simpl|reflexivity].
  destruct (getitem reading "current_timestamp") as [s2|e]; [simpl|reflexivity].
  destruct (strptime s2 "%Y-%m-%d %H:%M:%S") as [c|e]; [simpl|reflexivity].
  rewrite stores_lookup.
  destruct (group daily_metrics (strftime_Ymd i) location_name); reflexivity.
Qed.

Lemma datetime_new_raises (y mo d h mi s : Z) (e : exn) :
  datetime_new y mo d h mi s = Raise e -> e = ValueError.
Proof. unfold datetime_new. case_match; congruence. Qed.

Lemma strptime_raises (data_string format : string) (e : exn) :
  strptime data_string format = Raise e -> e = ValueError.
Proof.
  unfold strptime. repeat case_match; try congruence.
  apply datetime_new_raises.
Qed.

Lemma parse_reading_raises (reading : Reading) (e : exn) :
  parse_reading reading = Raise e -> e = KeyError \/ e = ValueError.
Proof.
  unfold parse_reading, getitem.
  destruct (reading !! "initial_timestamp") as [s1|]; simpl; [|intros [= <-]; auto].
  destruct (strptime s1 "%Y%m%d_%H%M%S") as [i|e1] eqn:E1; simpl.
  - destruct (reading !! "current_timestamp") as [s2|]; simpl; [|intros [= <-]; auto].
    destruct (strptime s2 "%Y-%m-%d %H:%M:%S") as [c|e2] eqn:E2; simpl; [discriminate|].
    intros [= <-]. right. eapply strptime_raises, E2.
  - intros [= <-]. right. eapply strptime_raises, E1.
Qed.

Lemma update_metrics_raises (batch_trays : Z) (initial_timestamp : datetime)
    (hold_time : timedelta) (g : Metrics) (e : exn) :
  update_metrics batch_trays initial_timestamp hold_time g = Raise e ->
  e = OverflowError \/ e = ZeroDivisionError.
Proof.
  unfold update_metrics, timedelta_add, percentage_of. simpl.
  destruct ((last_tray_count g <? batch_trays)
            || ((batch_trays =? last_tray_count g)
                && datetime_gtb initial_timestamp (last_tray_time g))); simpl;
    (destruct (timedelta_in_range (total_hold_time g + hold_time)); simpl;
     [|intros [= <-]; auto]);
    (destruct (hold_limit <? hold_time); simpl; [|discriminate]);
    (destruct (Z.max batch_trays (total_trays g) =? 0); simpl;
     [intros [= <-]; auto|]);
    (destruct (float_overflows _ _); simpl; [intros [= <-]; auto|discriminate]).
Qed.

Lemma process_reading_parsed (location_name : string) (batch_trays : Z)
    (reading : Reading) (st : state) (initial_timestamp current_timestamp : datetime) :
  parse_reading reading = Ok (initial_timestamp, current_timestamp) ->
  process_reading location_name batch_trays reading st =
    let hold_time := datetime_sub current_timestamp initial_timestamp in
    let day := strftime_Ymd initial_timestamp in
    match group (fst st) day location_name with
    | None =>
        Ok (put_group (fst st) day location_name
              (new_metrics batch_trays initial_timestamp hold_time), snd st)
    | Some store_metrics =>
        match update_metrics batch_trays initial_timestamp hold_time store_metrics with
        | Ok m => Ok (put_group (fst st) day location_name m, snd st)
        | Raise e => Raise e
        end
    end.
Proof.
  intros Hp. unfold process_reading. rewrite try_body_spec, Hp. simpl.
  destruct (group st.1 (strftime_Ymd initial_timestamp) location_name) as [g|];
    [|reflexivity].
  destruct (update_metrics batch_trays initial_timestamp
              (datetime_sub current_timestamp initial_timestamp) g) as [m|e] eqn:E;
    simpl; [reflexivity|].
  destruct (update_metrics_raises _ _ _ _ _ E) as [-> | ->]; reflexivity.
Qed.

Lemma process_reading_key_error (location_name : string) (batch_trays : Z)
    (reading : Reading) (st : state) :
  parse_reading reading = Raise KeyError ->
  process_reading location_name batch_trays reading st
  = Ok (fst st, (snd st ++ [PrintKeyError reading])%list).
Proof.
  intros Hp. unfold process_reading. rewrite try_body_spec, Hp. reflexivity.
Qed.

Lemma process_reading_value_error (location_name : string) (batch_trays : Z)
    (reading : Reading) (st : state) :
  parse_reading reading = Raise ValueError ->
  process_reading location_name batch_trays reading st = Raise ValueError.
Proof.
  intros Hp. unfold process_reading. rewrite try_body_spec, Hp. reflexivity.
Qed.

(** What a successful update leaves in the group. *)
Lemma update_metrics_ok (batch_trays : Z) (initial_timestamp : datetime)
    (hold_time : timedelta) (g m : Metrics) :
  update_metrics batch_trays initial_timestamp hold_time g = Ok m ->
  first_tray_time m = datetime_min (first_tray_time g) initial_timestamp
  /\ (last_tray_time m, last_tray_count m) =
       (if (last_tray_count g <? batch_trays)
           || ((batch_trays =? last_tray_count g)
               && datetime_gtb initial_timestamp (last_tray_time g))
        then (initial_timestamp, batch_trays)
        else (last_tray_time g, last_tray_count g))
  /\ total_trays m = Z.max batch_trays (total_trays g)
  /\ total_hold_time m = total_hold_time g + hold_time
  /\ trays_exceeding_hold_time m =
       trays_exceeding_hold_time g + (if hold_limit <? hold_time then 1 else 0)
  /\ percentage_trays_over_hold m =
       (if hold_limit <? hold_time
        then PctRatio (trays_exceeding_hold_time g + 1) (Z.max batch_trays (total_trays g))
        else percentage_trays_over_hold g)
  /\ average_hold_time m = average_hold_time g.
Proof.
  unfold update_metrics, timedelta_add, percentage_of. simpl.
  destruct ((last_tray_count g <? batch_trays)
            || ((batch_trays =? last_tray_count g)
                && datetime_gtb initial_timestamp (last_tray_time g))) eqn:Hc;
    simpl;
    (destruct (timedelta_in_range (total_hold_time g + hold_time)); simpl;
     [|discriminate]);
    (destruct (hold_limit <? hold_time); simpl;
     [ destruct (Z.max batch_trays (total_trays g) =? 0); simpl; [discriminate|];
       destruct (float_overflows _ _); simpl; [discriminate|]
     | ]);
    intros [= <-]; simpl; rewrite ?Z.add_0_r; repeat split; reflexivity.
Qed.

(** When the update succeeds: the sum of hold times stays a timedelta and,
    for an exceeding reading, the quotient is a finite double.  The divisor
    is never 0 for the tray count of a batch that has a reading. *)
Lemma update_metrics_is_ok (batch_trays : Z) (initial_timestamp : datetime)
    (hold_time : timedelta) (g : Metrics) :
  1 <= batch_trays ->
  timedelta_in_range (total_hold_time g + hold_time) = true ->
  float_overflows (trays_exceeding_hold_time g + 1)
    (Z.max batch_trays (total_trays g)) = false ->
  exists m, update_metrics batch_trays initial_timestamp hold_time g = Ok m.
Proof.
  intros Hn Hr Hf. unfold update_metrics, timedelta_add, percentage_of. simpl.
  destruct ((last_tray_count g <? batch_trays)
            || ((batch_trays =? last_tray_count g)
                && datetime_gtb initial_timestamp (last_tray_time g))); simpl;
    rewrite Hr; simpl;
    (destruct (hold_limit <? hold_time); simpl; [|eauto]);
    (destruct (Z.eqb_spec (Z.max batch_trays (total_trays g)) 0); [lia|]);
    rewrite Hf; simpl; eauto.
Qed.

(** ** The loops *)

Lemma for_readings_invariant (P : state -> Prop) (location_name : string)
    (batch_trays : Z) (rs : list Reading) :
  (forall r st st', In r rs -> P st ->
     process_reading location_name batch_trays r st = Ok st' -> P st') ->
  forall st st', P st ->
    for_readings location_name batch_trays rs st = Ok st' -> P st'.
Proof.
  induction rs as [|r rs IH]; intros Hstep st st' HP; simpl.
  - intros [= <-]. exact HP.
  - destruct (process_reading location_name batch_trays r st) as [st1|e] eqn:E;
      simpl; [|discriminate].
    apply IH.
    + intros r' s s' Hin. apply Hstep. right. exact Hin.
    + eapply Hstep; [left; reflexivity|exact HP|exact E].
Qed.

Lemma for_records_invariant (P : state -> Prop) (location_name : string)
    (data : list Records) :
  (forall records st st', In records data -> P st ->
     process_records location_name records st = Ok st' -> P st') ->
  forall st st', P st -> for_records location_name data st = Ok st' -> P st'.
Proof.
  induction data as [|records data IH]; intros Hstep st st' HP; simpl.
  - intros [= <-]. exact HP.
  - destruct (process_records location_name records st) as [st1|e] eqn:E;
      simpl; [|discriminate].
    apply IH.
    + intros r' s s' Hin. apply Hstep. right. exact Hin.
    + eapply Hstep; [left; reflexivity|exact HP|exact E].
Qed.

(** Inside a batch the tray count is at least 1 whenever a reading is
    processed. *)
Lemma process_records_invariant (P : state -> Prop) (location_name : string)
    (records : Records) :
  (forall r st st', In r (readings records) ->
     1 <= Z.of_nat (length (readings records)) -> P st ->
     process_reading location_name (Z.of_nat (length (readings records))) r st = Ok st' ->
     P st') ->
  forall st st', P st -> process_records location_name records st = Ok st' -> P st'.
Proof.
  intros Hstep st st' HP. unfold process_records.
  apply for_readings_invariant; [|exact HP].
  intros r s s' Hin. apply Hstep; [exact Hin|].
  destruct (readings records); [destruct Hin|simpl; lia].
Qed.

Lemma aggregate_metrics_ok (data : option (list Records)) (daily_metrics : DailyMetrics)
    (location_name : string) (st' : state) :
  aggregate_metrics data daily_metrics location_name = Ok st' ->
  exists batches dm,
    data = Some batches
    /\ for_records location_name batches (daily_metrics, []) = Ok (dm, snd st')
    /\ fst st' = finalize dm.
Proof.
  unfold aggregate_metrics. destruct data as [batches|]; [|discriminate].
  destruct (for_records location_name batches (daily_metrics, [])) as [[dm out]|e]
    eqn:E; simpl; [|discriminate].
  intros [= <-]. exists batches, dm. split; [reflexivity|].
  split; [exact E|reflexivity].
Qed.

(** ** Monotonicity *)

Lemma grows_refl (g : Metrics) : grows g g.
Proof. unfold grows. repeat split; try lia. apply datetime_le_refl. Qed.

Lemma grows_trans (g1 g2 g3 : Metrics) : grows g1 g2 -> grows g2 g3 -> grows g1 g3.
Proof.
  unfold grows. intros (?&?&?) (?&?&?). repeat split; try lia.
  eapply datetime_le_trans; eassumption.
Qed.

Lemma table_grows_refl (dm : DailyMetrics) : table_grows dm dm.
Proof. intros day l g H. exists g. split; [exact H|apply grows_refl]. Qed.

Lemma table_grows_trans (dm1 dm2 dm3 : DailyMetrics) :
  table_grows dm1 dm2 -> table_grows dm2 dm3 -> table_grows dm1 dm3.
Proof.
  intros H12 H23 day l g H.
  destruct (H12 _ _ _ H) as (g2 & H2 & Hg2).
  destruct (H23 _ _ _ H2) as (g3 & H3 & Hg3).
  exists g3. split; [exact H3|]. eapply grows_trans; eassumption.
Qed.

Lemma update_metrics_grows (batch_trays : Z) (initial_timestamp : datetime)
    (hold_time : timedelta) (g m : Metrics) :
  update_metrics batch_trays initial_timestamp hold_time g = Ok m -> grows g m.
Proof.
  intros H. apply update_metrics_ok in H as (Hf & _ & Ht & _ & He & _).
  unfold grows. rewrite Hf, Ht, He. repeat split.
  - lia.
  - destruct (hold_limit <? hold_time); lia.
  - apply datetime_min_le_l.
Qed.

Lemma put_group_grows (dm : DailyMetrics) (day location_name : string) (m : Metrics) :
  (forall g, group dm day location_name = Some g -> grows g m) ->
  table_grows dm (put_group dm day location_name m).
Proof.
  intros Hm day' l' g Hg.
  destruct (decide ((day, location_name) = (day', l'))) as [[= <- <-]|Hne].
  - exists m. split; [apply group_put_group_eq|]. apply Hm, Hg.
  - exists g. rewrite group_put_group_ne by exact Hne.
    split; [exact Hg|apply grows_refl].
Qed.

Lemma process_reading_grows (location_name : string) (batch_trays : Z)
    (reading : Reading) (st st' : state) :
  process_reading location_name batch_trays reading st = Ok st' ->
  table_grows (fst st) (fst st').
Proof.
  destruct (parse_reading reading) as [[i c]|e] eqn:Hp.
  - rewrite (process_reading_parsed _ _ _ _ _ _ Hp). simpl.
    destruct (group st.1 (strftime_Ymd i) location_name) as [g|] eqn:Hg.
    + destruct (update_metrics batch_trays i (datetime_sub c i) g) as [m|] eqn:Hu;
        [|discriminate].
      intros [= <-]. simpl. apply put_group_grows.
      intros g0 Hg0. rewrite Hg in Hg0. injection Hg0 as <-.
      eapply update_metrics_grows, Hu.
    + intros [= <-]. simpl. apply put_group_grows.
      intros g0 Hg0. rewrite Hg in Hg0. discriminate.
  - destruct (parse_reading_raises _ _ Hp) as [-> | ->].
    + rewrite (process_reading_key_error _ _ _ _ Hp). intros [= <-].
      apply table_grows_refl.
    + rewrite (process_reading_value_error _ _ _ _ Hp). discriminate.
Qed.

Lemma for_readings_grows (location_name : string) (batch_trays : Z)
    (rs : list Reading) (st st' : state) :
  for_readings location_name batch_trays rs st = Ok st' ->
  table_grows (fst st) (fst st').
Proof.
  apply (for_readings_invariant (fun s => table_grows (fst st) (fst s))).
  - intros r s s' _ Hs Hr. eapply table_grows_trans; [exact Hs|].
    eapply process_reading_grows, Hr.
  - apply table_grows_refl.
Qed.

Lemma for_records_grows (location_name : string) (data : list Records)
    (st st' : state) :
  for_records location_name data st = Ok st' -> table_grows (fst st) (fst st').
Proof.
  apply (for_records_invariant (fun s => table_grows (fst st) (fst s))).
  - intros r s s' _ Hs Hr. eapply table_grows_trans; [exact Hs|].
    eapply for_readings_grows, Hr.
  - apply table_grows_refl.
Qed.

Lemma finalize_grows (dm : DailyMetrics) : table_grows dm (finalize dm).
Proof.
  intros day l g Hg. exists (with_average g).
  rewrite group_finalize, Hg. split; [reflexivity|].
  unfold grows. simpl. repeat split; try lia. apply datetime_le_refl.
Qed.

Lemma aggregate_metrics_grows (data : option (list Records))
    (daily_metrics : DailyMetrics) (location_name : string) (st' : state) :
  aggregate_metrics data daily_metrics location_name = Ok st' ->
  table_grows daily_metrics (fst st').
Proof.
  intros H. apply aggregate_metrics_ok in H as (batches & dm & _ & Hf & ->).
  eapply table_grows_trans; [|apply finalize_grows].
  apply for_records_grows in Hf. exact Hf.
Qed.

(** ** All the groups of a table *)

Lemma In_groups (dm : DailyMetrics) (day location_name : string) (g : Metrics) :
  In (day, location_name, g) (groups dm) <->
  exists stores, In (day, stores) dm /\ In (location_name, g) stores.
Proof.
  unfold groups. rewrite in_flat_map. split.
  - intros ([day' stores] & Hin & Hg). apply in_map_iff in Hg as ([l m] & [= -> -> ->] & Hm).
    eauto.
  - intros (stores & Hin & Hg). exists (day, stores). split; [exact Hin|].
    apply in_map_iff. exists (location_name, g). auto.
Qed.

Lemma dict_get_In {V : Type} (k : string) (v : V) (d : dict V) :
  dict_get k d = Some v -> In (k, v) d.
Proof.
  induction d as [|[k' v'] d IH]; simpl; [discriminate|].
  destruct (String.eqb_spec k k') as [->|]; [intros [= ->]; auto|auto].
Qed.

Lemma In_dict_set {V : Type} (k : string) (v : V) (d : dict V) (x : string * V) :
  In x (dict_set k v d) -> x = (k, v) \/ In x d.
Proof.
  induction d as [|[k' v'] d IH]; simpl.
  - intros [<-|[]]. auto.
  - destruct (String.eqb k k'); simpl; intros [<-|H]; auto.
    destruct (IH H); auto.
Qed.

Lemma group_In (dm : DailyMetrics) (day location_name : string) (g : Metrics) :
  group dm day location_name = Some g -> In (day, location_name, g) (groups dm).
Proof.
  unfold group. destruct (dict_get day dm) as [stores|] eqn:E; simpl; [|discriminate].
  intros Hg. apply In_groups. exists stores.
  split; apply dict_get_In; assumption.
Qed.

Lemma In_groups_put_group (dm : DailyMetrics) (day location_name : string)
    (m : Metrics) (x : string * string * Metrics) :
  In x (groups (put_group dm day location_name m)) ->
  x = (day, location_name, m) \/ In x (groups dm).
Proof.
  destruct x as [[day' l'] g']. rewrite !In_groups. unfold put_group.
  set (dm' := if dict_mem day dm then dm else dict_set day [] dm).
  assert (Hdm' : forall y, In y dm' -> y = (day, []) \/ In y dm).
  { subst dm'. destruct (dict_mem day dm); [auto|apply In_dict_set]. }
  intros (stores & Hs & Hg). apply In_dict_set in Hs as [[= -> ->]|Hs].
  - apply In_dict_set in Hg as [[= -> ->]|Hg]; [auto|]. right.
    destruct (dict_get day dm') as [stores|] eqn:E; simpl in Hg; [|destruct Hg].
    apply dict_get_In, Hdm' in E as [[= ->]|E]; [destruct Hg|eauto].
  - apply Hdm' in Hs as [[= -> ->]|Hs]; [destruct Hg|eauto].
Qed.

Lemma In_groups_finalize (dm : DailyMetrics) (day location_name : string)
    (g' : Metrics) :
  In (day, location_name, g') (groups (finalize dm)) ->
  exists g, In (day, location_name, g) (groups dm) /\ g' = with_average g.
Proof.
  rewrite In_groups. intros (stores' & Hs & Hg).
  unfold finalize, sort_pass in Hs.
  apply in_map_iff in Hs as ([d1 s1] & [= -> <-] & Hs).
  apply (Permutation_in _ (sorted_items_Permutation _)) in Hs.
  apply (Permutation_in _ (sorted_items_Permutation _)) in Hg.
  unfold average_pass in Hs.
  apply in_map_iff in Hs as ([d0 s0] & [= -> <-] & Hs).
  apply in_map_iff in Hg as ([l0 g0] & [= -> <-] & Hg).
  exists g0. split; [|reflexivity]. apply In_groups. eauto.
Qed.

Lemma process_reading_all_groups (P : Metrics -> Prop) (location_name : string)
    (batch_trays : Z) (reading : Reading) (st st' : state) :
  (forall i h, P (new_metrics batch_trays i h)) ->
  (forall i h g m, P g -> update_metrics batch_trays i h g = Ok m -> P m) ->
  all_groups P (fst st) ->
  process_reading location_name batch_trays reading st = Ok st' ->
  all_groups P (fst st').
Proof.
  intros Hnew Hupd Hall.
  destruct (parse_reading reading) as [[i c]|e] eqn:Hp.
  - rewrite (process_reading_parsed _ _ _ _ _ _ Hp). simpl.
    destruct (group st.1 (strftime_Ymd i) location_name) as [g|] eqn:Hg.
    + destruct (update_metrics batch_trays i (datetime_sub c i) g) as [m|] eqn:Hu;
        [|discriminate].
      intros [= <-] d l g' Hin. simpl in Hin.
      apply In_groups_put_group in Hin as [[= -> -> ->]|Hin]; [|eapply Hall, Hin].
      eapply Hupd; [|exact Hu]. eapply Hall, group_In, Hg.
    + intros [= <-] d l g' Hin. simpl in Hin.
      apply In_groups_put_group in Hin as [[= -> -> ->]|Hin]; [|eapply Hall, Hin].
      apply Hnew.
  - destruct (parse_reading_raises _ _ Hp) as [-> | ->].
    + rewrite (process_reading_key_error _ _ _ _ Hp). intros [= <-]. exact Hall.
    + rewrite (process_reading_value_error _ _ _ _ Hp). discriminate.
Qed.

Lemma for_records_all_groups (P : Metrics -> Prop) (location_name : string)
    (data : list Records) (st st' : state) :
  (forall n i h, 1 <= n -> P (new_metrics n i h)) ->
  (forall n i h g m, 1 <= n -> P g -> update_metrics n i h g = Ok m -> P m) ->
  all_groups P (fst st) ->
  for_records location_name data st = Ok st' ->
  all_groups P (fst st').
Proof.
  intros Hnew Hupd.
  apply (for_records_invariant (fun s => all_groups P (fst s))).
  intros records s s' _.
  apply (process_records_invariant (fun s => all_groups P (fst s))).
  intros r s1 s1' _ Hn. apply process_reading_all_groups.
  - intros i h. apply Hnew, Hn.
  - intros i h g m. apply Hupd, Hn.
Qed.

Lemma main_loop_invariant (Q : DailyMetrics -> Prop) (locs : list location) :
  (forall data dm location_name st',
     Q dm -> aggregate_metrics data dm location_name = Ok st' -> Q (fst st')) ->
  forall st st', Q (fst st) -> main_loop locs st = Ok st' -> Q (fst st').
Proof.
  intros Hstep. induction locs as [|l locs IH]; intros st st' HQ; simpl.
  - intros [= <-]. exact HQ.
  - destruct (fetch_sensor_readings (loc_id l) (outcome l)) as [data printed].
    destruct (aggregate_metrics data st.1 (name l)) as [[dm out]|e] eqn:E;
      simpl; [|discriminate].
    apply IH. simpl. apply (Hstep _ _ _ _ HQ E).
Qed.

(** ** The order of the result *)

Lemma str_le_lt_eq (a b : string) :
  str_le a b <-> a = b \/ OrderedTypeEx.String_as_OT.lt a b.
Proof.
  unfold str_le, String.leb.
  rewrite <- OrderedTypeEx.String_as_OT.cmp_lt, <- OrderedTypeEx.String_as_OT.cmp_eq.
  unfold OrderedTypeEx.String_as_OT.cmp.
  destruct (String.compare a b); intuition congruence.
Qed.

Lemma str_le_trans (a b c : string) : str_le a b -> str_le b c -> str_le a c.
Proof.
  rewrite !str_le_lt_eq. intros [->|Hab] [->|Hbc]; auto.
  right. eapply OrderedTypeEx.String_as_OT.lt_trans; eassumption.
Qed.

Lemma str_le_antisym (a b : string) : str_le a b -> str_le b a -> a = b.
Proof. unfold str_le. intros H1 H2. apply String.leb_antisym; assumption. Qed.

Lemma sorted_items_StronglySorted {V : Type} (d : dict V) :
  StronglySorted str_le (keys (sorted_items d)).
Proof.
  apply Sorted_StronglySorted; [|apply sorted_items_Sorted].
  intros a b c. apply str_le_trans.
Qed.

Lemma keys_sort_pass (dm : DailyMetrics) : keys (sort_pass dm) = keys (sorted_items dm).
Proof.
  unfold sort_pass, keys. rewrite map_map. apply map_ext. intros [k v]. reflexivity.
Qed.

Lemma finalize_sorted (dm : DailyMetrics) : table_sorted (finalize dm).
Proof.
  unfold table_sorted, finalize. split.
  - rewrite keys_sort_pass. apply sorted_items_StronglySorted.
  - intros day stores Hin. unfold sort_pass in Hin.
    apply in_map_iff in Hin as ([d s] & [= _ <-] & _).
    apply sorted_items_StronglySorted.
Qed.

(** A duplicate-free dict has one sorted arrangement: the order of the
    result does not depend on the order in which the keys were inserted. *)
Lemma sorted_dict_unique {V : Type} (l1 l2 : dict V) :
  StronglySorted str_le (keys l1) -> StronglySorted str_le (keys l2) ->
  List.NoDup (keys l1) -> Permutation l1 l2 -> l1 = l2.
Proof.
  revert l2. induction l1 as [|x l1 IH]; intros l2 Hs1 Hs2 Hnd Hp.
  - apply Permutation_nil in Hp. subst. reflexivity.
  - destruct l2 as [|y l2].
    { apply Permutation_sym, Permutation_nil in Hp. discriminate. }
    simpl in Hs1, Hs2, Hnd.
    apply StronglySorted_inv in Hs1 as [Hs1 Hx].
    apply StronglySorted_inv in Hs2 as [Hs2 Hy].
    apply List.NoDup_cons_iff in Hnd as [Hnx Hnd].
    assert (Hxy : x = y).
    { assert (Hiy : In y (x :: l1))
        by (eapply Permutation_in; [apply Permutation_sym, Hp|left; reflexivity]).
      assert (Hix : In x (y :: l2))
        by (eapply Permutation_in; [apply Hp|left; reflexivity]).
      destruct Hiy as [->|Hiy]; [reflexivity|].
      destruct Hix as [->|Hix]; [reflexivity|].
      exfalso. apply Hnx.
      assert (Hk : fst x = fst y).
      { apply str_le_antisym.
        - rewrite List.Forall_forall in Hx. apply Hx, in_map, Hiy.
        - rewrite List.Forall_forall in Hy. apply Hy, in_map, Hix. }
      rewrite Hk. apply in_map, Hiy. }
    subst y. f_equal. apply IH; try assumption.
    eapply Permutation_cons_inv, Hp.
Qed.

Lemma sorted_items_canonical {V : Type} (d1 d2 : dict V) :
  List.NoDup (keys d1) -> Permutation d1 d2 -> sorted_items d1 = sorted_items d2.
Proof.
  intros Hnd Hp. apply sorted_dict_unique.
  - apply sorted_items_StronglySorted.
  - apply sorted_items_StronglySorted.
  - eapply Permutation_NoDup; [|exact Hnd].
    apply Permutation_map, Permutation_sym, sorted_items_Permutation.
  - rewrite sorted_items_Permutation, Hp. symmetry. apply sorted_items_Permutation.
Qed.

Lemma insert_item_map {V W : Type} (f : V -> W) (x : string * V) (d : dict V) :
  insert_item (fst x, f (snd x)) (map (fun '(k, v) => (k, f v)) d)
  = map (fun '(k, v) => (k, f v)) (insert_item x d).
Proof.
  induction d as [|[k v] d IH]; [destruct x; reflexivity|]. simpl.
  destruct (String.leb (fst x) k); simpl.
  - destruct x. reflexivity.
  - f_equal. exact IH.
Qed.

Lemma sorted_items_map {V W : Type} (f : V -> W) (d : dict V) :
  sorted_items (map (fun '(k, v) => (k, f v)) d)
  = map (fun '(k, v) => (k, f v)) (sorted_items d).
Proof.
  induction d as [|[k v] d IH]; [reflexivity|].
  unfold sorted_items in *. simpl. rewrite IH.
  apply (insert_item_map f (k, v)).
Qed.

Lemma finalize_sorted_items (dm : DailyMetrics) :
  finalize dm = sorted_items (map final_day dm).
Proof.
  unfold finalize, sort_pass, average_pass.
  rewrite <- (sorted_items_map sorted_items), map_map.
  f_equal. apply map_ext. intros [day stores]. reflexivity.
Qed.

Lemma keys_final_day (dm : DailyMetrics) : keys (map final_day dm) = keys dm.
Proof. unfold keys. rewrite map_map. reflexivity. Qed.

Lemma finalize_canonical (dm1 dm2 : DailyMetrics) :
  distinct_keys dm1 -> same_groups dm1 dm2 -> finalize dm1 = finalize dm2.
Proof.
  intros [Hnd Hin] (dm & Hf & Hp). rewrite !finalize_sorted_items.
  assert (HN : map final_day dm1 = map final_day dm).
  { clear Hp Hnd. induction Hf as [|[d1 s1] [d2 s2] l1 l2 [Hd Hs] _ IH];
      [reflexivity|]. simpl in *. subst d2. f_equal.
    - unfold final_day. simpl. f_equal. apply sorted_items_canonical.
      + rewrite (keys_map with_average). apply (Hin d1). left. reflexivity.
      + apply Permutation_map, Hs.
    - apply IH. intros day stores H. apply (Hin day). right. exact H. }
  rewrite HN. apply sorted_items_canonical.
  - rewrite <- HN, keys_final_day. exact Hnd.
  - apply Permutation_map, Hp.
Qed.

Lemma table_sorted_nil : table_sorted [].
Proof. split; [constructor|intros day stores []]. Qed.

Lemma aggregate_metrics_sorted (data : option (list Records)) (dm : DailyMetrics)
    (location_name : string) (st' : state) :
  aggregate_metrics data dm location_name = Ok st' -> table_sorted (fst st').
Proof.
  intros Ha. apply aggregate_metrics_ok in Ha as (_ & dm' & _ & _ & ->).
  apply finalize_sorted.
Qed.

(** ** The exceedance percentage *)

(** C1: a group whose only reading has a hold time over the 4-hour limit
    should show 100.0 percent.  On the code the group is created with
    [total_trays = 1] and [trays_exceeding_hold_time = 1] but with
    [percentage_trays_over_hold = 0]: the percentage is recomputed only in
    the branch that updates an existing group. *)
Theorem single_exceeding_reading_percentage :
  hold_limit < timedelta_hours 5
  /\ parse_reading reading_5h
     = Ok (mk_datetime 2024 1 1 8 0 0, mk_datetime 2024 1 1 13 0 0)
  /\ datetime_sub (mk_datetime 2024 1 1 13 0 0) (mk_datetime 2024 1 1 8 0 0)
     = timedelta_hours 5
  /\ exists g,
       sample_group (aggregate_metrics (Some [mk_records [reading_5h]]) [] "Store A")
       = Some g
       /\ total_trays g = 1
       /\ trays_exceeding_hold_time g = 1
       /\ percentage_trays_over_hold g = PctInt 0
       /\ pct_value (percentage_trays_over_hold g) = Some (float_of_Z 0)
       /\ pct_value (PctRatio 1 1) = Some (float_of_Z 100).
Proof.
  split; [reflexivity|]. split; [vm_compute; reflexivity|].
  split; [reflexivity|]. eexists. split; [vm_compute; reflexivity|].
  repeat split; vm_compute; reflexivity.
Qed.

(** The updating branch does recompute it: a second exceeding reading of
    the same batch gives 2 / 2 * 100. *)
Lemma second_exceeding_reading_percentage :
  exists g,
    sample_group
      (aggregate_metrics (Some [mk_records [reading_5h; reading_5h]]) [] "Store A")
    = Some g
    /\ percentage_trays_over_hold g = PctRatio 2 2
    /\ pct_value (percentage_trays_over_hold g) = Some (float_of_Z 100).
Proof. eexists. split; [vm_compute; reflexivity|]. split; vm_compute; reflexivity. Qed.

(** ** Locations without data *)

Lemma insert_item_keep_keys {V W : Type} (f : string * V -> string * W)
    (x : string * V) (d : dict V) :
  (forall y, fst (f y) = fst y) ->
  insert_item (f x) (map f d) = map f (insert_item x d).
Proof.
  intros Hf. induction d as [|y d IH]; [reflexivity|]. simpl.
  rewrite !Hf. destruct (String.leb (fst x) (fst y)); simpl; [reflexivity|].
  f_equal. exact IH.
Qed.

Lemma sorted_items_keep_keys {V W : Type} (f : string * V -> string * W) (d : dict V) :
  (forall y, fst (f y) = fst y) ->
  sorted_items (map f d) = map f (sorted_items d).
Proof.
  intros Hf. induction d as [|x d IH]; [reflexivity|].
  unfold sorted_items in *. simpl. rewrite IH. apply insert_item_keep_keys, Hf.
Qed.

Lemma sorted_items_of_sorted {V : Type} (d : dict V) :
  Sorted str_le (keys d) -> sorted_items d = d.
Proof.
  induction d as [|x d IH]; [reflexivity|]. simpl. intros Hs.
  apply Sorted_inv in Hs as [Hs Hhd]. unfold sorted_items in *. simpl.
  rewrite (IH Hs). destruct d as [|y d]; [reflexivity|]. simpl.
  apply HdRel_inv in Hhd. unfold str_le in Hhd. rewrite Hhd. reflexivity.
Qed.

Lemma sorted_items_idem {V : Type} (d : dict V) :
  sorted_items (sorted_items d) = sorted_items d.
Proof. apply sorted_items_of_sorted, sorted_items_Sorted. Qed.

Lemma final_day_idem (x : string * dict Metrics) : final_day (final_day x) = final_day x.
Proof.
  unfold final_day. simpl. f_equal.
  rewrite <- (sorted_items_keep_keys (fun '(l, m) => (l, with_average m)))
    by (intros [l m]; reflexivity).
  rewrite sorted_items_idem, map_map. f_equal.
  apply map_ext. intros [l m]. reflexivity.
Qed.

(** A table that a call returned is returned as it is by a call without
    batches. *)
Lemma finalize_idem (dm : DailyMetrics) : finalize (finalize dm) = finalize dm.
Proof.
  rewrite !finalize_sorted_items.
  rewrite <- (sorted_items_keep_keys final_day) by reflexivity.
  rewrite sorted_items_idem, map_map. f_equal.
  apply map_ext, final_day_idem.
Qed.

Lemma aggregate_metrics_no_batches (dm : DailyMetrics) (location_name : string) :
  aggregate_metrics (Some []) dm location_name = Ok (finalize dm, [])
  /\ aggregate_metrics (Some []) (finalize dm) location_name = Ok (finalize dm, []).
Proof.
  split; [reflexivity|]. unfold aggregate_metrics. simpl.
  rewrite finalize_idem. reflexivity.
Qed.

(** C7: a location that yields no batches should contribute nothing and
    cause no error.  When the query fails, [fetch_sensor_readings] returns
    [[]] and the call is harmless; when the query returns an empty response
    it returns the value of [print], [None], and [aggregate_metrics] raises
    [TypeError] on it, which ends the run. *)
Theorem empty_response_raises_TypeError :
  (forall id, fetch_sensor_readings id (Response []) = (None, [PrintNoData id]))
  /\ (forall dm location_name, aggregate_metrics None dm location_name = Raise TypeError)
  /\ (forall id location_name locs st,
        main_loop (mk_location id (Response []) location_name :: locs) st
        = Raise TypeError)
  /\ main [mk_location "loc-1" (Response []) "Store A"] = Raise TypeError
  /\ main [mk_location "loc-1" QueryRaises "Store A"] = Ok ([], [PrintFetchError]).
Proof. repeat split. Qed.

(** ** The average *)

Lemma with_average_spec (g : Metrics) :
  (0 < total_trays (with_average g) ->
   average_hold_time (with_average g) = Some (average_of (with_average g)))
  /\ (total_trays (with_average g) = 0 ->
      average_hold_time (with_average g) = Some (AvgInt 0)).
Proof.
  unfold with_average, average_of. simpl. split; intros H.
  - destruct (Z.ltb_spec 0 (total_trays g)); [reflexivity|lia].
  - rewrite H. reflexivity.
Qed.

(** C5: after the final loop every group has [average_hold_time =
    total_hold_time / total_trays] when [total_trays > 0] and [0] when
    [total_trays = 0]; the quotient is that of [timedelta / int], within
    half a microsecond of the exact one; two readings held 2h and 6h in a
    group of two trays average 4h. *)
Theorem finalize_average_hold_time :
  (forall dm day location_name g,
     In (day, location_name, g) (groups (finalize dm)) ->
     (0 < total_trays g -> average_hold_time g = Some (average_of g))
     /\ (total_trays g = 0 -> average_hold_time g = Some (AvgInt 0)))
  /\ (forall data dm location_name st' day l g,
        aggregate_metrics data dm location_name = Ok st' ->
        In (day, l, g) (groups (fst st')) ->
        (0 < total_trays g -> average_hold_time g = Some (average_of g))
        /\ (total_trays g = 0 -> average_hold_time g = Some (AvgInt 0)))
  /\ (forall g,
        0 < total_trays g ->
        2 * Z.abs (timedelta_truediv (total_hold_time g) (total_trays g) * total_trays g
                   - total_hold_time g)
        <= total_trays g)
  /\ exists g,
       sample_group
         (aggregate_metrics (Some [mk_records [reading_2h; reading_6h]]) [] "Store A")
       = Some g
       /\ total_trays g = 2
       /\ total_hold_time g = timedelta_hours 2 + timedelta_hours 6
       /\ average_hold_time g = Some (AvgTimedelta (timedelta_hours 4)).
Proof.
  assert (H : forall dm day location_name g,
             In (day, location_name, g) (groups (finalize dm)) ->
             (0 < total_trays g -> average_hold_time g = Some (average_of g))
             /\ (total_trays g = 0 -> average_hold_time g = Some (AvgInt 0))).
  { intros dm day l g Hin. apply In_groups_finalize in Hin as (g0 & _ & ->).
    apply with_average_spec. }
  split; [exact H|]. split.
  - intros data dm l st' day l' g Ha Hin.
    apply aggregate_metrics_ok in Ha as (_ & dm' & _ & _ & Hf).
    rewrite Hf in Hin. eapply H, Hin.
  - split; [intros g; apply divide_and_round_nearest|].
    eexists. split; [vm_compute; reflexivity|]. repeat split.
Qed.

Lemma finalize_average_hold_time_witness :
  let g := with_average
             (new_metrics 2 (mk_datetime 2024 1 1 8 0 0) (timedelta_hours 8)) in
  average_hold_time g = Some (average_of g).
Proof.
  refine (proj1 (proj1 finalize_average_hold_time
            [("2024-01-01",
              [("Store A",
                new_metrics 2 (mk_datetime 2024 1 1 8 0 0) (timedelta_hours 8))])]
            "2024-01-01" "Store A" _ _) _).
  - vm_compute. left. reflexivity.
  - reflexivity.
Defined.

(** ** The order of the result, continued *)

(** C6: the table returned for rendering has its days in ascending order
    and, within each day, its location names in ascending order, whatever
    the input, after one call and after the calls of [main]; and the
    result holds the groups in that order whatever order they were inserted
    in, so identical groups give identical, identically ordered output. *)
Theorem result_is_sorted :
  (forall dm, table_sorted (finalize dm))
  /\ (forall data dm location_name st',
        aggregate_metrics data dm location_name = Ok st' -> table_sorted (fst st'))
  /\ (forall locs st', main locs = Ok st' -> table_sorted (fst st'))
  /\ (forall dm1 dm2,
        distinct_keys dm1 -> same_groups dm1 dm2 -> finalize dm1 = finalize dm2).
Proof.
  split; [exact finalize_sorted|].
  split; [exact aggregate_metrics_sorted|].
  split; [|exact finalize_canonical].
  intros locs st'. unfold main. apply (main_loop_invariant table_sorted).
  - intros data dm l s _. apply aggregate_metrics_sorted.
  - apply table_sorted_nil.
Qed.

Lemma result_is_sorted_witness :
  fst <$> aggregate_metrics
            (Some [mk_records [reading_of "20240102_080000" "2024-01-02 09:00:00";
                               reading_of "20240101_080000" "2024-01-01 09:00:00"]])
            [("2024-01-03", [("Store B", new_metrics 1 (mk_datetime 2024 1 3 8 0 0) 0)])]
            "Store A"
  = Ok (three_days_table)
  /\ table_sorted three_days_table.
Proof.
  split; [vm_compute; reflexivity|].
  refine (proj1 (proj2 result_is_sorted)
            (Some [mk_records [reading_of "20240102_080000" "2024-01-02 09:00:00";
                               reading_of "20240101_080000" "2024-01-01 09:00:00"]])
            [("2024-01-03", [("Store B", new_metrics 1 (mk_datetime 2024 1 3 8 0 0) 0)])]
            "Store A" (three_days_table, []) _).
  vm_compute. reflexivity.
Defined.

(** ** Tray totals are positive *)

Lemma update_metrics_no_ZeroDivisionError (batch_trays : Z)
    (initial_timestamp : datetime) (hold_time : timedelta) (g : Metrics) :
  1 <= batch_trays ->
  update_metrics batch_trays initial_timestamp hold_time g <> Raise ZeroDivisionError.
Proof.
  intros Hn. unfold update_metrics, timedelta_add, percentage_of. simpl.
  destruct ((last_tray_count g <? batch_trays)
            || ((batch_trays =? last_tray_count g)
                && datetime_gtb initial_timestamp (last_tray_time g))); simpl;
    (destruct (timedelta_in_range (total_hold_time g + hold_time)); simpl;
     [|discriminate]);
    (destruct (hold_limit <? hold_time); simpl; [|discriminate]);
    (destruct (Z.eqb_spec (Z.max batch_trays (total_trays g)) 0); [lia|]);
    (destruct (float_overflows _ _); simpl; discriminate).
Qed.

(** What a call can raise: [TypeError] on [None], [ValueError] from a
    timestamp, [OverflowError] from a sum of hold times or a quotient. *)
Lemma process_reading_raises (location_name : string) (batch_trays : Z)
    (reading : Reading) (st : state) (e : exn) :
  1 <= batch_trays ->
  process_reading location_name batch_trays reading st = Raise e ->
  e = ValueError \/ e = OverflowError.
Proof.
  intros Hn. destruct (parse_reading reading) as [[i c]|e0] eqn:Hp.
  - rewrite (process_reading_parsed _ _ _ _ _ _ Hp). simpl.
    destruct (group st.1 (strftime_Ymd i) location_name) as [g|]; [|discriminate].
    destruct (update_metrics batch_trays i (datetime_sub c i) g) as [m|e1] eqn:Hu;
      [discriminate|].
    intros [= <-]. destruct (update_metrics_raises _ _ _ _ _ Hu) as [->| ->]; [auto|].
    exfalso. eapply update_metrics_no_ZeroDivisionError; eassumption.
  - destruct (parse_reading_raises _ _ Hp) as [-> | ->].
    + rewrite (process_reading_key_error _ _ _ _ Hp). discriminate.
    + rewrite (process_reading_value_error _ _ _ _ Hp). intros [= <-]. auto.
Qed.

Lemma for_readings_raises_inv (P : exn -> Prop) (location_name : string)
    (batch_trays : Z) (rs : list Reading) :
  (forall r st e, In r rs ->
     process_reading location_name batch_trays r st = Raise e -> P e) ->
  forall st e, for_readings location_name batch_trays rs st = Raise e -> P e.
Proof.
  induction rs as [|r rs IH]; intros Hstep st e; simpl; [discriminate|].
  destruct (process_reading location_name batch_trays r st) as [st1|e1] eqn:E; simpl.
  - apply IH. intros r' s e' Hin. apply Hstep. right. exact Hin.
  - intros [= <-]. eapply Hstep; [left; reflexivity|exact E].
Qed.

Lemma for_records_raises_inv (location_name : string) (data : list Records)
    (st : state) (e : exn) :
  for_records location_name data st = Raise e -> e = ValueError \/ e = OverflowError.
Proof.
  revert st. induction data as [|records data IH]; intros st; simpl; [discriminate|].
  destruct (process_records location_name records st) as [st1|e1] eqn:E; simpl;
    [apply IH|].
  intros [= <-]. revert E. unfold process_records.
  apply (for_readings_raises_inv (fun x => x = ValueError \/ x = OverflowError)).
  intros r s e' Hin.
  apply process_reading_raises.
  destruct (readings records); [destruct Hin|simpl; lia].
Qed.

Lemma aggregate_metrics_raises (data : option (list Records)) (dm : DailyMetrics)
    (location_name : string) (e : exn) :
  aggregate_metrics data dm location_name = Raise e ->
  (data = None /\ e = TypeError) \/ e = ValueError \/ e = OverflowError.
Proof.
  unfold aggregate_metrics. destruct data as [batches|]; [|intros [= <-]; auto].
  destruct (for_records location_name batches (dm, [])) as [[dm' out]|e1] eqn:E;
    simpl; [discriminate|].
  intros [= <-]. right. eapply for_records_raises_inv, E.
Qed.

Lemma for_records_positive_totals (location_name : string) (data : list Records)
    (st st' : state) :
  all_groups (fun g => 1 <= total_trays g) (fst st) ->
  for_records location_name data st = Ok st' ->
  all_groups (fun g => 1 <= total_trays g) (fst st').
Proof.
  apply for_records_all_groups.
  - intros n i h Hn. exact Hn.
  - intros n i h g m Hn _ Hu. apply update_metrics_ok in Hu as (_ & _ & -> & _). lia.
Qed.

Lemma aggregate_metrics_positive_totals (data : option (list Records))
    (dm : DailyMetrics) (location_name : string) (st' : state) :
  all_groups (fun g => 1 <= total_trays g) dm ->
  aggregate_metrics data dm location_name = Ok st' ->
  all_groups (fun g => 1 <= total_trays g /\ average_hold_time g = Some (average_of g))
    (fst st').
Proof.
  intros Hall Ha. apply aggregate_metrics_ok in Ha as (batches & dm' & _ & Hf & ->).
  apply for_records_positive_totals in Hf; [|exact Hall].
  intros day l g Hin. apply In_groups_finalize in Hin as (g0 & Hin & ->).
  apply Hf in Hin. simpl in Hin.
  split; [exact Hin|]. apply with_average_spec. simpl. lia.
Qed.

(** C10: every group of the table has [total_trays >= 1]: a group is
    created with the tray count of a batch that has a reading, and updates
    take a maximum.  So the final loop always divides by a positive total,
    its fallback [0] is never stored, and the division of line 111 never
    raises [ZeroDivisionError]. *)
Theorem groups_have_positive_totals :
  (forall data dm location_name st',
     all_groups (fun g => 1 <= total_trays g) dm ->
     aggregate_metrics data dm location_name = Ok st' ->
     all_groups
       (fun g => 1 <= total_trays g /\ average_hold_time g = Some (average_of g))
       (fst st'))
  /\ (forall locs st',
        main locs = Ok st' ->
        all_groups
          (fun g => 1 <= total_trays g /\ average_hold_time g = Some (average_of g))
          (fst st'))
  /\ (forall records r,
        In r (readings records) ->
        forall i h g,
          update_metrics (Z.of_nat (length (readings records))) i h g
          <> Raise ZeroDivisionError)
  /\ (forall data dm location_name,
        aggregate_metrics data dm location_name <> Raise ZeroDivisionError).
Proof.
  split; [exact aggregate_metrics_positive_totals|]. split; [|split].
  - intros locs st'. unfold main.
    apply (main_loop_invariant
             (all_groups (fun g => 1 <= total_trays g
                                    /\ average_hold_time g = Some (average_of g)))).
    + intros data dm l s Hall. apply aggregate_metrics_positive_totals.
      intros day l' g Hin. apply (Hall _ _ _ Hin).
    + intros day l g [].
  - intros records r Hin i h g. apply update_metrics_no_ZeroDivisionError.
    destruct (readings records); [destruct Hin|simpl; lia].
  - intros data dm l Hr. apply aggregate_metrics_raises in Hr.
    destruct Hr as [[_ H]|[H|H]]; discriminate.
Qed.

Lemma groups_have_positive_totals_witness :
  let g := with_average
             (new_metrics 1 (mk_datetime 2024 1 1 8 0 0) (timedelta_hours 5)) in
  1 <= total_trays g /\ average_hold_time g = Some (average_of g).
Proof.
  refine (proj1 (proj2 groups_have_positive_totals)
            [mk_location "loc-1" (Response [mk_records [reading_5h]]) "Store A"]
            _ _ "2024-01-01" "Store A" _ _).
  - vm_compute. reflexivity.
  - vm_compute. left. reflexivity.
Defined.

(** ** Monotone fields *)

Lemma main_loop_grows (locs : list location) (st st' : state) :
  main_loop locs st = Ok st' -> table_grows (fst st) (fst st').
Proof.
  apply (main_loop_invariant (table_grows (fst st))).
  - intros data dm l s Hg Ha. eapply table_grows_trans; [exact Hg|].
    eapply aggregate_metrics_grows, Ha.
  - apply table_grows_refl.
Qed.

(** C4: along any run, for every group, [total_trays] and
    [trays_exceeding_hold_time] never decrease and [first_tray_time] never
    moves later: from one reading to the next, from one batch to the next,
    over a call and over the calls of [main]; batches of 3, 5, 2 and 7 trays
    leave totals of 3, 5, 5 and 7. *)
Theorem totals_are_monotone :
  (forall location_name batch_trays reading st st',
     process_reading location_name batch_trays reading st = Ok st' ->
     table_grows (fst st) (fst st'))
  /\ (forall location_name records st st',
        process_records location_name records st = Ok st' ->
        table_grows (fst st) (fst st'))
  /\ (forall data dm location_name st',
        aggregate_metrics data dm location_name = Ok st' ->
        table_grows dm (fst st'))
  /\ (forall locs st st',
        main_loop locs st = Ok st' -> table_grows (fst st) (fst st'))
  /\ map (fun k =>
            total_trays <$>
              sample_group
                (aggregate_metrics (Some (take k tray_count_batches)) [] "Store A"))
         [1; 2; 3; 4]%nat
     = [Some 3; Some 5; Some 5; Some 7].
Proof.
  split; [exact process_reading_grows|].
  split; [intros l records st st'; apply for_readings_grows|].
  split; [exact aggregate_metrics_grows|].
  split; [exact main_loop_grows|].
  vm_compute. reflexivity.
Qed.

Lemma totals_are_monotone_witness :
  let g := new_metrics 5 (mk_datetime 2024 1 1 8 0 0) (timedelta_hours 1) in
  exists g',
    sample_group
      (aggregate_metrics (Some [batch_of 2 "20240101_070000" "2024-01-01 13:00:00"])
         [("2024-01-01", [("Store A", g)])] "Store A")
    = Some g'
    /\ grows g g'.
Proof.
  intros g.
  destruct (aggregate_metrics (Some [batch_of 2 "20240101_070000" "2024-01-01 13:00:00"])
              [("2024-01-01", [("Store A", g)])] "Store A") as [[dm' out]|e] eqn:Ha.
  - exact (proj1 (proj2 (proj2 totals_are_monotone)) _ _ _ _ Ha
             "2024-01-01" "Store A" g ltac:(vm_compute; reflexivity)).
  - vm_compute in Ha. discriminate.
Defined.

(** ** The last tray *)

Lemma replaces_last_tray_iff (batch_trays : Z) (initial_timestamp : datetime)
    (g : Metrics) :
  (last_tray_count g <? batch_trays)
  || ((batch_trays =? last_tray_count g)
      && datetime_gtb initial_timestamp (last_tray_time g)) = true
  <-> replaces_last_tray batch_trays initial_timestamp g.
Proof.
  unfold replaces_last_tray, datetime_gtb.
  rewrite orb_true_iff, andb_true_iff, Z.ltb_lt, Z.eqb_eq.
  destruct (datetime_compare initial_timestamp (last_tray_time g));
    intuition congruence.
Qed.

(** C3: for an existing group, a reading moves [last_tray_time] and
    [last_tray_count] to its own [initial_timestamp] and its batch's tray
    count exactly when that count is greater than the stored one, or equal
    with a later [initial_timestamp]; batches A (09:00, 5 trays), B (09:05,
    5 trays) and C (08:50, 6 trays) leave 09:00 and 5, then 09:05 and 5,
    then 08:50 and 6. *)
Theorem last_tray_tie_break :
  (forall location_name batch_trays reading st st' i c g,
     parse_reading reading = Ok (i, c) ->
     group (fst st) (strftime_Ymd i) location_name = Some g ->
     process_reading location_name batch_trays reading st = Ok st' ->
     exists g',
       group (fst st') (strftime_Ymd i) location_name = Some g'
       /\ (replaces_last_tray batch_trays i g ->
           last_tray_time g' = i /\ last_tray_count g' = batch_trays)
       /\ (~ replaces_last_tray batch_trays i g ->
           last_tray_time g' = last_tray_time g
           /\ last_tray_count g' = last_tray_count g))
  /\ map (fun k =>
            (fun g => (last_tray_time g, last_tray_count g)) <$>
              sample_group
                (aggregate_metrics (Some (take k last_tray_batches)) [] "Store A"))
         [1; 2; 3]%nat
     = [Some (mk_datetime 2024 1 1 9 0 0, 5);
        Some (mk_datetime 2024 1 1 9 5 0, 5);
        Some (mk_datetime 2024 1 1 8 50 0, 6)].
Proof.
  split; [|vm_compute; reflexivity].
  intros l n reading st st' i c g Hp Hg.
  rewrite (process_reading_parsed _ _ _ _ _ _ Hp). simpl. rewrite Hg.
  destruct (update_metrics n i (datetime_sub c i) g) as [m|] eqn:Hu; [|discriminate].
  intros [= <-]. simpl. exists m. split; [apply group_put_group_eq|].
  apply update_metrics_ok in Hu as (_ & Hl & _).
  pose proof (replaces_last_tray_iff n i g) as Hiff.
  destruct ((last_tray_count g <? n)
            || ((n =? last_tray_count g) && datetime_gtb i (last_tray_time g)));
    injection Hl as -> ->; split; intros H; try (split; reflexivity).
  - exfalso. apply H, Hiff. reflexivity.
  - apply Hiff in H. discriminate.
Qed.

Lemma last_tray_tie_break_witness :
  let g := new_metrics 5 (mk_datetime 2024 1 1 9 0 0) (timedelta_hours 1) in
  let st : state := ([("2024-01-01", [("Store A", g)])], []) in
  exists g',
    sample_group
      (process_reading "Store A" 6
         (reading_of "20240101_085000" "2024-01-01 10:00:00") st)
    = Some g'
    /\ last_tray_time g' = mk_datetime 2024 1 1 8 50 0
    /\ last_tray_count g' = 6.
Proof.
  intros g st.
  destruct (proj1 last_tray_tie_break "Store A" 6
              (reading_of "20240101_085000" "2024-01-01 10:00:00") st
              (put_group (fst st) "2024-01-01" "Store A"
                 (set_total_hold_time (timedelta_hours 1 + timedelta_hours 1 + 600000000)
                    (set_total_trays 6
                       (set_last_tray (mk_datetime 2024 1 1 8 50 0) 6
                          (set_first_tray_time (mk_datetime 2024 1 1 8 50 0) g)))), [])
              (mk_datetime 2024 1 1 8 50 0) (mk_datetime 2024 1 1 10 0 0) g
              ltac:(vm_compute; reflexivity) ltac:(vm_compute; reflexivity)
              ltac:(vm_compute; reflexivity))
    as (g' & Hg' & Hyes & _).
  exists g'. split; [exact Hg'|]. apply Hyes. left. vm_compute. reflexivity.
Defined.

(** ** Malformed readings *)

Lemma skipped_parse_reading (reading : Reading) :
  skipped reading <-> parse_reading reading = Raise KeyError.
Proof.
  unfold skipped, parse_reading, getitem. split.
  - intros [-> | (s & i & -> & Hi & ->)]; [reflexivity|]. simpl. rewrite Hi. reflexivity.
  - destruct (reading !! "initial_timestamp") as [s|]; simpl; [|auto].
    destruct (strptime s "%Y%m%d_%H%M%S") as [i|e] eqn:Hi; simpl.
    + destruct (reading !! "current_timestamp") as [s'|]; simpl;
        [|intros _; right; exists s, i; auto].
      destruct (strptime s' "%Y-%m-%d %H:%M:%S") as [c|e] eqn:Hc; simpl;
        [discriminate|].
      apply strptime_raises in Hc as ->. discriminate.
    + apply strptime_raises in Hi as ->. discriminate.
Qed.

Lemma unparseable_parse_reading (reading : Reading) :
  unparseable reading <-> parse_reading reading = Raise ValueError.
Proof.
  unfold unparseable, parse_reading, getitem. split.
  - intros [(s & -> & Hs) | (s & i & s' & -> & Hi & -> & Hc)]; simpl.
    + rewrite Hs. reflexivity.
    + rewrite Hi. simpl. rewrite Hc. reflexivity.
  - destruct (reading !! "initial_timestamp") as [s|]; simpl; [|discriminate].
    destruct (strptime s "%Y%m%d_%H%M%S") as [i|e] eqn:Hi; simpl.
    + destruct (reading !! "current_timestamp") as [s'|]; simpl; [|discriminate].
      destruct (strptime s' "%Y-%m-%d %H:%M:%S") as [c|e] eqn:Hc; simpl;
        [discriminate|].
      intros [= ->]. right. eauto 10.
    + intros [= ->]. left. eauto.
Qed.

Lemma for_readings_raises (location_name : string) (batch_trays : Z)
    (reading : Reading) (rs : list Reading) (e0 : exn) :
  In reading rs ->
  (forall st, process_reading location_name batch_trays reading st = Raise e0) ->
  forall st, exists e, for_readings location_name batch_trays rs st = Raise e.
Proof.
  intros Hin Hr. induction rs as [|r rs IH]; intros st; [destruct Hin|]. simpl.
  destruct Hin as [->|Hin].
  - rewrite Hr. simpl. eauto.
  - destruct (process_reading location_name batch_trays r st); simpl; eauto.
Qed.

Lemma for_records_raises (location_name : string) (records : Records)
    (data : list Records) :
  In records data ->
  (forall st, exists e, process_records location_name records st = Raise e) ->
  forall st, exists e, for_records location_name data st = Raise e.
Proof.
  intros Hin Hr. induction data as [|r data IH]; intros st; [destruct Hin|]. simpl.
  destruct Hin as [->|Hin].
  - destruct (Hr st) as [e ->]. simpl. eauto.
  - destruct (process_records location_name r st); simpl; eauto.
Qed.

(** The table a loop computes does not depend on what was printed before. *)
Lemma process_reading_table (location_name : string) (batch_trays : Z)
    (reading : Reading) (dm : DailyMetrics) (out1 out2 : list line) :
  fst <$> process_reading location_name batch_trays reading (dm, out1)
  = fst <$> process_reading location_name batch_trays reading (dm, out2).
Proof.
  unfold process_reading. simpl.
  destruct (try_body location_name batch_trays reading dm) as [dm'|[]]; reflexivity.
Qed.

Lemma for_readings_table (location_name : string) (batch_trays : Z)
    (rs : list Reading) (dm : DailyMetrics) (out1 out2 : list line) :
  fst <$> for_readings location_name batch_trays rs (dm, out1)
  = fst <$> for_readings location_name batch_trays rs (dm, out2).
Proof.
  revert dm out1 out2. induction rs as [|r rs IH]; intros dm out1 out2;
    [reflexivity|]. simpl.
  pose proof (process_reading_table location_name batch_trays r dm out1 out2) as H.
  destruct (process_reading location_name batch_trays r (dm, out1)) as [[d1 o1]|e1],
           (process_reading location_name batch_trays r (dm, out2)) as [[d2 o2]|e2];
    simpl in *; try congruence.
  injection H as ->. apply IH.
Qed.

Lemma for_readings_app (location_name : string) (batch_trays : Z)
    (rs1 rs2 : list Reading) (st : state) :
  for_readings location_name batch_trays (rs1 ++ rs2) st
  = st' ← for_readings location_name batch_trays rs1 st;
    for_readings location_name batch_trays rs2 st'.
Proof.
  revert st. induction rs1 as [|r rs1 IH]; intros st; [reflexivity|]. simpl.
  destruct (process_reading location_name batch_trays r st); simpl; [apply IH|reflexivity].
Qed.

Lemma for_readings_skip (location_name : string) (batch_trays : Z)
    (reading : Reading) (pre post : list Reading) (st : state) :
  skipped reading ->
  fst <$> for_readings location_name batch_trays (pre ++ reading :: post) st
  = fst <$> for_readings location_name batch_trays (pre ++ post) st.
Proof.
  intros Hs. apply skipped_parse_reading in Hs. rewrite !for_readings_app.
  destruct (for_readings location_name batch_trays pre st) as [[dm out]|e];
    [|reflexivity].
  simpl. rewrite (process_reading_key_error _ _ _ _ Hs). simpl.
  apply for_readings_table.
Qed.

(** C2, amended: a reading whose [initial_timestamp] is present and does
    not parse, or whose [initial_timestamp] parses and whose
    [current_timestamp] is present and does not parse, is not skipped:
    [strptime] raises [ValueError], the handler catches [KeyError] only, so
    processing the reading raises [ValueError] and every call whose data
    holds such a reading raises ([ValueError], or the [OverflowError] of an
    earlier reading) instead of returning a table. *)
Theorem unparseable_reading_raises :
  forall reading,
    unparseable reading ->
    (forall location_name batch_trays st,
       process_reading location_name batch_trays reading st = Raise ValueError)
    /\ (forall data records dm location_name,
          In records data -> In reading (readings records) ->
          exists e,
            aggregate_metrics (Some data) dm location_name = Raise e
            /\ (e = ValueError \/ e = OverflowError)).
Proof.
  intros reading Hu. apply unparseable_parse_reading in Hu.
  assert (Hr : forall l n st, process_reading l n reading st = Raise ValueError)
    by (intros; apply process_reading_value_error, Hu).
  split; [exact Hr|].
  intros data records dm l Hrec Hin. unfold aggregate_metrics.
  assert (He : exists e, aggregate_metrics (Some data) dm l = Raise e).
  { unfold aggregate_metrics.
    destruct (for_records_raises l records data Hrec) with (st := (dm, @nil line))
      as [e ->]; [|simpl; eauto].
    intros st. unfold process_records.
    eapply for_readings_raises; [exact Hin|apply Hr]. }
  destruct He as [e He]. exists e. split; [exact He|].
  apply aggregate_metrics_raises in He as [[[=] _]|He]. exact He.
Qed.

Lemma unparseable_reading_raises_witness :
  process_reading "Store A" 3 reading_bad_initial ([], []) = Raise ValueError.
Proof.
  refine (proj1 (unparseable_reading_raises reading_bad_initial _) "Store A" 3 ([], [])).
  left. exists "garbage". split; vm_compute; reflexivity.
Defined.

(** C2 as stated fails: a batch with one unparseable [initial_timestamp]
    between two good readings aborts the call. *)
Lemma unparseable_timestamp_aborts :
  reading_bad_initial !! "initial_timestamp" = Some "garbage"
  /\ strptime "garbage" "%Y%m%d_%H%M%S" = Raise ValueError
  /\ aggregate_metrics
       (Some [mk_records [reading_2h; reading_bad_initial; reading_6h]]) [] "Store A"
     = Raise ValueError.
Proof. repeat split; vm_compute; reflexivity. Qed.

(** C8, amended: a reading that lacks [initial_timestamp], or that lacks
    [current_timestamp] and has an [initial_timestamp] that parses, is
    skipped: processing it returns the table unchanged and prints the
    reading; a batch that holds it is processed as the batch without it at
    the same tray count (the count of the batch still counts the skipped
    reading), so the call returns exactly when it returns without that
    reading.  A batch of a 2h reading and a reading without
    [current_timestamp] leaves one group with the 2h reading alone and 2
    trays. *)
Theorem missing_field_reading_is_skipped :
  forall reading,
    skipped reading ->
    (forall location_name batch_trays st,
       process_reading location_name batch_trays reading st
       = Ok (fst st, (snd st ++ [PrintKeyError reading])%list))
    /\ (forall location_name pre post st,
          fst <$> process_records location_name (mk_records (pre ++ reading :: post)) st
          = fst <$> for_readings location_name
                      (Z.of_nat (length (pre ++ reading :: post))) (pre ++ post) st)
    /\ aggregate_metrics (Some [mk_records [reading_2h; reading_no_current]]) []
         "Store A"
       = Ok ([("2024-01-01",
               [("Store A",
                 with_average
                   (new_metrics 2 (mk_datetime 2024 1 1 8 0 0) (timedelta_hours 2)))])],
             [PrintKeyError reading_no_current]).
Proof.
  intros reading Hs. split; [|split].
  - intros l n st. apply process_reading_key_error, skipped_parse_reading, Hs.
  - intros l pre post st. unfold process_records. simpl.
    apply for_readings_skip, Hs.
  - vm_compute. reflexivity.
Qed.

Lemma missing_field_reading_is_skipped_witness :
  process_reading "Store A" 2 reading_no_current ([], [])
  = Ok ([], [PrintKeyError reading_no_current]).
Proof.
  refine (proj1 (missing_field_reading_is_skipped reading_no_current _)
            "Store A" 2 ([], [])).
  right. exists "20240101_080000", (mk_datetime 2024 1 1 8 0 0).
  repeat split; vm_compute; reflexivity.
Defined.

(** C8 as stated fails: a reading without [current_timestamp] whose
    [initial_timestamp] does not parse, next to a well-formed reading,
    aborts the call with [ValueError]. *)
Lemma missing_field_reading_can_abort :
  reading_no_current_bad_initial !! "current_timestamp" = None
  /\ parse_reading reading_2h
     = Ok (mk_datetime 2024 1 1 8 0 0, mk_datetime 2024 1 1 10 0 0)
  /\ aggregate_metrics
       (Some [mk_records [reading_2h; reading_no_current_bad_initial]]) [] "Store A"
     = Raise ValueError.
Proof. repeat split; vm_compute; reflexivity. Qed.

(** Well-formed readings can end a call too: the sum of 274 hold times of
    nearly 9999 years is not a timedelta. *)
Example hold_times_can_overflow :
  aggregate_metrics
    (Some [batch_of 273 "00010101_000000" "9999-12-31 23:59:59"]) [] "Store A"
  <> Raise OverflowError
  /\ aggregate_metrics
       (Some [batch_of 274 "00010101_000000" "9999-12-31 23:59:59"]) [] "Store A"
     = Raise OverflowError.
Proof. split; vm_compute; [discriminate|reflexivity]. Qed.

(** ** Negative hold times *)

Lemma update_metrics_within_limit (batch_trays : Z) (initial_timestamp : datetime)
    (hold_time : timedelta) (g : Metrics) :
  hold_time <= hold_limit ->
  timedelta_in_range (total_hold_time g + hold_time) = true ->
  exists m,
    update_metrics batch_trays initial_timestamp hold_time g = Ok m
    /\ total_hold_time m = total_hold_time g + hold_time
    /\ trays_exceeding_hold_time m = trays_exceeding_hold_time g
    /\ percentage_trays_over_hold m = percentage_trays_over_hold g.
Proof.
  intros Hh Hr.
  assert (Hlt : (hold_limit <? hold_time) = false) by (apply Z.ltb_ge; exact Hh).
  assert (Hok : exists m, update_metrics batch_trays initial_timestamp hold_time g = Ok m).
  { unfold update_metrics, timedelta_add. simpl.
    destruct ((last_tray_count g <? batch_trays)
              || ((batch_trays =? last_tray_count g)
                  && datetime_gtb initial_timestamp (last_tray_time g))); simpl;
      rewrite Hr; simpl; rewrite Hlt; eauto. }
  destruct Hok as [m Hm]. exists m. split; [exact Hm|].
  apply update_metrics_ok in Hm as (_ & _ & _ & Ht & He & Hp & _).
  rewrite Hlt in He, Hp. rewrite Ht, He, Hp. repeat split. lia.
Qed.

(** C9, amended: a reading whose hold time is negative is not treated as
    malformed; nothing checks the sign.  It is processed like any parsed
    reading and nothing is printed: it creates its group with its negative
    hold time as [total_hold_time], or adds it to the [total_hold_time] of
    the existing group (when the sum is a timedelta), and it never counts as
    exceeding. *)
Theorem negative_hold_time_is_accumulated :
  forall location_name batch_trays reading st i c,
    parse_reading reading = Ok (i, c) ->
    datetime_sub c i < 0 ->
    (forall g, group (fst st) (strftime_Ymd i) location_name = Some g ->
               timedelta_in_range (total_hold_time g + datetime_sub c i) = true) ->
    exists st' m,
      process_reading location_name batch_trays reading st = Ok st'
      /\ snd st' = snd st
      /\ group (fst st') (strftime_Ymd i) location_name = Some m
      /\ total_hold_time m =
           match group (fst st) (strftime_Ymd i) location_name with
           | Some g => total_hold_time g + datetime_sub c i
           | None => datetime_sub c i
           end
      /\ trays_exceeding_hold_time m =
           match group (fst st) (strftime_Ymd i) location_name with
           | Some g => trays_exceeding_hold_time g
           | None => 0
           end.
Proof.
  intros l n reading st i c Hp Hneg Hr.
  assert (Hl : datetime_sub c i <= hold_limit) by (unfold hold_limit, timedelta_hours,
    us_per_second; lia).
  rewrite (process_reading_parsed _ _ _ _ _ _ Hp). simpl.
  destruct (group st.1 (strftime_Ymd i) l) as [g|] eqn:Hg.
  - destruct (update_metrics_within_limit n i _ g Hl (Hr g eq_refl))
      as (m & -> & Ht & He & _).
    eexists _, m. split; [reflexivity|]. simpl.
    split; [reflexivity|]. split; [apply group_put_group_eq|]. auto.
  - eexists _, _. split; [reflexivity|]. simpl.
    split; [reflexivity|]. split; [apply group_put_group_eq|]. simpl.
    split; [reflexivity|].
    destruct (Z.ltb_spec hold_limit (datetime_sub c i)); [lia|reflexivity].
Qed.

Lemma negative_hold_time_is_accumulated_witness :
  exists st' m,
    process_reading "Store A" 1 reading_back_in_time ([], []) = Ok st'
    /\ snd st' = []
    /\ group (fst st') "2024-01-01" "Store A" = Some m
    /\ total_hold_time m = - timedelta_hours 1
    /\ trays_exceeding_hold_time m = 0.
Proof.
  refine (negative_hold_time_is_accumulated "Store A" 1 reading_back_in_time ([], [])
            (mk_datetime 2024 1 1 10 0 0) (mk_datetime 2024 1 1 9 0 0) _ _ _).
  - vm_compute. reflexivity.
  - reflexivity.
  - intros g Hg. vm_compute in Hg. discriminate.
Defined.

(** C9 as stated fails: a reading observed an hour before it was placed
    is not skipped; its group holds a total hold time of minus one hour and
    nothing is printed. *)
Lemma negative_hold_time_contributes :
  parse_reading reading_back_in_time
  = Ok (mk_datetime 2024 1 1 10 0 0, mk_datetime 2024 1 1 9 0 0)
  /\ datetime_sub (mk_datetime 2024 1 1 9 0 0) (mk_datetime 2024 1 1 10 0 0)
     = - timedelta_hours 1
  /\ aggregate_metrics (Some [mk_records [reading_back_in_time]]) [] "Store A"
     = Ok ([("2024-01-01",
             [("Store A",
               with_average
                 (new_metrics 1 (mk_datetime 2024 1 1 10 0 0) (- timedelta_hours 1)))])],
           []).
Proof. repeat split; vm_compute; reflexivity. Qed.

(** * Further properties *)

(** ** What one reading changes *)

Lemma process_reading_cases (location_name : string) (batch_trays : Z)
    (reading : Reading) (st st' : state) :
  process_reading location_name batch_trays reading st = Ok st' ->
  (parse_reading reading = Raise KeyError
   /\ st' = (fst st, (snd st ++ [PrintKeyError reading])%list))
  \/ exists i c m,
       parse_reading reading = Ok (i, c)
       /\ st' = (put_group (fst st) (strftime_Ymd i) location_name m, snd st)
       /\ match group (fst st) (strftime_Ymd i) location_name with
          | None => m = new_metrics batch_trays i (datetime_sub c i)
          | Some g => update_metrics batch_trays i (datetime_sub c i) g = Ok m
          end.
Proof.
  destruct (parse_reading reading) as [[i c]|e] eqn:Hp.
  - rewrite (process_reading_parsed _ _ _ _ _ _ Hp). simpl.
    destruct (group st.1 (strftime_Ymd i) location_name) as [g|] eqn:Hg.
    + destruct (update_metrics batch_trays i (datetime_sub c i) g) as [m|] eqn:Hu;
        [|discriminate].
      intros [= <-]. right. exists i, c, m. rewrite Hg. auto.
    + intros [= <-]. right. eexists i, c, _. rewrite Hg. auto.
  - destruct (parse_reading_raises _ _ Hp) as [-> | ->].
    + rewrite (process_reading_key_error _ _ _ _ Hp). intros [= <-]. auto.
    + rewrite (process_reading_value_error _ _ _ _ Hp). discriminate.
Qed.

Lemma day_reading_parsed (day : string) (reading : Reading) (i c : datetime) :
  parse_reading reading = Ok (i, c) ->
  day_reading day reading
  = if String.eqb (strftime_Ymd i) day then Some (i, datetime_sub c i) else None.
Proof. intros Hp. unfold day_reading. rewrite Hp. reflexivity. Qed.

Lemma day_reading_skipped (day : string) (reading : Reading) :
  parse_reading reading = Raise KeyError -> day_reading day reading = None.
Proof. intros Hp. unfold day_reading. rewrite Hp. reflexivity. Qed.

(** ** Other locations *)

Lemma process_reading_other_location (location_name : string) (batch_trays : Z)
    (reading : Reading) (st st' : state) (day l : string) :
  l <> location_name ->
  process_reading location_name batch_trays reading st = Ok st' ->
  group (fst st') day l = group (fst st) day l.
Proof.
  intros Hl H.
  apply process_reading_cases in H as [[_ ->]|(i & c & m & _ & -> & _)];
    [reflexivity|].
  simpl. apply group_put_group_ne. congruence.
Qed.

Lemma for_records_other_location (location_name : string) (data : list Records)
    (st st' : state) (day l : string) :
  l <> location_name ->
  for_records location_name data st = Ok st' ->
  group (fst st') day l = group (fst st) day l.
Proof.
  intros Hl.
  apply (for_records_invariant (fun s => group (fst s) day l = group (fst st) day l));
    [|reflexivity].
  intros records s s' _.
  apply (for_readings_invariant (fun s => group (fst s) day l = group (fst st) day l)).
  intros r s1 s1' _ Hs1 Hr. rewrite <- Hs1.
  eapply process_reading_other_location; eassumption.
Qed.

(** A call for one location does not touch the groups of the other
    locations: it finds them as they were, with their average set. *)
Theorem other_locations_are_untouched :
  forall data dm location_name st' day l,
    aggregate_metrics data dm location_name = Ok st' ->
    l <> location_name ->
    group (fst st') day l = with_average <$> group dm day l.
Proof.
  intros data dm loc st' day l Ha Hl.
  apply aggregate_metrics_ok in Ha as (batches & dm' & _ & Hf & ->).
  rewrite group_finalize.
  apply (for_records_other_location _ _ _ _ day l Hl) in Hf. simpl in Hf.
  rewrite Hf. reflexivity.
Qed.

Lemma other_locations_are_untouched_witness :
  let g := new_metrics 3 (mk_datetime 2024 1 1 7 0 0) (timedelta_hours 1) in
  match aggregate_metrics (Some [mk_records [reading_2h; reading_6h]])
          [("2024-01-01", [("Store B", g)])] "Store A" with
  | Ok st' => group (fst st') "2024-01-01" "Store B" = Some (with_average g)
  | Raise _ => False
  end.
Proof.
  intros g.
  destruct (aggregate_metrics (Some [mk_records [reading_2h; reading_6h]])
              [("2024-01-01", [("Store B", g)])] "Store A") as [st'|e] eqn:Ha.
  - exact (other_locations_are_untouched _ _ _ _ "2024-01-01" "Store B" Ha
             ltac:(discriminate)).
  - vm_compute in Ha. discriminate.
Defined.

(** ** Sums and counts *)

Lemma Zsum_app (l1 l2 : list Z) : Zsum (l1 ++ l2) = Zsum l1 + Zsum l2.
Proof. unfold Zsum. induction l1 as [|x l1 IH]; simpl; [reflexivity|]. rewrite IH. lia. Qed.

Lemma omap_cons_day_reading (day : string) (r : Reading) (rs : list Reading) :
  omap (day_reading day) (r :: rs)
  = match day_reading day r with
    | Some x => x :: omap (day_reading day) rs
    | None => omap (day_reading day) rs
    end.
Proof. reflexivity. Qed.

Lemma day_readings_cons (day : string) (records : Records) (data : list Records) :
  day_readings day (records :: data)
  = (omap (day_reading day) (readings records) ++ day_readings day data)%list.
Proof. unfold day_readings. simpl. apply omap_app. Qed.

Section Field.
Variable field : Metrics -> Z.
Variable delta : timedelta -> Z.
Hypothesis field_new : forall n i h, field (new_metrics n i h) = delta h.
Hypothesis field_update :
  forall n i h g m, update_metrics n i h g = Ok m -> field m = field g + delta h.
Hypothesis field_average : forall g, field (with_average g) = field g.

Lemma process_reading_group_field (location_name : string) (batch_trays : Z)
    (reading : Reading) (st st' : state) (day : string) :
  process_reading location_name batch_trays reading st = Ok st' ->
  group_field field (fst st') day location_name
  = group_field field (fst st) day location_name
    + from_option (fun x => delta (snd x)) 0 (day_reading day reading).
Proof.
  intros H. unfold group_field.
  apply process_reading_cases in H as [[Hp ->]|(i & c & m & Hp & -> & Hm)].
  - rewrite (day_reading_skipped _ _ Hp). simpl. lia.
  - rewrite (day_reading_parsed _ _ _ _ Hp). cbn [fst snd].
    destruct (String.eqb_spec (strftime_Ymd i) day) as [<-|Hne]; cbn [from_option snd].
    + rewrite group_put_group_eq. cbn [from_option].
      destruct (group st.1 (strftime_Ymd i) location_name) as [g|]; cbn [from_option].
      * eapply field_update, Hm.
      * subst m. rewrite field_new. lia.
    + rewrite group_put_group_ne by congruence. lia.
Qed.

Lemma for_readings_group_field (location_name : string) (batch_trays : Z)
    (rs : list Reading) (st st' : state) (day : string) :
  for_readings location_name batch_trays rs st = Ok st' ->
  group_field field (fst st') day location_name
  = group_field field (fst st) day location_name
    + Zsum (map (fun x => delta (snd x)) (omap (day_reading day) rs)).
Proof.
  revert st. induction rs as [|r rs IH]; intros st H; simpl in H.
  - injection H as <-. unfold Zsum. simpl. lia.
  - destruct (process_reading location_name batch_trays r st) as [st1|] eqn:Hr;
      simpl in H; [|discriminate].
    apply IH in H. rewrite H.
    rewrite (process_reading_group_field _ _ _ _ _ day Hr).
    rewrite omap_cons_day_reading.
    destruct (day_reading day r); unfold Zsum; simpl; lia.
Qed.

Lemma for_records_group_field (location_name : string) (data : list Records)
    (st st' : state) (day : string) :
  for_records location_name data st = Ok st' ->
  group_field field (fst st') day location_name
  = group_field field (fst st) day location_name
    + Zsum (map (fun x => delta (snd x)) (day_readings day data)).
Proof.
  revert st. induction data as [|records data IH]; intros st H; simpl in H.
  - injection H as <-. unfold day_readings, Zsum. simpl. lia.
  - destruct (process_records location_name records st) as [st1|] eqn:Hr;
      simpl in H; [|discriminate].
    apply IH in H. rewrite H.
    unfold process_records in Hr.
    rewrite (for_readings_group_field _ _ _ _ _ day Hr).
    rewrite day_readings_cons, map_app, Zsum_app. lia.
Qed.

Lemma aggregate_metrics_group_field (data : list Records) (dm : DailyMetrics)
    (location_name : string) (st' : state) (day : string) :
  aggregate_metrics (Some data) dm location_name = Ok st' ->
  group_field field (fst st') day location_name
  = group_field field dm day location_name
    + Zsum (map (fun x => delta (snd x)) (day_readings day data)).
Proof.
  intros Ha. apply aggregate_metrics_ok in Ha as (batches & dm' & [= <-] & Hf & ->).
  apply for_records_group_field with (day := day) in Hf. cbn [fst] in Hf.
  rewrite <- Hf. unfold group_field. rewrite group_finalize.
  destruct (group dm' day location_name); simpl; [apply field_average|reflexivity].
Qed.
End Field.

Lemma Zsum_indicator {A : Type} (p : A -> bool) (l : list A) :
  Zsum (map (fun x => if p x then 1 else 0) l) = Z.of_nat (length (List.filter p l)).
Proof.
  unfold Zsum. induction l as [|x l IH]; [reflexivity|]. simpl.
  rewrite IH. destruct (p x); simpl; lia.
Qed.

(** After a call, the [total_hold_time] of a group is what it was before
    (0 for a new group) plus the sum of the hold times of the readings of
    the call that parse and fall on the group's day. *)
Theorem total_hold_time_is_the_sum :
  forall data dm location_name st' day,
    aggregate_metrics (Some data) dm location_name = Ok st' ->
    group_field total_hold_time (fst st') day location_name
    = group_field total_hold_time dm day location_name
      + Zsum (map snd (day_readings day data)).
Proof.
  intros data dm loc st' day Ha.
  apply (aggregate_metrics_group_field total_hold_time (fun h => h)) with (day := day)
    in Ha; [exact Ha|reflexivity| |reflexivity].
  intros n i h g m Hu. apply update_metrics_ok in Hu as (_ & _ & _ & Ht & _). exact Ht.
Qed.

Lemma total_hold_time_is_the_sum_witness :
  match aggregate_metrics (Some [mk_records [reading_2h; reading_no_current; reading_6h]])
          [] "Store A" with
  | Ok st' =>
      group_field total_hold_time (fst st') "2024-01-01" "Store A"
      = timedelta_hours 2 + timedelta_hours 6
  | Raise _ => False
  end.
Proof.
  destruct (aggregate_metrics
              (Some [mk_records [reading_2h; reading_no_current; reading_6h]])
              [] "Store A") as [st'|e] eqn:Ha.
  - apply (total_hold_time_is_the_sum _ _ _ _ "2024-01-01") in Ha.
    rewrite Ha. vm_compute. reflexivity.
  - vm_compute in Ha. discriminate.
Defined.

(** After a call, the [trays_exceeding_hold_time] of a group is what it was
    before (0 for a new group) plus the number of readings of the call that
    parse, fall on the group's day and were held longer than 4 hours. *)
Theorem trays_exceeding_is_the_count :
  forall data dm location_name st' day,
    aggregate_metrics (Some data) dm location_name = Ok st' ->
    group_field trays_exceeding_hold_time (fst st') day location_name
    = group_field trays_exceeding_hold_time dm day location_name
      + Z.of_nat (length (List.filter (fun x => hold_limit <? snd x)
                            (day_readings day data))).
Proof.
  intros data dm loc st' day Ha.
  rewrite <- Zsum_indicator.
  apply (aggregate_metrics_group_field trays_exceeding_hold_time
           (fun h => if hold_limit <? h then 1 else 0)) with (day := day) in Ha;
    [exact Ha|reflexivity| |reflexivity].
  intros n i h g m Hu. apply update_metrics_ok in Hu as (_ & _ & _ & _ & He & _).
  exact He.
Qed.

Lemma trays_exceeding_is_the_count_witness :
  match aggregate_metrics (Some [mk_records [reading_2h; reading_5h; reading_6h]])
          [] "Store A" with
  | Ok st' =>
      group_field trays_exceeding_hold_time (fst st') "2024-01-01" "Store A" = 2
  | Raise _ => False
  end.
Proof.
  destruct (aggregate_metrics (Some [mk_records [reading_2h; reading_5h; reading_6h]])
              [] "Store A") as [st'|e] eqn:Ha.
  - apply (trays_exceeding_is_the_count _ _ _ _ "2024-01-01") in Ha.
    rewrite Ha. vm_compute. reflexivity.
  - vm_compute in Ha. discriminate.
Defined.

(** ** Which groups exist *)

Lemma process_reading_group_none (location_name : string) (batch_trays : Z)
    (reading : Reading) (st st' : state) (day : string) :
  process_reading location_name batch_trays reading st = Ok st' ->
  (group (fst st') day location_name = None
   <-> group (fst st) day location_name = None /\ day_reading day reading = None).
Proof.
  intros H.
  apply process_reading_cases in H as [[Hp ->]|(i & c & m & Hp & -> & Hm)].
  - rewrite (day_reading_skipped _ _ Hp). simpl. tauto.
  - rewrite (day_reading_parsed _ _ _ _ Hp). cbn [fst].
    destruct (String.eqb_spec (strftime_Ymd i) day) as [<-|Hne].
    + rewrite group_put_group_eq. split; [discriminate|intros [_ [=]]].
    + rewrite group_put_group_ne by congruence. tauto.
Qed.

Lemma for_readings_group_none (location_name : string) (batch_trays : Z)
    (rs : list Reading) (st st' : state) (day : string) :
  for_readings location_name batch_trays rs st = Ok st' ->
  (group (fst st') day location_name = None
   <-> group (fst st) day location_name = None /\ omap (day_reading day) rs = []).
Proof.
  revert st. induction rs as [|r rs IH]; intros st H; simpl in H.
  - injection H as <-. simpl. tauto.
  - destruct (process_reading location_name batch_trays r st) as [st1|] eqn:Hr;
      simpl in H; [|discriminate].
    rewrite (IH _ H), (process_reading_group_none _ _ _ _ _ day Hr).
    rewrite omap_cons_day_reading.
    destruct (day_reading day r) as [x|]; [|tauto].
    split; intros Hx.
    + destruct Hx as [[_ Hx] _]. discriminate.
    + destruct Hx as [_ Hx]. discriminate.
Qed.

Lemma for_records_group_none (location_name : string) (data : list Records)
    (st st' : state) (day : string) :
  for_records location_name data st = Ok st' ->
  (group (fst st') day location_name = None
   <-> group (fst st) day location_name = None /\ day_readings day data = []).
Proof.
  revert st. induction data as [|records data IH]; intros st H; simpl in H.
  - injection H as <-. unfold day_readings. simpl. tauto.
  - destruct (process_records location_name records st) as [st1|] eqn:Hr;
      simpl in H; [|discriminate].
    unfold process_records in Hr.
    rewrite (IH _ H), (for_readings_group_none _ _ _ _ _ day Hr), day_readings_cons.
    split.
    + intros [[Hg Hr0] Hd]. rewrite Hr0, Hd. auto.
    + intros [Hg Happ]. apply app_eq_nil in Happ as [-> ->]. auto.
Qed.

(** A call keeps every group and creates one exactly for the days on which
    a reading of the call that parses falls: afterwards a day has no group
    of the location exactly when it had none and no such reading fell on
    it. *)
Theorem groups_after_a_call :
  forall data dm location_name st' day,
    aggregate_metrics (Some data) dm location_name = Ok st' ->
    (group (fst st') day location_name = None
     <-> group dm day location_name = None /\ day_readings day data = []).
Proof.
  intros data dm loc st' day Ha.
  apply aggregate_metrics_ok in Ha as (batches & dm' & [= <-] & Hf & ->).
  apply for_records_group_none with (day := day) in Hf. cbn [fst] in Hf.
  rewrite <- Hf, group_finalize.
  destruct (group dm' day loc); simpl; split; intros H; first [discriminate|reflexivity].
Qed.

Lemma groups_after_a_call_witness :
  match aggregate_metrics (Some [mk_records [reading_2h; reading_no_current]])
          [] "Store A" with
  | Ok st' =>
      (group (fst st') "2024-01-02" "Store A" = None
       <-> @group [] "2024-01-02" "Store A" = None
           /\ day_readings "2024-01-02" [mk_records [reading_2h; reading_no_current]]
              = [])
  | Raise _ => False
  end.
Proof.
  destruct (aggregate_metrics (Some [mk_records [reading_2h; reading_no_current]])
              [] "Store A") as [st'|e] eqn:Ha.
  - exact (groups_after_a_call _ _ _ _ "2024-01-02" Ha).
  - vm_compute in Ha. discriminate.
Defined.

(** ** What is printed *)

Lemma for_readings_printed (location_name : string) (batch_trays : Z)
    (rs : list Reading) (st st' : state) :
  for_readings location_name batch_trays rs st = Ok st' ->
  snd st' = (snd st ++ map PrintKeyError (List.filter is_skipped rs))%list.
Proof.
  revert st. induction rs as [|r rs IH]; intros st H; simpl in H.
  - injection H as <-. simpl. rewrite app_nil_r. reflexivity.
  - destruct (process_reading location_name batch_trays r st) as [st1|] eqn:Hr;
      simpl in H; [|discriminate].
    rewrite (IH _ H). simpl. unfold is_skipped at 2.
    apply process_reading_cases in Hr as [[Hp ->]|(i & c & m & Hp & -> & _)];
      rewrite Hp; simpl; [rewrite <- app_assoc|]; reflexivity.
Qed.

Lemma for_records_printed (location_name : string) (data : list Records)
    (st st' : state) :
  for_records location_name data st = Ok st' ->
  snd st'
  = (snd st ++ map PrintKeyError (List.filter is_skipped (flat_map readings data)))%list.
Proof.
  revert st. induction data as [|records data IH]; intros st H; simpl in H.
  - injection H as <-. simpl. rewrite app_nil_r. reflexivity.
  - destruct (process_records location_name records st) as [st1|] eqn:Hr;
      simpl in H; [|discriminate].
    unfold process_records in Hr.
    rewrite (IH _ H), (for_readings_printed _ _ _ _ _ Hr). simpl.
    rewrite List.filter_app, map_app, app_assoc. reflexivity.
Qed.

(** A call that returns has printed exactly the readings it skipped, once
    each and in the order of the data: those that lack [initial_timestamp]
    or, with an [initial_timestamp] that parses, lack [current_timestamp]. *)
Theorem skipped_readings_are_printed :
  forall data dm location_name st',
    aggregate_metrics (Some data) dm location_name = Ok st' ->
    snd st' = map PrintKeyError (List.filter is_skipped (flat_map readings data)).
Proof.
  intros data dm loc st' Ha.
  apply aggregate_metrics_ok in Ha as (batches & dm' & [= <-] & Hf & _).
  apply for_records_printed in Hf. exact Hf.
Qed.

Lemma skipped_readings_are_printed_witness :
  match aggregate_metrics
          (Some [mk_records [reading_no_current; reading_2h];
                 mk_records [reading_6h; reading_no_current]]) [] "Store A" with
  | Ok st' => snd st' = [PrintKeyError reading_no_current; PrintKeyError reading_no_current]
  | Raise _ => False
  end.
Proof.
  destruct (aggregate_metrics
              (Some [mk_records [reading_no_current; reading_2h];
                     mk_records [reading_6h; reading_no_current]]) [] "Store A")
    as [st'|e] eqn:Ha.
  - rewrite (skipped_readings_are_printed _ _ _ _ Ha). vm_compute. reflexivity.
  - vm_compute in Ha. discriminate.
Defined.

(** ** What a run can raise *)






(** ** Invariants of the groups *)

Section GroupInvariant.
Variable P : Metrics -> Prop.
Hypothesis P_new : forall n i h, 1 <= n -> P (new_metrics n i h).
Hypothesis P_update :
  forall n i h g m, 1 <= n -> P g -> update_metrics n i h g = Ok m -> P m.
Hypothesis P_average : forall g, P g -> P (with_average g).

Lemma aggregate_metrics_all_groups (data : option (list Records)) (dm : DailyMetrics)
    (location_name : string) (st' : state) :
  all_groups P dm ->
  aggregate_metrics data dm location_name = Ok st' ->
  all_groups P (fst st').
Proof.
  intros Hall Ha. apply aggregate_metrics_ok in Ha as (batches & dm' & _ & Hf & ->).
  apply (for_records_all_groups P) in Hf; [|exact P_new|exact P_update|exact Hall].
  intros day l g Hin. apply In_groups_finalize in Hin as (g0 & Hin & ->).
  apply P_average. eapply Hf, Hin.
Qed.

Lemma main_all_groups (locs : list location) (st' : state) :
  main locs = Ok st' -> all_groups P (fst st').
Proof.
  unfold main. apply (main_loop_invariant (all_groups P)).
  - intros data dm l s Hall. apply aggregate_metrics_all_groups, Hall.
  - intros day l g [].
Qed.
End GroupInvariant.

(** In every table a call returns from a table that has the property, and
    so in every table [main] builds, [last_tray_count] equals
    [total_trays]: both are the largest tray count of a batch that reached
    the group. *)
Theorem last_tray_count_is_total_trays :
  (forall data dm location_name st',
     all_groups (fun g => last_tray_count g = total_trays g) dm ->
     aggregate_metrics data dm location_name = Ok st' ->
     all_groups (fun g => last_tray_count g = total_trays g) (fst st'))
  /\ (forall locs st',
        main locs = Ok st' ->
        all_groups (fun g => last_tray_count g = total_trays g) (fst st')).
Proof.
  assert (Hnew : forall n i h, 1 <= n ->
            last_tray_count (new_metrics n i h) = total_trays (new_metrics n i h))
    by reflexivity.
  assert (Hupd : forall n i h g m, 1 <= n ->
            last_tray_count g = total_trays g ->
            update_metrics n i h g = Ok m -> last_tray_count m = total_trays m).
  { intros n i h g m _ Hg Hu. apply update_metrics_ok in Hu as (_ & Hl & Ht & _).
    rewrite Ht.
    destruct ((last_tray_count g <? n)
              || ((n =? last_tray_count g) && datetime_gtb i (last_tray_time g)))
      eqn:Hc; injection Hl as _ ->.
    - apply orb_true_iff in Hc as [Hc|Hc].
      + apply Z.ltb_lt in Hc. lia.
      + apply andb_true_iff in Hc as [Hc _]. apply Z.eqb_eq in Hc. lia.
    - apply orb_false_iff in Hc as [Hc _]. apply Z.ltb_ge in Hc. lia. }
  split.
  - intros data dm l st'. apply aggregate_metrics_all_groups; auto.
  - intros locs st'. apply main_all_groups; auto.
Qed.

Lemma last_tray_count_is_total_trays_witness :
  match main [mk_location "loc-1" (Response tray_count_batches) "Store A"] with
  | Ok st' => all_groups (fun g => last_tray_count g = total_trays g) (fst st')
  | Raise _ => False
  end.
Proof.
  destruct (main [mk_location "loc-1" (Response tray_count_batches) "Store A"])
    as [st'|e] eqn:Hm.
  - exact (proj2 last_tray_count_is_total_trays _ _ Hm).
  - vm_compute in Hm. discriminate.
Defined.

(** In every table [main] builds (and after a call on a table that has the
    property), the [first_tray_time] of a group is not later than its
    [last_tray_time]. *)
Theorem first_tray_not_after_last_tray :
  (forall data dm location_name st',
     all_groups (fun g => datetime_le (first_tray_time g) (last_tray_time g)) dm ->
     aggregate_metrics data dm location_name = Ok st' ->
     all_groups (fun g => datetime_le (first_tray_time g) (last_tray_time g)) (fst st'))
  /\ (forall locs st',
        main locs = Ok st' ->
        all_groups (fun g => datetime_le (first_tray_time g) (last_tray_time g))
          (fst st')).
Proof.
  assert (Hnew : forall n i h, 1 <= n ->
            datetime_le (first_tray_time (new_metrics n i h))
              (last_tray_time (new_metrics n i h)))
    by (intros; apply datetime_le_refl).
  assert (Hupd : forall n i h g m, 1 <= n ->
            datetime_le (first_tray_time g) (last_tray_time g) ->
            update_metrics n i h g = Ok m ->
            datetime_le (first_tray_time m) (last_tray_time m)).
  { intros n i h g m _ Hg Hu. apply update_metrics_ok in Hu as (Hf & Hl & _).
    rewrite Hf.
    destruct ((last_tray_count g <? n)
              || ((n =? last_tray_count g) && datetime_gtb i (last_tray_time g)));
      injection Hl as -> _.
    - apply datetime_min_le_r.
    - eapply datetime_le_trans; [apply datetime_min_le_l|exact Hg]. }
  split.
  - intros data dm l st'. apply aggregate_metrics_all_groups; auto.
  - intros locs st'. apply main_all_groups; auto.
Qed.

Lemma first_tray_not_after_last_tray_witness :
  match main [mk_location "loc-1" (Response last_tray_batches) "Store A"] with
  | Ok st' =>
      all_groups (fun g => datetime_le (first_tray_time g) (last_tray_time g)) (fst st')
  | Raise _ => False
  end.
Proof.
  destruct (main [mk_location "loc-1" (Response last_tray_batches) "Store A"])
    as [st'|e] eqn:Hm.
  - exact (proj2 first_tray_not_after_last_tray _ _ Hm).
  - vm_compute in Hm. discriminate.
Defined.

(** In every table [main] builds (and after a call on a table that has the
    property), a group's percentage is the initial [0], with at most one
    exceeding reading counted, or the quotient of the current
    [trays_exceeding_hold_time] by a tray total the group had, between 1
    and its current [total_trays]: the numerator is never out of date, the
    denominator can be. *)
Theorem percentage_numerator_is_current :
  (forall data dm location_name st',
     all_groups percentage_is_current dm ->
     aggregate_metrics data dm location_name = Ok st' ->
     all_groups percentage_is_current (fst st'))
  /\ (forall locs st', main locs = Ok st' -> all_groups percentage_is_current (fst st')).
Proof.
  assert (Hnew : forall n i h, 1 <= n -> percentage_is_current (new_metrics n i h)).
  { intros n i h _. unfold percentage_is_current. simpl.
    destruct (hold_limit <? h); split; try lia; left; split; auto; lia. }
  assert (Hupd : forall n i h g m, 1 <= n -> percentage_is_current g ->
            update_metrics n i h g = Ok m -> percentage_is_current m).
  { intros n i h g m Hn [Hge Hg] Hu.
    apply update_metrics_ok in Hu as (_ & _ & Ht & _ & He & Hp & _).
    unfold percentage_is_current. rewrite He, Hp, Ht.
    destruct (hold_limit <? h).
    - split; [lia|]. right. exists (Z.max n (total_trays g)).
      split; [reflexivity|lia].
    - rewrite Z.add_0_r. split; [exact Hge|].
      destruct Hg as [Hg|(t & Hg & Ht1)]; [left; exact Hg|].
      right. exists t. split; [exact Hg|lia]. }
  split.
  - intros data dm l st'. apply aggregate_metrics_all_groups; auto.
  - intros locs st'. apply main_all_groups; auto.
Qed.

Lemma percentage_numerator_is_current_witness :
  match main [mk_location "loc-1"
                (Response [mk_records [reading_5h]; mk_records [reading_6h; reading_2h]])
                "Store A"] with
  | Ok st' => all_groups percentage_is_current (fst st')
  | Raise _ => False
  end.
Proof.
  destruct (main [mk_location "loc-1"
                    (Response [mk_records [reading_5h];
                               mk_records [reading_6h; reading_2h]]) "Store A"])
    as [st'|e] eqn:Hm.
  - exact (proj2 percentage_numerator_is_current _ _ Hm).
  - vm_compute in Hm. discriminate.
Defined.

(** ** The tables are dictionaries *)

Lemma keys_dict_set {V : Type} (k : string) (v : V) (d : dict V) :
  keys (dict_set k v d) = if dict_mem k d then keys d else (keys d ++ [k])%list.
Proof.
  unfold dict_mem. induction d as [|[k' v'] d IH]; [reflexivity|]. simpl.
  destruct (String.eqb_spec k k') as [->|Hne]; simpl; [reflexivity|].
  rewrite IH. destruct (dict_get k d); reflexivity.
Qed.

Lemma dict_mem_In {V : Type} (k : string) (d : dict V) :
  dict_mem k d = false -> ~ In k (keys d).
Proof.
  unfold dict_mem. induction d as [|[k' v'] d IH]; simpl; [tauto|].
  destruct (String.eqb_spec k k') as [->|Hne]; [discriminate|].
  intros H [Hk|Hk]; [congruence|]. apply (IH H Hk).
Qed.

Lemma NoDup_keys_dict_set {V : Type} (k : string) (v : V) (d : dict V) :
  List.NoDup (keys d) -> List.NoDup (keys (dict_set k v d)).
Proof.
  intros Hnd. rewrite keys_dict_set. destruct (dict_mem k d) eqn:Hm; [exact Hnd|].
  apply NoDup_app_remove_l with (l := []). simpl.
  eapply Permutation_NoDup; [apply Permutation_cons_append|].
  constructor; [apply dict_mem_In, Hm|exact Hnd].
Qed.

Lemma In_dict_set_NoDup {V : Type} (k : string) (v : V) (d : dict V) (x : string * V) :
  List.NoDup (keys d) ->
  In x (dict_set k v d) -> x = (k, v) \/ (In x d /\ fst x <> k).
Proof.
  induction d as [|[k' v'] d IH]; simpl; intros Hnd.
  - intros [<-|[]]. auto.
  - apply List.NoDup_cons_iff in Hnd as [Hk' Hnd].
    destruct (String.eqb_spec k k') as [->|Hne]; simpl.
    + intros [<-|H]; [auto|]. right. split; [auto|].
      intros <-. apply Hk'. apply (in_map fst) in H. exact H.
    + intros [<-|H]; [right; split; [auto|simpl; congruence]|].
      destruct (IH Hnd H) as [->|[Hin Hx]]; auto.
Qed.

Lemma put_group_distinct_keys (dm : DailyMetrics) (day location_name : string)
    (m : Metrics) :
  distinct_keys dm /\ no_empty_day dm ->
  distinct_keys (put_group dm day location_name m)
  /\ no_empty_day (put_group dm day location_name m).
Proof.
  intros [[Hnd Hin] Hne]. unfold put_group.
  set (dm' := if dict_mem day dm then dm else dict_set day [] dm).
  assert (Hnd' : List.NoDup (keys dm'))
    by (subst dm'; destruct (dict_mem day dm); [exact Hnd|apply NoDup_keys_dict_set, Hnd]).
  assert (Hdm' : forall y, In y dm' -> y = (day, []) \/ In y dm).
  { subst dm'. destruct (dict_mem day dm); [auto|].
    intros y Hy. apply In_dict_set in Hy. exact Hy. }
  assert (Hst : List.NoDup (keys (default [] (dict_get day dm')))).
  { destruct (dict_get day dm') as [stores|] eqn:E; simpl; [|constructor].
    apply dict_get_In, Hdm' in E as [[= ->]|E]; [constructor|apply (Hin _ _ E)]. }
  split; [split|].
  - apply NoDup_keys_dict_set, Hnd'.
  - intros d stores Hs. apply In_dict_set_NoDup in Hs; [|exact Hnd'].
    destruct Hs as [[= -> ->]|[Hs _]].
    + apply NoDup_keys_dict_set, Hst.
    + apply Hdm' in Hs as [[= -> ->]|Hs]; [constructor|apply (Hin _ _ Hs)].
  - intros d stores Hs. apply In_dict_set_NoDup in Hs; [|exact Hnd'].
    destruct Hs as [[= -> ->]|[Hs Hd]].
    + destruct (default [] (dict_get day dm')) as [|[k v] l]; simpl;
        [discriminate|].
      destruct (String.eqb location_name k); discriminate.
    + apply Hdm' in Hs as [[= -> ->]|Hs]; [simpl in Hd; congruence|apply (Hne _ _ Hs)].
Qed.

Lemma finalize_distinct_keys (dm : DailyMetrics) :
  distinct_keys dm /\ no_empty_day dm ->
  distinct_keys (finalize dm) /\ no_empty_day (finalize dm).
Proof.
  intros [[Hnd Hin] Hne]. rewrite finalize_sorted_items.
  assert (Hfd : forall d stores,
            In (d, stores) (sorted_items (map final_day dm)) ->
            exists s0, In (d, s0) dm
                       /\ Permutation stores (map (fun '(l, m) => (l, with_average m)) s0)).
  { intros d stores Hs.
    apply (Permutation_in _ (sorted_items_Permutation _)) in Hs.
    apply in_map_iff in Hs as ([d0 s0] & [= -> <-] & Hs).
    exists s0. split; [exact Hs|apply sorted_items_Permutation]. }
  split; [split|].
  - eapply Permutation_NoDup; [|exact Hnd].
    rewrite <- (keys_final_day dm).
    apply Permutation_map, Permutation_sym, sorted_items_Permutation.
  - intros d stores Hs. apply Hfd in Hs as (s0 & Hs0 & Hp).
    eapply Permutation_NoDup; [apply Permutation_map, Permutation_sym, Hp|].
    rewrite map_map. erewrite map_ext; [apply (Hin _ _ Hs0)|].
    intros [l m]. reflexivity.
  - intros d stores Hs. apply Hfd in Hs as (s0 & Hs0 & Hp).
    intros ->. apply Permutation_nil in Hp.
    apply (Hne _ _ Hs0). destruct s0; [reflexivity|discriminate].
Qed.

Lemma aggregate_metrics_distinct_keys (data : option (list Records))
    (dm : DailyMetrics) (location_name : string) (st' : state) :
  distinct_keys dm /\ no_empty_day dm ->
  aggregate_metrics data dm location_name = Ok st' ->
  distinct_keys (fst st') /\ no_empty_day (fst st').
Proof.
  intros Hwf Ha. apply aggregate_metrics_ok in Ha as (batches & dm' & _ & Hf & ->).
  apply finalize_distinct_keys.
  revert Hf.
  apply (for_records_invariant
           (fun s => distinct_keys (fst s) /\ no_empty_day (fst s))); [|exact Hwf].
  intros records s s' _.
  apply (for_readings_invariant
           (fun s => distinct_keys (fst s) /\ no_empty_day (fst s))).
  intros r s1 s1' _ Hs1 Hr.
  apply process_reading_cases in Hr as [[_ ->]|(i & c & m & _ & -> & _)];
    [exact Hs1|].
  apply put_group_distinct_keys, Hs1.
Qed.

(** The association lists of the model are dictionaries: in every table
    [main] builds (and after a call on such a table) the days are distinct,
    the location names of each day are distinct and no day is without a
    store, so the order of the result is strict. *)
Theorem tables_have_distinct_keys :
  (forall data dm location_name st',
     distinct_keys dm /\ no_empty_day dm ->
     aggregate_metrics data dm location_name = Ok st' ->
     distinct_keys (fst st') /\ no_empty_day (fst st'))
  /\ (forall locs st',
        main locs = Ok st' -> distinct_keys (fst st') /\ no_empty_day (fst st')).
Proof.
  split; [exact aggregate_metrics_distinct_keys|].
  intros locs st'. unfold main.
  apply (main_loop_invariant (fun dm => distinct_keys dm /\ no_empty_day dm)).
  - intros data dm l s. apply aggregate_metrics_distinct_keys.
  - split; [split; [constructor|intros d s []]|intros d s []].
Qed.

Lemma tables_have_distinct_keys_witness :
  match main [mk_location "loc-1" (Response tray_count_batches) "Store B";
              mk_location "loc-2" (Response last_tray_batches) "Store A"] with
  | Ok st' => distinct_keys (fst st') /\ no_empty_day (fst st')
  | Raise _ => False
  end.
Proof.
  destruct (main [mk_location "loc-1" (Response tray_count_batches) "Store B";
                  mk_location "loc-2" (Response last_tray_batches) "Store A"])
    as [st'|e] eqn:Hm.
  - exact (proj2 tables_have_distinct_keys _ _ Hm).
  - vm_compute in Hm. discriminate.
Defined.

(** ** Earliest tray and largest batch *)

Lemma datetime_min_cases (a b : datetime) : datetime_min a b = a \/ datetime_min a b = b.
Proof. unfold datetime_min. destruct (datetime_ltb b a); auto. Qed.

(** Right after a reading that goes to the group of [day], the group is not
    later than the reading and not smaller than its batch. *)
Lemma process_reading_bounds (location_name : string) (batch_trays : Z)
    (reading : Reading) (st st' : state) (day : string) (i : datetime) (h : timedelta) :
  process_reading location_name batch_trays reading st = Ok st' ->
  day_reading day reading = Some (i, h) ->
  exists g,
    group (fst st') day location_name = Some g
    /\ datetime_le (first_tray_time g) i
    /\ batch_trays <= total_trays g.
Proof.
  intros H Hd.
  apply process_reading_cases in H as [[Hp ->]|(i0 & c & m & Hp & -> & Hm)].
  - rewrite (day_reading_skipped _ _ Hp) in Hd. discriminate.
  - rewrite (day_reading_parsed _ _ _ _ Hp) in Hd.
    destruct (String.eqb_spec (strftime_Ymd i0) day) as [<-|]; [|discriminate].
    injection Hd as <- <-. exists m. split; [apply group_put_group_eq|].
    destruct (group st.1 (strftime_Ymd i0) location_name) as [g|].
    + apply update_metrics_ok in Hm as (Hf & _ & Ht & _). rewrite Hf, Ht.
      split; [apply datetime_min_le_r|lia].
    + subst m. simpl. split; [apply datetime_le_refl|lia].
Qed.

Lemma for_readings_bounds (location_name : string) (batch_trays : Z)
    (rs : list Reading) (st st' : state) (day : string) (r : Reading)
    (i : datetime) (h : timedelta) :
  for_readings location_name batch_trays rs st = Ok st' ->
  In r rs -> day_reading day r = Some (i, h) ->
  exists g,
    group (fst st') day location_name = Some g
    /\ datetime_le (first_tray_time g) i
    /\ batch_trays <= total_trays g.
Proof.
  revert st. induction rs as [|r0 rs IH]; intros st H Hin Hd; [destruct Hin|].
  simpl in H.
  destruct (process_reading location_name batch_trays r0 st) as [st1|] eqn:Hr;
    simpl in H; [|discriminate].
  destruct Hin as [->|Hin]; [|eapply IH; eassumption].
  destruct (process_reading_bounds _ _ _ _ _ _ _ _ Hr Hd) as (g1 & Hg1 & Hf1 & Ht1).
  apply for_readings_grows in H. destruct (H _ _ _ Hg1) as (g & Hg & Ht & _ & Hf).
  exists g. split; [exact Hg|]. split; [|lia].
  eapply datetime_le_trans; eassumption.
Qed.

Lemma for_records_bounds (location_name : string) (data : list Records)
    (st st' : state) (day : string) (records : Records) (r : Reading)
    (i : datetime) (h : timedelta) :
  for_records location_name data st = Ok st' ->
  In records data -> In r (readings records) -> day_reading day r = Some (i, h) ->
  exists g,
    group (fst st') day location_name = Some g
    /\ datetime_le (first_tray_time g) i
    /\ Z.of_nat (length (readings records)) <= total_trays g.
Proof.
  revert st. induction data as [|r0 data IH]; intros st H Hin Hr Hd; [destruct Hin|].
  simpl in H.
  destruct (process_records location_name r0 st) as [st1|] eqn:Hp;
    simpl in H; [|discriminate].
  destruct Hin as [->|Hin]; [|eapply IH; eassumption].
  unfold process_records in Hp.
  destruct (for_readings_bounds _ _ _ _ _ _ _ _ _ Hp Hr Hd) as (g1 & Hg1 & Hf1 & Ht1).
  apply for_records_grows in H. destruct (H _ _ _ Hg1) as (g & Hg & Ht & _ & Hf).
  exists g. split; [exact Hg|]. split; [|lia].
  eapply datetime_le_trans; eassumption.
Qed.

Lemma for_records_attained (A : Type) (field : Metrics -> A)
    (of_reading : Records -> datetime -> A) (location_name : string)
    (data : list Records) (dm : DailyMetrics) (st' : state) (day : string) :
  (forall records i h,
     field (new_metrics (Z.of_nat (length (readings records))) i h)
     = of_reading records i) ->
  (forall records i h g m,
     update_metrics (Z.of_nat (length (readings records))) i h g = Ok m ->
     field m = field g \/ field m = of_reading records i) ->
  for_records location_name data (dm, []) = Ok st' ->
  forall g',
    group (fst st') day location_name = Some g' ->
    from_before_or_reading A field of_reading dm data day location_name g'.
Proof.
  intros Hnew Hupd.
  apply (for_records_invariant
           (fun s => forall g',
              group (fst s) day location_name = Some g' ->
              from_before_or_reading A field of_reading dm data day location_name g')).
  - intros records s s' Hrec.
    apply (for_readings_invariant
             (fun s => forall g',
                group (fst s) day location_name = Some g' ->
                from_before_or_reading A field of_reading dm data day
                  location_name g')).
    intros r s1 s1' Hin Hs1 Hr g' Hg'.
    apply process_reading_cases in Hr as [[_ ->]|(i & c & m & Hp & -> & Hm)];
      [apply Hs1, Hg'|].
    cbn [fst] in Hg'.
    destruct (String.eqb_spec (strftime_Ymd i) day) as [<-|Hne].
    + rewrite group_put_group_eq in Hg'. injection Hg' as <-.
      assert (Hd : day_reading (strftime_Ymd i) r = Some (i, datetime_sub c i))
        by (rewrite (day_reading_parsed _ _ _ _ Hp), String.eqb_refl; reflexivity).
      destruct (group s1.1 (strftime_Ymd i) location_name) as [g|] eqn:Hg.
      * destruct (Hupd _ _ _ _ _ Hm) as [Hsame|Hnow].
        -- destruct (Hs1 g eq_refl) as [(g0 & Hg0 & Hf)|(r1 & r2 & i1 & h1 & H1 & H2 & H3 & H4)].
           ++ left. exists g0. split; [exact Hg0|congruence].
           ++ right. exists r1, r2, i1, h1. repeat split; try assumption. congruence.
        -- right. exists records, r, i, (datetime_sub c i). auto.
      * subst m. right. exists records, r, i, (datetime_sub c i).
        repeat split; try assumption. apply Hnew.
    + rewrite group_put_group_ne in Hg' by congruence. apply Hs1, Hg'.
  - intros g' Hg'. left. exists g'. auto.
Qed.

(** After a call, the [first_tray_time] of a group is the earliest
    [initial_timestamp] it has seen: it is not later than any reading of
    the call that went to the group nor than its value before the call, and
    it is one of these. *)
Theorem first_tray_time_is_the_earliest :
  forall data dm location_name st' day,
    aggregate_metrics (Some data) dm location_name = Ok st' ->
    (forall records r i h,
       In records data -> In r (readings records) ->
       day_reading day r = Some (i, h) ->
       exists g',
         group (fst st') day location_name = Some g'
         /\ datetime_le (first_tray_time g') i)
    /\ (forall g,
          group dm day location_name = Some g ->
          exists g',
            group (fst st') day location_name = Some g'
            /\ datetime_le (first_tray_time g') (first_tray_time g))
    /\ (forall g',
          group (fst st') day location_name = Some g' ->
          from_before_or_reading datetime first_tray_time (fun _ i => i)
            dm data day location_name g').
Proof.
  intros data dm loc st' day Ha.
  pose proof (aggregate_metrics_grows _ _ _ _ Ha) as Hgrow.
  apply aggregate_metrics_ok in Ha as (batches & dm' & [= <-] & Hf & Hst).
  rewrite Hst in *. split; [|split].
  - intros records r i h Hrec Hr Hd.
    destruct (for_records_bounds _ _ _ _ day _ _ _ _ Hf Hrec Hr Hd)
      as (g & Hg & Hle & _).
    exists (with_average g). rewrite group_finalize. simpl in Hg. rewrite Hg.
    split; [reflexivity|exact Hle].
  - intros g Hg. destruct (Hgrow _ _ _ Hg) as (g' & Hg' & _ & _ & Hle).
    exists g'. split; [exact Hg'|exact Hle].
  - intros g' Hg'. rewrite group_finalize in Hg'.
    destruct (group dm' day loc) as [g1|] eqn:Hg1; [|discriminate].
    injection Hg' as <-.
    pose proof (for_records_attained datetime first_tray_time (fun _ i => i)
                  loc data dm (dm', snd st') day) as Hatt.
    specialize (Hatt ltac:(reflexivity)).
    assert (Hu : forall records i h g m,
              update_metrics (Z.of_nat (length (readings records))) i h g = Ok m ->
              first_tray_time m = first_tray_time g \/ first_tray_time m = i).
    { intros records i h g m Hu. apply update_metrics_ok in Hu as (-> & _).
      apply datetime_min_cases. }
    specialize (Hatt Hu Hf g1 Hg1).
    destruct Hatt as [(g0 & Hg0 & Hf0)|(r1 & r2 & i1 & h1 & H1 & H2 & H3 & H4)].
    + left. exists g0. auto.
    + right. exists r1, r2, i1, h1. auto.
Qed.

Lemma first_tray_time_is_the_earliest_witness :
  match aggregate_metrics (Some last_tray_batches) [] "Store A" with
  | Ok st' =>
      exists g',
        group (fst st') "2024-01-01" "Store A" = Some g'
        /\ datetime_le (first_tray_time g') (mk_datetime 2024 1 1 8 50 0)
  | Raise _ => False
  end.
Proof.
  destruct (aggregate_metrics (Some last_tray_batches) [] "Store A") as [st'|e] eqn:Ha.
  - refine (proj1 (first_tray_time_is_the_earliest _ _ _ _ "2024-01-01" Ha)
              (batch_of 6 "20240101_085000" "2024-01-01 10:00:00")
              (reading_of "20240101_085000" "2024-01-01 10:00:00")
              _ (timedelta_hours 1 + 600000000) _ _ _).
    + right. right. left. reflexivity.
    + left. reflexivity.
    + vm_compute. reflexivity.
  - vm_compute in Ha. discriminate.
Defined.

(** After a call, the [total_trays] of a group is the largest tray count
    it has seen: it is not smaller than the tray count of any batch of the
    call with a reading that went to the group nor than its value before
    the call, and it is one of these. *)
Theorem total_trays_is_the_largest :
  forall data dm location_name st' day,
    aggregate_metrics (Some data) dm location_name = Ok st' ->
    (forall records r i h,
       In records data -> In r (readings records) ->
       day_reading day r = Some (i, h) ->
       exists g',
         group (fst st') day location_name = Some g'
         /\ Z.of_nat (length (readings records)) <= total_trays g')
    /\ (forall g,
          group dm day location_name = Some g ->
          exists g',
            group (fst st') day location_name = Some g'
            /\ total_trays g <= total_trays g')
    /\ (forall g',
          group (fst st') day location_name = Some g' ->
          from_before_or_reading Z total_trays
            (fun records _ => Z.of_nat (length (readings records)))
            dm data day location_name g').
Proof.
  intros data dm loc st' day Ha.
  pose proof (aggregate_metrics_grows _ _ _ _ Ha) as Hgrow.
  apply aggregate_metrics_ok in Ha as (batches & dm' & [= <-] & Hf & Hst).
  rewrite Hst in *. split; [|split].
  - intros records r i h Hrec Hr Hd.
    destruct (for_records_bounds _ _ _ _ day _ _ _ _ Hf Hrec Hr Hd)
      as (g & Hg & _ & Hle).
    exists (with_average g). rewrite group_finalize. simpl in Hg. rewrite Hg.
    split; [reflexivity|exact Hle].
  - intros g Hg. destruct (Hgrow _ _ _ Hg) as (g' & Hg' & Hle & _).
    exists g'. split; [exact Hg'|exact Hle].
  - intros g' Hg'. rewrite group_finalize in Hg'.
    destruct (group dm' day loc) as [g1|] eqn:Hg1; [|discriminate].
    injection Hg' as <-.
    pose proof (for_records_attained Z total_trays
                  (fun records _ => Z.of_nat (length (readings records)))
                  loc data dm (dm', snd st') day) as Hatt.
    specialize (Hatt ltac:(reflexivity)).
    assert (Hu : forall records i h g m,
              update_metrics (Z.of_nat (length (readings records))) i h g = Ok m ->
              total_trays m = total_trays g
              \/ total_trays m = Z.of_nat (length (readings records))).
    { intros records i h g m Hu. apply update_metrics_ok in Hu as (_ & _ & -> & _).
      lia. }
    specialize (Hatt Hu Hf g1 Hg1).
    destruct Hatt as [(g0 & Hg0 & Hf0)|(r1 & r2 & i1 & h1 & H1 & H2 & H3 & H4)].
    + left. exists g0. auto.
    + right. exists r1, r2, i1, h1. auto.
Qed.

Lemma total_trays_is_the_largest_witness :
  match aggregate_metrics (Some tray_count_batches) [] "Store A" with
  | Ok st' =>
      exists g', group (fst st') "2024-01-01" "Store A" = Some g' /\ 7 <= total_trays g'
  | Raise _ => False
  end.
Proof.
  destruct (aggregate_metrics (Some tray_count_batches) [] "Store A") as [st'|e] eqn:Ha.
  - refine (proj1 (total_trays_is_the_largest _ _ _ _ "2024-01-01" Ha)
              (batch_of 7 "20240101_090000" "2024-01-01 10:00:00")
              (reading_of "20240101_090000" "2024-01-01 10:00:00")
              _ (timedelta_hours 1) _ _ _).
    + right. right. right. left. reflexivity.
    + left. reflexivity.
    + vm_compute. reflexivity.
  - vm_compute in Ha. discriminate.
Defined.

(** ** Day keys and the calendar *)

Lemma datetime_new_valid (y mo d h mi s : Z) (dt : datetime) :
  datetime_new y mo d h mi s = Ok dt -> valid_datetime dt.
Proof.
  unfold datetime_new.
  destruct ((1 <=? y) && (y <=? 9999) && (1 <=? mo) && (mo <=? 12) && (1 <=? d)
            && (d <=? days_in_month y mo) && (0 <=? h) && (h <=? 23) && (0 <=? mi)
            && (mi <=? 59) && (0 <=? s) && (s <=? 59)) eqn:E; [|discriminate].
  intros [= <-]. rewrite !andb_true_iff, !Z.leb_le in E.
  unfold valid_datetime. simpl. lia.
Qed.

Lemma strptime_valid (data_string format : string) (d : datetime) :
  strptime data_string format = Ok d -> valid_datetime d.
Proof.
  unfold strptime. destruct (pattern format false) as [items|]; [|discriminate].
  destruct (match_items items default_fields data_string) as [|[f rest] l];
    [discriminate|].
  destruct rest; [|discriminate]. apply datetime_new_valid.
Qed.

Lemma parse_reading_valid (r : Reading) (i c : datetime) :
  parse_reading r = Ok (i, c) -> valid_datetime i /\ valid_datetime c.
Proof.
  unfold parse_reading.
  destruct (getitem r "initial_timestamp") as [s|]; simpl; [|discriminate].
  destruct (strptime s "%Y%m%d_%H%M%S") as [i0|] eqn:Hi; simpl; [|discriminate].
  destruct (getitem r "current_timestamp") as [s'|]; simpl; [|discriminate].
  destruct (strptime s' "%Y-%m-%d %H:%M:%S") as [c0|] eqn:Hc; simpl; [|discriminate].
  intros [= <- <-]. split; eapply strptime_valid; eassumption.
Qed.

Lemma N_of_ascii_digit_char (d : Z) :
  N_of_ascii (digit_char d) = Z.to_N (48 + d mod 10).
Proof.
  unfold digit_char. apply N_ascii_embedding.
  pose proof (Z.mod_pos_bound d 10). lia.
Qed.

Lemma compare_digit_char (a b : Z) (s s' : string) :
  String.compare (String (digit_char a) s) (String (digit_char b) s')
  = match a mod 10 ?= b mod 10 with
    | Eq => String.compare s s'
    | c => c
    end.
Proof.
  cbn [String.compare]. unfold Ascii.compare. rewrite !N_of_ascii_digit_char.
  pose proof (Z.mod_pos_bound a 10). pose proof (Z.mod_pos_bound b 10).
  rewrite Z2N.inj_compare by lia. rewrite Z.add_compare_mono_l.
  destruct (a mod 10 ?= b mod 10); reflexivity.
Qed.

Lemma compare_same_char (c : ascii) (s s' : string) :
  String.compare (String c s) (String c s') = String.compare s s'.
Proof. cbn [String.compare]. unfold Ascii.compare. rewrite N.compare_refl. reflexivity. Qed.

Lemma append_String (c : ascii) (s s' : string) :
  (String c s ++ s')%string = String c (s ++ s')%string.
Proof. reflexivity. Qed.

Lemma append_empty (s : string) : ("" ++ s)%string = s.
Proof. reflexivity. Qed.

Lemma compare_same_string (s : string) : String.compare s s = Eq.
Proof. induction s as [|c s IH]; [reflexivity|]. rewrite compare_same_char. exact IH. Qed.

Lemma compare_pad2 (m m' : Z) (s s' : string) :
  0 <= m <= 99 -> 0 <= m' <= 99 ->
  String.compare (pad2 m ++ s) (pad2 m' ++ s')
  = match m ?= m' with
    | Eq => String.compare s s'
    | c => c
    end.
Proof.
  intros Hm Hm'. unfold pad2. rewrite !append_String, !append_empty, !compare_digit_char.
  destruct (Z.compare_spec ((m / 10) mod 10) ((m' / 10) mod 10));
    destruct (Z.compare_spec (m mod 10) (m' mod 10));
    destruct (Z.compare_spec m m');
    try reflexivity; exfalso; Z.div_mod_to_equations; lia.
Qed.

Lemma compare_pad4 (y y' : Z) (s s' : string) :
  0 <= y <= 9999 -> 0 <= y' <= 9999 ->
  String.compare (pad4 y ++ s) (pad4 y' ++ s')
  = match y ?= y' with
    | Eq => String.compare s s'
    | c => c
    end.
Proof.
  intros Hy Hy'. unfold pad4, pad2. rewrite !append_String, !append_empty, !compare_digit_char.
  destruct (Z.compare_spec ((y / 1000) mod 10) ((y' / 1000) mod 10));
    [|destruct (Z.compare_spec y y'); try reflexivity; exfalso;
      Z.div_mod_to_equations; lia..].
  destruct (Z.compare_spec ((y / 100) mod 10) ((y' / 100) mod 10));
    [|destruct (Z.compare_spec y y'); try reflexivity; exfalso;
      Z.div_mod_to_equations; lia..].
  destruct (Z.compare_spec ((y / 10) mod 10) ((y' / 10) mod 10));
    [|destruct (Z.compare_spec y y'); try reflexivity; exfalso;
      Z.div_mod_to_equations; lia..].
  destruct (Z.compare_spec (y mod 10) (y' mod 10));
    destruct (Z.compare_spec y y'); try reflexivity; exfalso;
    Z.div_mod_to_equations; lia.
Qed.

Lemma compare_strftime_Ymd (a b : datetime) :
  valid_datetime a -> valid_datetime b ->
  String.compare (strftime_Ymd a) (strftime_Ymd b) = date_compare a b.
Proof.
  intros (Hy & Hm & Hd & _) (Hy' & Hm' & Hd' & _).
  assert (Hdm : forall y m, days_in_month y m <= 31).
  { intros y m. unfold days_in_month.
    destruct (m =? 2); [destruct (is_leap y); lia|].
    destruct ((m =? 4) || (m =? 6) || (m =? 9) || (m =? 11)); lia. }
  pose proof (Hdm (year a) (month a)). pose proof (Hdm (year b) (month b)).
  change (strftime_Ymd a)
    with (pad4 (year a) ++ "-" ++ pad2 (month a) ++ "-" ++ pad2 (day a) ++ "").
  change (strftime_Ymd b)
    with (pad4 (year b) ++ "-" ++ pad2 (month b) ++ "-" ++ pad2 (day b) ++ "").
  rewrite !append_String, !append_empty.
  rewrite compare_pad4 by lia. rewrite compare_same_char.
  rewrite compare_pad2 by lia. rewrite compare_same_char.
  rewrite compare_pad2 by lia.
  unfold date_compare, date_tuple. cbn [tuple_compare String.compare].
  reflexivity.
Qed.

Lemma date_compare_eq (a b : datetime) :
  date_compare a b = Eq <-> date_tuple a = date_tuple b.
Proof.
  unfold date_compare, date_tuple. cbn [tuple_compare].
  destruct (Z.compare_spec (year a) (year b));
    destruct (Z.compare_spec (month a) (month b));
    destruct (Z.compare_spec (day a) (day b));
    split; intros Heq; try discriminate; try congruence;
    injection Heq; intros; lia.
Qed.

(** The day keys follow the calendar.  For two readings whose timestamps
    parse, with [initial_timestamp]s in the years printed on four digits
    (1000 and later), the keys of their days ([initial_timestamp.strftime
    ("%Y-%m-%d")], lines 79-81) are equal exactly when the two dates are,
    and ordered as strings, the order of line 123, exactly as the dates
    are. *)
Theorem day_keys_follow_the_calendar :
  forall r r' i c i' c',
    parse_reading r = Ok (i, c) ->
    parse_reading r' = Ok (i', c') ->
    1000 <= year i -> 1000 <= year i' ->
    (strftime_Ymd i = strftime_Ymd i' <-> date_tuple i = date_tuple i')
    /\ (str_le (strftime_Ymd i) (strftime_Ymd i') <-> date_compare i i' <> Gt).
Proof.
  intros r r' i c i' c' Hr Hr' _ _.
  apply parse_reading_valid in Hr as [Hi _].
  apply parse_reading_valid in Hr' as [Hi' _].
  pose proof (compare_strftime_Ymd i i' Hi Hi') as Hc.
  split.
  - rewrite <- date_compare_eq, <- Hc. split.
    + intros Heq. rewrite Heq. apply compare_same_string.
    + apply String.compare_eq_iff.
  - unfold str_le, String.leb. rewrite Hc.
    destruct (date_compare i i'); split; intros H; congruence.
Qed.

Lemma day_keys_follow_the_calendar_witness :
  str_le (strftime_Ymd (mk_datetime 2023 12 31 23 0 0))
         (strftime_Ymd (mk_datetime 2024 1 1 8 0 0)).
Proof.
  apply (proj2 (day_keys_follow_the_calendar
                  (reading_of "20231231_230000" "2024-01-01 01:00:00") reading_2h
                  (mk_datetime 2023 12 31 23 0 0) (mk_datetime 2024 1 1 1 0 0)
                  (mk_datetime 2024 1 1 8 0 0) (mk_datetime 2024 1 1 10 0 0)
                  ltac:(vm_compute; reflexivity) ltac:(vm_compute; reflexivity)
                  ltac:(simpl; lia) ltac:(simpl; lia))).
  vm_compute. discriminate.
Defined.

(** ** The report *)

Lemma days_in_month_bound (y m : Z) : 28 <= days_in_month y m <= 31.
Proof.
  unfold days_in_month. destruct (m =? 2); [destruct (is_leap y); lia|].
  destruct ((m =? 4) || (m =? 6) || (m =? 9) || (m =? 11)); lia.
Qed.

Lemma days_before_month_bound (y m : Z) :
  1 <= m <= 12 -> 0 <= days_before_month y m <= 335.
Proof.
  intros Hm.
  assert (Hc : m = 1 \/ m = 2 \/ m = 3 \/ m = 4 \/ m = 5 \/ m = 6 \/ m = 7
               \/ m = 8 \/ m = 9 \/ m = 10 \/ m = 11 \/ m = 12) by lia.
  unfold days_before_month.
  repeat (destruct Hc as [->|Hc]; [simpl; destruct (is_leap y); simpl; lia|]).
  subst m. simpl. destruct (is_leap y); simpl; lia.
Qed.

Lemma toordinal_bound (d : datetime) :
  valid_datetime d -> 1 <= toordinal d <= max_ordinal + 2.
Proof.
  intros (Hy & Hm & Hd & _).
  pose proof (days_before_month_bound (year d) (month d) Hm).
  pose proof (days_in_month_bound (year d) (month d)).
  unfold toordinal, ymd2ord, days_before_year, max_ordinal.
  Z.div_mod_to_equations. lia.
Qed.

Lemma datetime_sub_days_ok (d : datetime) (n : Z) :
  valid_datetime d -> 2 <= n < toordinal d ->
  exists d', datetime_sub_days d n = Ok d'.
Proof.
  intros Hv Hn. pose proof (toordinal_bound d Hv) as Hb.
  unfold datetime_sub_days. fold (toordinal d).
  destruct ((0 <? toordinal d - n) && (toordinal d - n <=? max_ordinal)) eqn:E.
  - destruct (ord2ymd (toordinal d - n)) as [[y m] dd]. eauto.
  - apply andb_false_iff in E as [E|E]; [apply Z.ltb_ge in E|apply Z.leb_gt in E]; lia.
Qed.

Lemma table_row_printable (g : Metrics) :
  (exists row, table_row g = Built row) <-> printable g.
Proof.
  unfold table_row, format_percent, average_minutes, printable. split.
  - intros [row H].
    destruct (percentage_trays_over_hold g) as [n|a b].
    + destruct (float_overflows n 1) eqn:Ho; [discriminate|].
      destruct (average_hold_time g) as [[t|k]|]; try discriminate.
      split; [intros n' [= <-]; exact Ho|eauto].
    + destruct (average_hold_time g) as [[t|k]|]; try discriminate.
      split; [intros n' [=]|eauto].
  - intros [Hp [t Ht]]. rewrite Ht.
    destruct (percentage_trays_over_hold g) as [n|a b].
    + rewrite (Hp n eq_refl). simpl. eauto.
    + simpl. eauto.
Qed.

Lemma for_stores_built (stores : dict Metrics) :
  (exists calls, for_stores stores = Built calls)
  <-> forall l g, In (l, g) stores -> printable g.
Proof.
  induction stores as [|[l0 g0] stores IH]; simpl.
  - split; [intros _ l g []|eauto].
  - unfold store_calls. split.
    + intros [calls H] l g [[= <- <-]|Hin].
      * apply table_row_printable.
        destruct (table_row g0) as [row|]; [eauto|discriminate].
      * refine (proj1 IH _ l g Hin).
        destruct (table_row g0) as [row|]; [|discriminate]. simpl in H.
        destruct (for_stores stores) as [calls'|]; [eauto|discriminate].
    + intros Hall.
      destruct (proj2 (table_row_printable g0) (Hall l0 g0 (or_introl eq_refl)))
        as [row ->].
      destruct (proj2 IH (fun l g Hin => Hall l g (or_intror Hin))) as [calls' ->].
      simpl. eauto.
Qed.

Lemma for_days_built (dm : DailyMetrics) :
  (exists calls, for_days dm = Built calls) <-> all_groups printable dm.
Proof.
  unfold all_groups. induction dm as [|[day0 stores0] dm IH]; simpl.
  - split; [intros _ d l g []|eauto].
  - split.
    + intros [calls H] d l g Hin. apply in_app_or in Hin as [Hin|Hin].
      * apply in_map_iff in Hin as ([l' g'] & [= _ -> ->] & Hin).
        refine (proj1 (for_stores_built stores0) _ l g Hin).
        destruct (for_stores stores0) as [c|]; [eauto|discriminate].
      * refine (proj1 IH _ d l g Hin).
        destruct (for_stores stores0) as [c|]; [|discriminate]. simpl in H.
        destruct (for_days dm) as [c'|]; [eauto|discriminate].
    + intros Hall.
      assert (Hs : exists calls, for_stores stores0 = Built calls).
      { apply for_stores_built. intros l g Hin. apply (Hall day0 l g).
        apply in_or_app. left. apply in_map_iff. exists (l, g). auto. }
      destruct Hs as [c ->].
      destruct (proj2 IH (fun d l g Hin => Hall d l g (in_or_app _ _ _ (or_intror Hin))))
        as [c' ->].
      simpl. eauto.
Qed.

Lemma generate_pdf_built (now now' : datetime) (dm : DailyMetrics) :
  (exists calls, generate_pdf now now' dm = Built calls)
  <-> (exists week_start, datetime_sub_days now 7 = Ok week_start)
      /\ all_groups printable dm.
Proof.
  unfold generate_pdf. rewrite <- for_days_built. split.
  - intros [calls H]. destruct (datetime_sub_days now 7) as [w|]; [|discriminate].
    split; [eauto|]. destruct (for_days dm) as [c|]; [eauto|discriminate].
  - intros [[w ->] [c ->]]. simpl. eauto.
Qed.

(** The groups a call leaves can be printed when those it found could:
    the percentage is the int 0 of a new group or a float, and a group
    with a tray has a timedelta for its average. *)
Lemma aggregate_metrics_printable (data : option (list Records)) (dm : DailyMetrics)
    (location_name : string) (st' : state) :
  all_groups (fun g => 1 <= total_trays g /\ printable g) dm ->
  aggregate_metrics data dm location_name = Ok st' ->
  all_groups (fun g => 1 <= total_trays g /\ printable g) (fst st').
Proof.
  intros Hall Ha. apply aggregate_metrics_ok in Ha as (batches & dm' & _ & Hf & ->).
  apply (for_records_all_groups
           (fun g => 1 <= total_trays g
                     /\ forall n, percentage_trays_over_hold g = PctInt n ->
                                  float_overflows n 1 = false)) in Hf.
  - intros day l g Hin. apply In_groups_finalize in Hin as (g0 & Hin & ->).
    destruct (Hf _ _ _ Hin) as [Ht Hp]. unfold printable, with_average. simpl.
    split; [exact Ht|]. split; [exact Hp|].
    destruct (0 <? total_trays g0) eqn:E; [eauto|]. apply Z.ltb_ge in E. lia.
  - intros n i h Hn. simpl. split; [exact Hn|]. intros n' [= <-]. reflexivity.
  - intros n i h g m Hn [Ht Hp] Hu.
    apply update_metrics_ok in Hu as (_ & _ & Ht' & _ & _ & Hp' & _).
    rewrite Ht', Hp'. split; [lia|].
    destruct (hold_limit <? h); [intros n' [=]|exact Hp].
  - intros day l g Hin. destruct (Hall _ _ _ Hin) as [Ht [Hp _]]. auto.
Qed.

Lemma main_printable (locs : list location) (st' : state) :
  main locs = Ok st' -> all_groups printable (fst st').
Proof.
  intros Hm day l g Hin.
  apply (main_loop_invariant
           (all_groups (fun g => 1 <= total_trays g /\ printable g)) locs)
    with (st := ([], [])) (st' := st') in Hm.
  - apply (Hm day l g Hin).
  - intros data dm loc s. apply aggregate_metrics_printable.
  - intros d l' g' [].
Qed.

(** The table [main] builds can always be turned into the report: with a
    clock past the first week of year 1, [generate_pdf] builds the row of
    every group and reaches [pdf.output]; no group lacks its average, has an
    int for it or a percentage that cannot be formatted. *)
Theorem report_of_a_run :
  forall locs st now now',
    main locs = Ok st ->
    valid_datetime now -> 7 < toordinal now ->
    exists calls,
      generate_pdf now now' (fst st) = Built calls
      /\ In (Output PDF_OUTPUT_FILENAME) calls.
Proof.
  intros locs st now now' Hm Hv Ho.
  assert (Hb : exists calls, generate_pdf now now' (fst st) = Built calls).
  { apply generate_pdf_built. split.
    - apply datetime_sub_days_ok; [exact Hv|lia].
    - eapply main_printable, Hm. }
  destruct Hb as [calls Hc]. exists calls. split; [exact Hc|].
  unfold generate_pdf in Hc.
  destruct (datetime_sub_days now 7) as [w|]; [|discriminate].
  destruct (for_days st.1) as [c|]; [|discriminate]. simpl in Hc.
  injection Hc as <-.
  do 5 right. apply in_or_app. right. apply in_or_app. right. left. reflexivity.
Qed.

Lemma report_of_a_run_witness :
  match main [mk_location "loc-1" (Response tray_count_batches) "Store B";
              mk_location "loc-2" QueryRaises "Store A"] with
  | Ok st =>
      exists calls,
        generate_pdf (mk_datetime 2024 1 8 9 0 0) (mk_datetime 2024 1 8 9 0 1) (fst st)
        = Built calls
        /\ In (Output PDF_OUTPUT_FILENAME) calls
  | Raise _ => False
  end.
Proof.
  destruct (main [mk_location "loc-1" (Response tray_count_batches) "Store B";
                  mk_location "loc-2" QueryRaises "Store A"]) as [st|e] eqn:Hm.
  - apply (report_of_a_run _ _ _ _ Hm).
    + unfold valid_datetime. vm_compute. intuition discriminate.
    + vm_compute. reflexivity.
  - vm_compute in Hm. discriminate.
Defined.

(** A group without a tray stops the report.  When a call of
    [aggregate_metrics] returns a table with a group whose [total_trays] is
    not positive (such a group can only come from the table the caller
    passed), the average of the group is the int 0, which has no [seconds]:
    its row cannot be built and [generate_pdf] raises on the table, before
    it writes the file. *)
Theorem group_without_trays_stops_the_report :
  forall data dm location_name st day l g now now',
    aggregate_metrics data dm location_name = Ok st ->
    In (day, l, g) (groups (fst st)) ->
    total_trays g <= 0 ->
    average_hold_time g = Some (AvgInt 0)
    /\ (forall row, table_row g <> Built row)
    /\ (forall calls, generate_pdf now now' (fst st) <> Built calls).
Proof.
  intros data dm loc st day l g now now' Ha Hin Ht.
  assert (Havg : average_hold_time g = Some (AvgInt 0)).
  { apply aggregate_metrics_ok in Ha as (batches & dm' & _ & _ & Hst).
    rewrite Hst in Hin. apply In_groups_finalize in Hin as (g0 & _ & ->).
    unfold with_average in *. simpl in *.
    destruct (0 <? total_trays g0) eqn:E; [apply Z.ltb_lt in E; lia|reflexivity]. }
  assert (Hnp : ~ printable g).
  { intros [_ [t Hp]]. rewrite Havg in Hp. discriminate. }
  split; [exact Havg|]. split.
  - intros row Hrow. apply Hnp, table_row_printable. eauto.
  - intros calls Hc. apply Hnp.
    assert (Hb : exists calls, generate_pdf now now' (fst st) = Built calls) by eauto.
    apply generate_pdf_built in Hb as [_ Hall]. apply (Hall day l g Hin).
Qed.

Lemma group_without_trays_stops_the_report_witness :
  match aggregate_metrics (Some [])
          [("2024-01-01", [("Store A", new_metrics 0 (mk_datetime 2024 1 1 8 0 0) 0)])]
          "Store B" with
  | Ok st =>
      forall calls,
        generate_pdf (mk_datetime 2024 1 8 9 0 0) (mk_datetime 2024 1 8 9 0 1) (fst st)
        <> Built calls
  | Raise _ => False
  end.
Proof.
  destruct (aggregate_metrics (Some [])
              [("2024-01-01", [("Store A", new_metrics 0 (mk_datetime 2024 1 1 8 0 0) 0)])]
              "Store B") as [st|e] eqn:Ha.
  - refine (proj2 (proj2 (group_without_trays_stops_the_report
                            _ _ _ _ "2024-01-01" "Store A"
                            (with_average (new_metrics 0 (mk_datetime 2024 1 1 8 0 0) 0))
                            _ _ Ha _ _))).
    + vm_compute in Ha. injection Ha as <-. left. reflexivity.
    + simpl. lia.
  - vm_compute in Ha. discriminate.
Defined.

Lemma for_stores_titles (stores : dict Metrics) (calls : list call) :
  for_stores stores = Built calls ->
  day_titles calls = []
  /\ store_titles calls = map (fun x => "Store: " ++ fst x) stores
  /\ map Built (table_rows calls) = map (fun x => table_row (snd x)) stores.
Proof.
  revert calls. induction stores as [|[l g] stores IH]; intros calls; simpl.
  - intros [= <-]. auto.
  - unfold store_calls. destruct (table_row g) as [row|] eqn:Hrow; [|discriminate].
    simpl. destruct (for_stores stores) as [calls'|]; [|discriminate]. simpl.
    intros [= <-]. destruct (IH calls' eq_refl) as (Hd & Hs & Hr).
    cbn [day_titles store_titles table_rows flat_map app].
    fold (day_titles calls') (store_titles calls') (table_rows calls').
    rewrite Hd, Hs. cbn [map]. rewrite Hr. auto.
Qed.

Lemma for_days_titles (dm : DailyMetrics) (calls : list call) :
  for_days dm = Built calls ->
  day_titles calls = map (fun x => "Day: " ++ fst x) dm
  /\ store_titles calls
     = flat_map (fun x => map (fun y => "Store: " ++ fst y) (snd x)) dm
  /\ map Built (table_rows calls)
     = flat_map (fun x => map (fun y => table_row (snd y)) (snd x)) dm.
Proof.
  revert calls. induction dm as [|[day stores] dm IH]; intros calls; simpl.
  - intros [= <-]. auto.
  - destruct (for_stores stores) as [c|] eqn:Hs; [|discriminate]. simpl.
    destruct (for_days dm) as [c'|]; [|discriminate]. simpl.
    intros [= <-]. destruct (IH c' eq_refl) as (Hd & Hst & Hr).
    destruct (for_stores_titles _ _ Hs) as (Hd0 & Hst0 & Hr0).
    unfold day_titles, store_titles, table_rows in *.
    cbn [flat_map app]. rewrite !flat_map_app, Hd, Hst, Hd0, Hst0.
    rewrite map_app, Hr, Hr0. auto.
Qed.

Lemma In_day_titles (title : string) (calls : list call) :
  In (AddDayTitle title) calls <-> In title (day_titles calls).
Proof.
  unfold day_titles. rewrite in_flat_map. split.
  - intros H. exists (AddDayTitle title). split; [exact H|]. left. reflexivity.
  - intros (c & Hc & Ht). destruct c; simpl in Ht; try contradiction.
    destruct Ht as [->|[]]. exact Hc.
Qed.

(** The report follows the table.  When [generate_pdf] reaches the end, it
    has made one day title per day and one store title and one row per
    group, in the order of the table; and it has written "No data found for
    this week." exactly when the table is empty. *)
Theorem report_follows_the_table :
  forall now now' dm calls,
    generate_pdf now now' dm = Built calls ->
    day_titles calls
    = match dm with
      | [] => ["No data found for this week."]
      | _ :: _ => map (fun x => "Day: " ++ fst x) dm
      end
    /\ store_titles calls
       = flat_map (fun x => map (fun y => "Store: " ++ fst y) (snd x)) dm
    /\ map Built (table_rows calls)
       = flat_map (fun x => map (fun y => table_row (snd y)) (snd x)) dm
    /\ (In (AddDayTitle "No data found for this week.") calls <-> dm = []).
Proof.
  intros now now' dm calls H. unfold generate_pdf in H.
  destruct (datetime_sub_days now 7) as [w|]; [|discriminate].
  destruct (for_days dm) as [c|] eqn:Hc; [|discriminate]. simpl in H.
  injection H as <-. destruct (for_days_titles _ _ Hc) as (Hd & Hs & Hr).
  assert (Hdt : day_titles
                  (AddPage :: SetFirstPage false :: SetFont "helvetica" "" 12
                   :: Cell 0 10
                        ("Reporting Week: " ++ strftime_Ymd w ++ " to " ++ strftime_Ymd now')
                        "C"
                   :: Ln 10
                   :: (match dm with
                       | [] => [AddDayTitle "No data found for this week."]
                       | _ :: _ => []
                       end
                       ++ c ++ [Output PDF_OUTPUT_FILENAME;
                                PrintGenerated PDF_OUTPUT_FILENAME])%list)
                = match dm with
                  | [] => ["No data found for this week."]
                  | _ :: _ => map (fun x => "Day: " ++ fst x) dm
                  end).
  { unfold day_titles in *. cbn [flat_map app]. rewrite !flat_map_app, Hd.
    destruct dm; simpl; [reflexivity|]. rewrite app_nil_r. reflexivity. }
  split; [exact Hdt|]. split; [|split].
  - unfold store_titles in *. cbn [flat_map app]. rewrite !flat_map_app, Hs.
    destruct dm; simpl; [reflexivity|]. rewrite app_nil_r. reflexivity.
  - unfold table_rows in *. cbn [flat_map app]. rewrite !flat_map_app, !map_app, Hr.
    destruct dm; simpl; [reflexivity|]. rewrite app_nil_r. reflexivity.
  - rewrite In_day_titles, Hdt. destruct dm as [|[d s] dm].
    + split; [reflexivity|]. intros _. left. reflexivity.
    + split; [|discriminate]. intros Hin. exfalso.
      apply in_map_iff in Hin as (x & Hx & _).
      rewrite append_String in Hx. discriminate.
Qed.

Lemma report_follows_the_table_witness :
  day_titles
    [AddPage; SetFirstPage false; SetFont "helvetica" "" 12;
     Cell 0 10 "Reporting Week: 2024-01-01 to 2024-01-08" "C"; Ln 10;
     AddDayTitle "No data found for this week.";
     Output PDF_OUTPUT_FILENAME; PrintGenerated PDF_OUTPUT_FILENAME]
  = ["No data found for this week."].
Proof.
  exact (proj1 (report_follows_the_table
                  (mk_datetime 2024 1 8 9 0 0) (mk_datetime 2024 1 8 9 0 1) [] _
                  ltac:(vm_compute; reflexivity))).
Defined.




(** ** A failed query *)

(** A location whose query fails leaves the table of the calls before it
    as it is: [fetch_sensor_readings] prints the error and returns no batch,
    and on a table a call returned, the averages computed and the order
    established once more are the same. *)
Theorem failed_query_keeps_the_table :
  forall data dm location_name st loc_id location_name',
    aggregate_metrics data dm location_name = Ok st ->
    fetch_sensor_readings loc_id QueryRaises = (Some [], [PrintFetchError])
    /\ aggregate_metrics (fst (fetch_sensor_readings loc_id QueryRaises)) (fst st)
         location_name'
       = Ok (fst st, []).
Proof.
  intros data dm loc st loc_id loc' Ha. split; [reflexivity|].
  apply aggregate_metrics_ok in Ha as (batches & dm' & _ & _ & ->).
  unfold aggregate_metrics. simpl. rewrite finalize_idem. reflexivity.
Qed.

Lemma failed_query_keeps_the_table_witness :
  match aggregate_metrics (Some tray_count_batches) [] "Store A" with
  | Ok st =>
      aggregate_metrics (fst (fetch_sensor_readings "loc-2" QueryRaises)) (fst st) "Store B"
      = Ok (fst st, [])
  | Raise _ => False
  end.
Proof.
  destruct (aggregate_metrics (Some tray_count_batches) [] "Store A") as [st|e] eqn:Ha.
  - exact (proj2 (failed_query_keeps_the_table _ _ _ _ "loc-2" "Store B" Ha)).
  - vm_compute in Ha. discriminate.
Defined.
